(** * OLAP assistant: planner, plan executor and analytical agents

    A shallow embedding of the query-planning and execution engine of the
    repository (backend/core/orchestrator.py and backend/agents/*.py) and
    the properties its specification states about it.

    Conventions of the embedding.
    - Python values that travel in parameter bags and result tables are the
      inductive type [Py.value]; a dict is an association list in insertion
      order (the order of [dict.items()] decides the order of predicates
      and bind values).
    - A call that may raise returns [Py.result]; the exception carries its
      class name and the text [str(e)] gives.
    - The storage collaborator ([BaseAgent.execute_sql], i.e.
      [database.query_df]) is an oracle from a query text and its bind
      values to a table or an exception.  [query_df] builds the DataFrame
      from a list of row dicts, so a table is a list of rows and an empty
      table has no columns.
    - Text is a [string] of bytes; [str.lower], [str.title], [str.split]
      and [str.isdigit] are modelled on ASCII.
    - SQLite and pandas floats are idealised as exact numbers: rationals
      where the code only adds, subtracts, multiplies, divides and rounds,
      reals where it takes a square root. *)

From Stdlib Require Import List String Ascii Bool Arith ZArith QArith Lia.
From Stdlib Require Import Qround Qabs.
From Stdlib Require Import DecimalString.
From Stdlib Require Import Reals Qreals Lra.
Import ListNotations.

Set Warnings "-register-all".

Local Open Scope list_scope.
Local Open Scope string_scope.

(* ===================================================================== *)
(** ** Python values, exceptions and text                                 *)
(* ===================================================================== *)

Module Py.

(** A float: a finite number, not-a-number or an infinity.  Finite numbers
    are exact rationals kept in lowest terms (signed zeros are not told
    apart). *)
Inductive float : Type :=
| Fin (q : Q)
| NaN
| Inf (negative : bool).

Definition fneg (a : float) : float :=
  match a with
  | Fin x => Fin (Qred (- x))
  | NaN => NaN
  | Inf s => Inf (negb s)
  end.

Definition fadd (a b : float) : float :=
  match a, b with
  | NaN, _ | _, NaN => NaN
  | Fin x, Fin y => Fin (Qred (x + y))
  | Inf s, Fin _ | Fin _, Inf s => Inf s
  | Inf s, Inf t => if Bool.eqb s t then Inf s else NaN
  end.

Definition fsub (a b : float) : float := fadd a (fneg b).

Definition Qneg_b (x : Q) : bool := negb (Qle_bool 0 x).

Definition fmul (a b : float) : float :=
  match a, b with
  | NaN, _ | _, NaN => NaN
  | Fin x, Fin y => Fin (Qred (x * y))
  | Inf s, Fin y | Fin y, Inf s =>
      if Qeq_bool y 0 then NaN else Inf (xorb s (Qneg_b y))
  | Inf s, Inf t => Inf (xorb s t)
  end.

(** Division of numpy floats: dividing by zero gives an infinity or
    not-a-number, it does not raise. *)
Definition fdiv (a b : float) : float :=
  match a, b with
  | NaN, _ | _, NaN => NaN
  | Fin x, Fin y =>
      if Qeq_bool y 0
      then (if Qeq_bool x 0 then NaN else Inf (Qneg_b x))
      else Fin (Qred (x / y))
  | Fin _, Inf _ => Fin 0
  | Inf s, Fin y => Inf (xorb s (Qneg_b y))
  | Inf _, Inf _ => NaN
  end.

(** Rounding half to even at [10^-digits]. *)
Definition round_half_even (x : Q) : Z :=
  let f := Qfloor x in
  match Qcompare (x - inject_Z f) (1 # 2) with
  | Lt => f
  | Gt => (f + 1)%Z
  | Eq => if Z.even f then f else (f + 1)%Z
  end.

Definition Qround_to (digits : nat) (x : Q) : Q :=
  let scale := Z.pow 10 (Z.of_nat digits) in
  Qred (inject_Z (round_half_even (x * inject_Z scale)) / inject_Z scale).

(** [round(a, digits)] and [Series.round(digits)] *)
Definition fround (digits : nat) (a : float) : float :=
  match a with
  | Fin x => Fin (Qround_to digits x)
  | _ => a
  end.

Definition of_Z (z : Z) : float := Fin (inject_Z z).

(** JSON-like values: parameter bags, bind values and table cells. *)
Inductive value : Type :=
| VNone
| VBool (b : bool)
| VInt (z : Z)
| VFloat (f : float)
| VStr (s : string)
| VList (l : list value)
| VDict (d : list (string * value)).

Definition dict := list (string * value).

(** An exception: its class and the text of [str(e)]. *)
Record exn : Type := mkExn { exn_class : string; exn_text : string }.

Inductive result (A : Type) : Type :=
| Ok (a : A)
| Raise (e : exn).
Arguments Ok {A} a.
Arguments Raise {A} e.

Definition bind {A B} (r : result A) (k : A -> result B) : result B :=
  match r with
  | Ok a => k a
  | Raise e => Raise e
  end.

Notation "x <- r ;; k" := (bind r (fun x => k))
  (at level 61, r at next level, right associativity).

Fixpoint mapM {A B} (f : A -> result B) (l : list A) : result (list B) :=
  match l with
  | [] => Ok []
  | a :: l' => b <- f a ;; bs <- mapM f l' ;; Ok (b :: bs)
  end.

(** [d.get(k)] / [d.get(k, default)] on a dict with string keys. *)
Fixpoint dict_get (k : string) (d : dict) : option value :=
  match d with
  | [] => None
  | (k', v) :: d' => if String.eqb k k' then Some v else dict_get k d'
  end.

Definition get_default (k : string) (dflt : value) (d : dict) : value :=
  match dict_get k d with
  | Some v => v
  | None => dflt
  end.

Definition has_key (k : string) (d : dict) : bool :=
  match dict_get k d with Some _ => true | None => false end.

(** Truth value of an object ([if x], [not x], [x or y]). *)
Definition truthy (v : value) : bool :=
  match v with
  | VNone => false
  | VBool b => b
  | VInt z => negb (Z.eqb z 0)
  | VFloat (Fin q) => negb (Qeq_bool q 0)
  | VFloat _ => true
  | VStr s => negb (String.eqb s "")
  | VList l => match l with [] => false | _ => true end
  | VDict d => match d with [] => false | _ => true end
  end.

(** ** Text *)

Definition nl : string := String (ascii_of_nat 10) EmptyString.

Definition is_upper (c : ascii) : bool :=
  let n := nat_of_ascii c in (65 <=? n)%nat && (n <=? 90)%nat.

Definition is_lower (c : ascii) : bool :=
  let n := nat_of_ascii c in (97 <=? n)%nat && (n <=? 122)%nat.

Definition is_digit (c : ascii) : bool :=
  let n := nat_of_ascii c in (48 <=? n)%nat && (n <=? 57)%nat.

(** The whitespace [str.split()] splits on: space, tab, newline, vertical
    tab, form feed, carriage return and the separators 28..31. *)
Definition is_space (c : ascii) : bool :=
  let n := nat_of_ascii c in
  (n =? 32)%nat || ((9 <=? n)%nat && (n <=? 13)%nat)
  || ((28 <=? n)%nat && (n <=? 31)%nat).

Definition lower_char (c : ascii) : ascii :=
  if is_upper c then ascii_of_nat (nat_of_ascii c + 32) else c.

Definition upper_char (c : ascii) : ascii :=
  if is_lower c then ascii_of_nat (nat_of_ascii c - 32) else c.

(** [s.lower()] *)
Fixpoint lower (s : string) : string :=
  match s with
  | EmptyString => EmptyString
  | String c s' => String (lower_char c) (lower s')
  end.

(** [s.title()]: a cased letter is upper-cased when it follows an uncased
    character (or starts the text) and lower-cased otherwise. *)
Fixpoint title_from (prev_cased : bool) (s : string) : string :=
  match s with
  | EmptyString => EmptyString
  | String c s' =>
      let cased := is_upper c || is_lower c in
      String (if prev_cased then lower_char c else upper_char c)
             (title_from cased s')
  end.

Definition title (s : string) : string := title_from false s.

(** [s.replace(a, b)] for single characters. *)
Fixpoint replace_char (a b : ascii) (s : string) : string :=
  match s with
  | EmptyString => EmptyString
  | String c s' =>
      String (if Ascii.eqb c a then b else c) (replace_char a b s')
  end.

(** [sub in s] *)
Fixpoint contains (sub s : string) : bool :=
  String.prefix sub s ||
  match s with
  | EmptyString => false
  | String _ s' => contains sub s'
  end.

(** [sep.join(l)] *)
Fixpoint join (sep : string) (l : list string) : string :=
  match l with
  | [] => ""
  | [x] => x
  | x :: l' => x ++ sep ++ join sep l'
  end.

(** [s.split()]: maximal runs of non-whitespace characters.  [cur] is the
    run being read, in reverse. *)
Definition rev_string (cs : list ascii) : string :=
  string_of_list_ascii (List.rev cs).

Fixpoint split_from (cur : list ascii) (s : string) : list string :=
  match s with
  | EmptyString =>
      match cur with [] => [] | _ => [rev_string cur] end
  | String c s' =>
      if is_space c
      then match cur with
           | [] => split_from [] s'
           | _ => rev_string cur :: split_from [] s'
           end
      else split_from (c :: cur) s'
  end.

Definition split (s : string) : list string := split_from [] s.

(** [w.isdigit()]: non-empty and all digits. *)
Definition isdigit (w : string) : bool :=
  match w with
  | EmptyString => false
  | _ => forallb is_digit (list_ascii_of_string w)
  end.

(** [int(w)] for a word of digits. *)
Definition int_of_digits (w : string) : Z :=
  fold_left
    (fun acc c => (acc * 10 + Z.of_nat (nat_of_ascii c - 48))%Z)
    (list_ascii_of_string w) 0%Z.

(** [s[:n]] *)
Definition take (n : nat) (s : string) : string := String.substring 0 n s.

(** [s.strip()] *)
Fixpoint lstrip (s : string) : string :=
  match s with
  | EmptyString => EmptyString
  | String c s' => if is_space c then lstrip s' else s
  end.

Definition string_rev (s : string) : string :=
  string_of_list_ascii (List.rev (list_ascii_of_string s)).

Definition strip (s : string) : string :=
  string_rev (lstrip (string_rev (lstrip s))).

(** [str(n)] for a length or an int. *)
Definition str_nat (n : nat) : string :=
  NilZero.string_of_uint (Nat.to_uint n).

Definition str_int (z : Z) : string :=
  NilZero.string_of_int (Z.to_int z).

(** Python's formatting built-ins on the values this embedding does not
    print itself: [py_str v] is [str(v)], [fixed2 v] is
    [format(v, ",.2f")], which raises on a value that is not a number,
    [signed2 x] is [format(x, "+.2f")], [fixed1 x] is [format(x, ".1f")],
    [commas n] is [format(n, ",")], and [fixed2_sqrt v] is
    [format(s, ",.2f")] for the float [s] whose square is [v]. *)
Record Formatter : Type := mkFormatter {
  py_str : value -> string;
  fixed2 : value -> result string;
  signed2 : float -> string;
  fixed1 : float -> string;
  commas : Z -> string;
  fixed2_sqrt : float -> string
}.

(** [f"{v}"] *)
Definition fmt (F : Formatter) (v : value) : string :=
  match v with
  | VStr s => s
  | VInt z => str_int z
  | _ => py_str F v
  end.

(** Iteration over an object: a list gives its elements, a text its
    characters, a dict its keys; anything else is not iterable. *)
Definition iter (v : value) : result (list value) :=
  match v with
  | VList l => Ok l
  | VStr s => Ok (map (fun c => VStr (String c EmptyString))
                      (list_ascii_of_string s))
  | VDict d => Ok (map (fun kv => VStr (fst kv)) d)
  | _ => Raise (mkExn "TypeError" "object is not iterable")
  end.

(** [sep.join(v)]: every element must be a text. *)
Definition as_str (v : value) : result string :=
  match v with
  | VStr s => Ok s
  | _ => Raise (mkExn "TypeError" "sequence item: expected str instance")
  end.

Definition join_values (sep : string) (v : value) : result string :=
  l <- iter v ;; ss <- mapM as_str l ;; Ok (join sep ss).

(** [v.items()] *)
Definition items (v : value) : result dict :=
  match v with
  | VDict d => Ok d
  | _ => Raise (mkExn "AttributeError" "object has no attribute 'items'")
  end.

(** Lookup of an object in a dict with text keys, [m.get(v, dflt)]: a list
    or a dict is unhashable, any other object that is not a text is
    absent. *)
Definition lookup_value {A} (m : list (string * A)) (v : value)
  : result (option A) :=
  match v with
  | VStr s =>
      Ok (option_map snd (List.find (fun kv => String.eqb (fst kv) s) m))
  | VList _ | VDict _ => Raise (mkExn "TypeError" "unhashable type")
  | _ => Ok None
  end.

End Py.

Import Py.

(* ===================================================================== *)
(** ** backend/agents/base.py                                             *)
(* ===================================================================== *)

(** A result table as [query_df] returns it: one association list per row,
    all rows over the same columns. *)
Definition row := list (string * value).
Definition table := list row.

(** [df.columns]: a DataFrame built from no row dicts has no columns. *)
Definition columns (df : table) : list string :=
  match df with
  | [] => []
  | r :: _ => map fst r
  end.

Record AgentInput : Type := mkInput {
  in_operation : string;
  in_parameters : dict;
  in_context : string
}.

Record AgentOutput : Type := mkOutput {
  out_agent : string;
  out_operation : string;
  out_sql : string;
  out_data : option table;
  out_summary : string;
  out_error : option string;
  out_metadata : dict
}.

(** [AgentOutput(agent=.., operation=.., sql=.., error=..)]: the other
    fields take their defaults. *)
Definition error_output (agent op sql err : string) : AgentOutput :=
  {| out_agent := agent; out_operation := op; out_sql := sql;
     out_data := None; out_summary := ""; out_error := Some err;
     out_metadata := [] |}.

(** An agent is its [run] method. *)
Definition Agent := AgentInput -> result AgentOutput.

(** The storage oracle behind [BaseAgent.execute_sql]. *)
Definition Storage := string -> list value -> result table.

(** [df.empty]: no rows or no columns. *)
Definition df_empty (df : table) : bool :=
  match columns df with
  | [] => true
  | _ => false
  end.

(** [row[col]] *)
Definition row_get (col : string) (r : row) : result value :=
  match dict_get col r with
  | Some v => Ok v
  | None => Raise (mkExn "KeyError" ("'" ++ col ++ "'"))
  end.

(** [df[col]]: the cells of a column, which must be one of [df.columns]. *)
Definition column (col : string) (df : table) : result (list value) :=
  if existsb (String.eqb col) (columns df)
  then mapM (row_get col) df
  else Raise (mkExn "KeyError" ("'" ++ col ++ "'")).

(** A cell of a numeric column as a float: pandas holds a missing cell as
    not-a-number. *)
Definition cell_float (v : value) : result float :=
  match v with
  | VInt z => Ok (of_Z z)
  | VFloat f => Ok f
  | VBool b => Ok (of_Z (if b then 1 else 0))
  | VNone => Ok NaN
  | _ => Raise (mkExn "TypeError" "unsupported operand type")
  end.

Definition column_floats (col : string) (df : table) : result (list float) :=
  cells <- column col df ;; mapM cell_float cells.

(** [Series.sum()]: not-a-number cells are skipped. *)
Definition series_sum (l : list float) : float :=
  fold_left (fun acc f => match f with NaN => acc | _ => fadd acc f end)
            l (Fin 0).

(** [df[col].sum()] *)
Definition column_sum (col : string) (df : table) : result float :=
  xs <- column_floats col df ;; Ok (series_sum xs).

Definition star : string := "*".

(* ===================================================================== *)
(** ** backend/agents/dimension_navigator.py                              *)
(* ===================================================================== *)

Module DimensionNavigator.

Definition name : string := "DimensionNavigator".

Record hierarchy : Type := mkHierarchy {
  levels : list string;
  labels : list string;
  hcolumns : list string
}.

Definition time_hierarchy : hierarchy :=
  {| levels := ["year"; "quarter"; "month"];
     labels := ["Year"; "Quarter"; "Month"];
     hcolumns := ["d.year"; "d.quarter"; "d.month_name"] |}.

Definition geography_hierarchy : hierarchy :=
  {| levels := ["region"; "country"];
     labels := ["Region"; "Country"];
     hcolumns := ["g.region"; "g.country"] |}.

Definition product_hierarchy : hierarchy :=
  {| levels := ["category"; "subcategory"];
     labels := ["Category"; "Subcategory"];
     hcolumns := ["p.category"; "p.subcategory"] |}.

Definition HIERARCHIES : list (string * hierarchy) :=
  [ ("time", time_hierarchy);
    ("geography", geography_hierarchy);
    ("product", product_hierarchy) ].

Definition col_map : list (string * string) :=
  [ ("year", "d.year"); ("quarter", "d.quarter"); ("month", "d.month_name");
    ("region", "g.region"); ("country", "g.country");
    ("category", "p.category"); ("subcategory", "p.subcategory");
    ("customer_segment", "c.customer_segment") ].

(** [m.get(k)] on a catalog with text keys. *)
Definition catalog_get (m : list (string * string)) (k : string)
  : option string :=
  option_map snd (List.find (fun kv => String.eqb (fst kv) k) m).

(** [",".join("?" * n)] *)
Definition placeholders (n : nat) : string := join "," (repeat "?" n).

(** The loop of [_build_filter_clause] over [filters.items()], with the
    two accumulators [conditions] and [params]. *)
Fixpoint filter_loop (kvs : dict) (conditions : list string)
  (params : list value) : list string * list value :=
  match kvs with
  | [] => (conditions, params)
  | (key, val) :: rest =>
      match catalog_get col_map key with
      | Some col =>
          match val with
          | VList l =>
              let cond := col ++ " IN (" ++ placeholders (List.length l) ++ ")" in
              filter_loop rest (conditions ++ [cond])%list (params ++ l)%list
          | _ =>
              let cond := col ++ " = ?" in
              filter_loop rest (conditions ++ [cond])%list
                          (params ++ [val])%list
          end
      | None => filter_loop rest conditions params
      end
  end.

Definition where_of (conditions : list string) : string :=
  match conditions with
  | [] => ""
  | _ => "WHERE " ++ join " AND " conditions
  end.

Definition _build_filter_clause (filters : value)
  : result (string * list value) :=
  kvs <- items filters ;;
  let '(conditions, params) := filter_loop kvs [] [] in
  Ok (where_of conditions, params).

Definition _base_query (group_cols : list string) (where_ : string)
  (params : list value) : string * list value :=
  let select_cols := join ", " group_cols in
  ("
        SELECT " ++ select_cols ++ ",
               ROUND(SUM(f.revenue), 2)       AS total_revenue,
               ROUND(SUM(f.profit), 2)        AS total_profit,
               ROUND(AVG(f.profit_margin), 2) AS avg_margin,
               SUM(f.quantity)                AS total_qty,
               COUNT(" ++ star ++ ")                       AS transactions
        FROM fact_sales f
        JOIN dim_date      d ON f.date_key     = d.date_key
        JOIN dim_geography g ON f.geo_key      = g.geo_key
        JOIN dim_product   p ON f.product_key  = p.product_key
        JOIN dim_customer  c ON f.customer_key = c.customer_key
        " ++ where_ ++ "
        GROUP BY " ++ select_cols ++ "
        ORDER BY total_revenue DESC
    ", params).

(** [levels.index(to_level)]: [None] stands for the [ValueError]. *)
Fixpoint index_of (x : string) (l : list string) : option nat :=
  match l with
  | [] => None
  | y :: l' => if String.eqb x y then Some 0%nat
               else option_map S (index_of x l')
  end.

Definition level_index (to_level : value) (h : hierarchy) : option nat :=
  match to_level with
  | VStr s => index_of s (levels h)
  | _ => None
  end.

(** [HIERARCHIES.get(hierarchy, HIERARCHIES["time"])] *)
Definition get_hierarchy (hname : value) : result hierarchy :=
  o <- lookup_value HIERARCHIES hname ;;
  Ok (match o with Some h => h | None => time_hierarchy end).

Definition arrow : string := " → ".

(** The [try: to_idx = levels.index(to_level) / except ValueError] of
    [_drill_down] and of [_roll_up]. *)
Definition drill_index (to_level : value) (h : hierarchy) : nat :=
  match level_index to_level h with
  | Some i => i
  | None => (List.length (levels h) - 1)%nat
  end.

Definition roll_index (to_level : value) (h : hierarchy) : nat :=
  match level_index to_level h with
  | Some i => i
  | None => 0%nat
  end.

(** What a navigation request resolves to before storage is asked: the
    hierarchy, the level, the grouping columns and the query. *)
Record Request : Type := mkRequest {
  rq_hierarchy_name : value;
  rq_hierarchy : hierarchy;
  rq_to_level : value;
  rq_to_idx : nat;
  rq_group_cols : list string;
  rq_sql : string;
  rq_params : list value
}.

(** [_drill_down] up to the call of [execute_sql]. *)
Definition drill_down_request (params : dict) : result Request :=
  let hname := get_default "hierarchy" (VStr "time") params in
  h <- get_hierarchy hname ;;
  let to_level := get_default "to_level" (VStr (last (levels h) "")) params in
  let filters := get_default "filters" (VDict []) params in
  let to_idx := drill_index to_level h in
  let group_cols := firstn (to_idx + 1) (hcolumns h) in
  ws <- _build_filter_clause filters ;;
  let '(sql, sql_params) := _base_query group_cols (fst ws) (snd ws) in
  Ok (mkRequest hname h to_level to_idx group_cols sql sql_params).

Definition _drill_down (db : Storage) (F : Formatter) (params : dict)
  (context : string) : result AgentOutput :=
  rq <- drill_down_request params ;;
  df <- db (rq_sql rq) (rq_params rq) ;;
  let label :=
    join arrow (firstn (rq_to_idx rq + 1) (labels (rq_hierarchy rq))) in
  let summary :=
    "Drill-down on " ++ fmt F (rq_hierarchy_name rq) ++ " hierarchy to '"
    ++ fmt F (rq_to_level rq) ++ "' level (" ++ label ++ "). "
    ++ str_nat (List.length df) ++ " rows returned." in
  summary <-
    (if df_empty df then Ok summary
     else
       match df with
       | ((_, first) :: _) as top :: _ =>
           rev <- row_get "total_revenue" top ;;
           money <- fixed2 F rev ;;
           Ok (summary ++ " Top performer: " ++ fmt F first ++ " with $"
               ++ money ++ " revenue.")
       | _ => Ok summary
       end) ;;
  Ok {| out_agent := name; out_operation := "drill_down";
        out_sql := strip (rq_sql rq); out_data := Some df;
        out_summary := summary; out_error := None;
        out_metadata := [("hierarchy", rq_hierarchy_name rq);
                         ("level", rq_to_level rq)] |}.

(** [_roll_up] up to the call of [execute_sql]. *)
Definition roll_up_request (params : dict) : result Request :=
  let hname := get_default "hierarchy" (VStr "time") params in
  h <- get_hierarchy hname ;;
  let to_level := get_default "to_level" (VStr (hd "" (levels h))) params in
  let filters := get_default "filters" (VDict []) params in
  let to_idx := roll_index to_level h in
  let group_cols := firstn (to_idx + 1) (hcolumns h) in
  ws <- _build_filter_clause filters ;;
  let '(sql, sql_params) := _base_query group_cols (fst ws) (snd ws) in
  Ok (mkRequest hname h to_level to_idx group_cols sql sql_params).

Definition _roll_up (db : Storage) (F : Formatter) (params : dict)
  (context : string) : result AgentOutput :=
  rq <- roll_up_request params ;;
  df <- db (rq_sql rq) (rq_params rq) ;;
  let label :=
    join arrow (firstn (rq_to_idx rq + 1) (labels (rq_hierarchy rq))) in
  total <- column_sum "total_revenue" df ;;
  money <- fixed2 F (VFloat total) ;;
  let summary :=
    "Roll-up on " ++ fmt F (rq_hierarchy_name rq) ++ " to '"
    ++ fmt F (rq_to_level rq) ++ "' level (" ++ label ++ "). "
    ++ str_nat (List.length df) ++ " rows. Total revenue: $" ++ money in
  Ok {| out_agent := name; out_operation := "roll_up";
        out_sql := strip (rq_sql rq); out_data := Some df;
        out_summary := summary; out_error := None;
        out_metadata := [("hierarchy", rq_hierarchy_name rq);
                         ("level", rq_to_level rq)] |}.

(** [col_map.get(d, f"d.{d}")] for one requested dimension. *)
Definition group_col (F : Formatter) (d : value) : result string :=
  o <- lookup_value col_map d ;;
  Ok (match o with Some c => c | None => "d." ++ fmt F d end).

(** [_group_by] up to the call of [execute_sql]: the grouping columns and
    the query. *)
Definition group_request (F : Formatter) (params : dict)
  : result (list string * (string * list value)) :=
  let dimensions := get_default "dimensions" (VList [VStr "region"]) params in
  let filters := get_default "filters" (VDict []) params in
  ds <- iter dimensions ;;
  group_cols <- mapM (group_col F) ds ;;
  ws <- _build_filter_clause filters ;;
  Ok (group_cols, _base_query group_cols (fst ws) (snd ws)).

Definition _group_by (db : Storage) (F : Formatter) (params : dict)
  (context : string) : result AgentOutput :=
  let dimensions := get_default "dimensions" (VList [VStr "region"]) params in
  rq <- group_request F params ;;
  let '(sql, sql_params) := snd rq in
  df <- db sql sql_params ;;
  dims_str <- join_values ", " dimensions ;;
  total <- column_sum "total_revenue" df ;;
  money <- fixed2 F (VFloat total) ;;
  let summary :=
    "Grouped by [" ++ dims_str ++ "]. " ++ str_nat (List.length df)
    ++ " groups. Total revenue: $" ++ money in
  Ok {| out_agent := name; out_operation := "group";
        out_sql := strip sql; out_data := Some df; out_summary := summary;
        out_error := None;
        out_metadata := [("dimensions", dimensions)] |}.

Definition run (db : Storage) (F : Formatter) (agent_input : AgentInput)
  : result AgentOutput :=
  let op := lower (in_operation agent_input) in
  let params := in_parameters agent_input in
  if String.eqb op "drill_down" || String.eqb op "drill-down"
  then _drill_down db F params (in_context agent_input)
  else if String.eqb op "roll_up" || String.eqb op "roll-up"
  then _roll_up db F params (in_context agent_input)
  else if String.eqb op "group"
  then _group_by db F params (in_context agent_input)
  else Ok (error_output name op ""
             ("Unknown operation '" ++ op
              ++ "'. Supported: drill_down, roll_up, group")).

End DimensionNavigator.

(* ===================================================================== *)
(** ** backend/agents/cube_operations.py                                  *)
(* ===================================================================== *)

Module CubeOperations.

Definition name : string := "CubeOperations".

Definition COL_MAP : list (string * string) :=
  [ ("year", "d.year"); ("quarter", "d.quarter"); ("month", "d.month_name");
    ("month_num", "d.month");
    ("region", "g.region"); ("country", "g.country");
    ("category", "p.category"); ("subcategory", "p.subcategory");
    ("customer_segment", "c.customer_segment") ].

Definition BASE_FROM : string := "
    FROM fact_sales f
    JOIN dim_date      d ON f.date_key     = d.date_key
    JOIN dim_geography g ON f.geo_key      = g.geo_key
    JOIN dim_product   p ON f.product_key  = p.product_key
    JOIN dim_customer  c ON f.customer_key = c.customer_key
".

Definition catalog_get := DimensionNavigator.catalog_get.
Definition placeholders := DimensionNavigator.placeholders.
Definition where_of := DimensionNavigator.where_of.

(** The loop of [_build_where] over [filters.items()]. *)
Fixpoint where_loop (kvs : dict) (conditions : list string)
  (params : list value) : list string * list value :=
  match kvs with
  | [] => (conditions, params)
  | (key, val) :: rest =>
      match catalog_get COL_MAP key with
      | None => where_loop rest conditions params
      | Some col =>
          match val with
          | VList l =>
              let cond := col ++ " IN (" ++ placeholders (List.length l) ++ ")" in
              where_loop rest (conditions ++ [cond])%list (params ++ l)%list
          | VDict d =>
              match dict_get "gte" d, dict_get "lte" d with
              | Some lo, _ =>
                  let cond := col ++ " >= ?" in
                  where_loop rest (conditions ++ [cond])%list
                             (params ++ [lo])%list
              | None, Some hi =>
                  let cond := col ++ " <= ?" in
                  where_loop rest (conditions ++ [cond])%list
                             (params ++ [hi])%list
              | None, None =>
                  let cond := col ++ " = ?" in
                  where_loop rest (conditions ++ [cond])%list
                             (params ++ [val])%list
              end
          | _ =>
              let cond := col ++ " = ?" in
              where_loop rest (conditions ++ [cond])%list
                         (params ++ [val])%list
          end
      end
  end.

Definition _build_where (filters : value) : result (string * list value) :=
  kvs <- items filters ;;
  let '(conditions, params) := where_loop kvs [] [] in
  Ok (where_of conditions, params).

(** [COL_MAP.get(d, d)] for one requested dimension: an unknown name is
    passed through as it is. *)
Definition group_col (d : value) : result value :=
  o <- lookup_value COL_MAP d ;;
  Ok (match o with Some c => VStr c | None => d end).

Definition group_cols_of (group_dims : value) : result (list value) :=
  ds <- iter group_dims ;; mapM group_col ds.

(** [", ".join(f"{k}={v}" for k, v in filters.items())] *)
Definition filter_desc (F : Formatter) (filters : value) : result string :=
  kvs <- items filters ;;
  Ok (join ", " (map (fun kv => fst kv ++ "=" ++ fmt F (snd kv)) kvs)).

Definition grouped_sql (select_str where_ : string) : string :=
  "
            SELECT " ++ select_str ++ ",
                   ROUND(SUM(f.revenue), 2)       AS total_revenue,
                   ROUND(SUM(f.profit), 2)        AS total_profit,
                   ROUND(AVG(f.profit_margin), 2) AS avg_margin,
                   SUM(f.quantity)                AS total_qty,
                   COUNT(" ++ star ++ ")                       AS transactions
            " ++ BASE_FROM ++ "
            " ++ where_ ++ "
            GROUP BY " ++ select_str ++ "
            ORDER BY total_revenue DESC
        ".

(** [_slice] and [_dice] up to the call of [execute_sql]: the grouping
    columns and the query, for the filter set under key [filter_key] and
    the default grouping [dflt]. *)
Definition grouped_request (filter_key : string) (dflt : string)
  (params : dict) : result (list value * (string * list value)) :=
  let filters := get_default filter_key (VDict []) params in
  let group_dims := get_default "group_by" (VList [VStr dflt]) params in
  group_cols <- group_cols_of group_dims ;;
  select_str <- join_values ", " (VList group_cols) ;;
  ws <- _build_where filters ;;
  Ok (group_cols, (grouped_sql select_str (fst ws), snd ws)).

Definition _slice (db : Storage) (F : Formatter) (params : dict)
  (context : string) : result AgentOutput :=
  let filters := get_default "filter" (VDict []) params in
  let group_dims := get_default "group_by" (VList [VStr "region"]) params in
  rq <- grouped_request "filter" "region" params ;;
  let '(sql, sql_params) := snd rq in
  df <- db sql sql_params ;;
  desc <- filter_desc F filters ;;
  total <- column_sum "total_revenue" df ;;
  money <- fixed2 F (VFloat total) ;;
  let summary :=
    "Slice on [" ++ desc ++ "], grouped by " ++ fmt F group_dims ++ ". "
    ++ str_nat (List.length df) ++ " results. Revenue total: $" ++ money in
  Ok {| out_agent := name; out_operation := "slice";
        out_sql := strip sql; out_data := Some df; out_summary := summary;
        out_error := None;
        out_metadata := [("filters", filters); ("group_by", group_dims)] |}.

Definition _dice (db : Storage) (F : Formatter) (params : dict)
  (context : string) : result AgentOutput :=
  let filters := get_default "filters" (VDict []) params in
  let group_dims := get_default "group_by" (VList [VStr "country"]) params in
  rq <- grouped_request "filters" "country" params ;;
  let '(sql, sql_params) := snd rq in
  df <- db sql sql_params ;;
  desc <- filter_desc F filters ;;
  let summary :=
    "Dice with filters [" ++ desc ++ "], grouped by " ++ fmt F group_dims
    ++ ". " ++ str_nat (List.length df) ++ " results." in
  summary <-
    (if df_empty df then Ok summary
     else
       match df with
       | ((_, first) :: _) as top :: _ =>
           rev <- row_get "total_revenue" top ;;
           money <- fixed2 F rev ;;
           Ok (summary ++ " Leader: " ++ fmt F first ++ " ($" ++ money ++ ")")
       | _ => Ok summary
       end) ;;
  Ok {| out_agent := name; out_operation := "dice";
        out_sql := strip sql; out_data := Some df; out_summary := summary;
        out_error := None;
        out_metadata := [("filters", filters); ("group_by", group_dims)] |}.

(** [x in ("revenue", "profit", "quantity", "cost")] *)
Definition additive (measure : value) : bool :=
  match measure with
  | VStr s => existsb (String.eqb s) ["revenue"; "profit"; "quantity"; "cost"]
  | _ => false
  end.

(** [COL_MAP.get(d, d)] formatted into the query text. *)
Definition pivot_col (F : Formatter) (d : value) : result string :=
  c <- group_col d ;; Ok (fmt F c).

(** [pivot_table] stands for pandas'
    [raw.pivot_table(index="row_label", columns="col_label",
    values="metric", aggfunc="sum").reset_index()]. *)
Definition _pivot (db : Storage) (F : Formatter)
  (pivot_table : table -> table) (params : dict) (context : string)
  : result AgentOutput :=
  let row_dim := get_default "row_dim" (VStr "region") params in
  let col_dim := get_default "col_dim" (VStr "year") params in
  let measure := get_default "measure" (VStr "revenue") params in
  let filters := get_default "filters" (VDict []) params in
  row_col <- pivot_col F row_dim ;;
  col_col <- pivot_col F col_dim ;;
  let agg := if additive measure then "SUM" else "AVG" in
  ws <- _build_where filters ;;
  let sql := "
            SELECT " ++ row_col ++ " AS row_label,
                   " ++ col_col ++ " AS col_label,
                   ROUND(" ++ agg ++ "(f." ++ fmt F measure ++ "), 2) AS metric
            " ++ BASE_FROM ++ "
            " ++ fst ws ++ "
            GROUP BY " ++ row_col ++ ", " ++ col_col ++ "
            ORDER BY " ++ row_col ++ ", " ++ col_col ++ "
        " in
  raw <- db sql (snd ws) ;;
  let df := if df_empty raw then raw else pivot_table raw in
  let summary :=
    "Pivot: " ++ fmt F row_dim ++ " (rows) Ã— " ++ fmt F col_dim
    ++ " (columns) measuring " ++ fmt F measure ++ ". "
    ++ str_nat (List.length df) ++ " row-groups." in
  Ok {| out_agent := name; out_operation := "pivot";
        out_sql := strip sql; out_data := Some df; out_summary := summary;
        out_error := None;
        out_metadata := [("row_dim", row_dim); ("col_dim", col_dim);
                         ("measure", measure)] |}.

Definition _drill_through (db : Storage) (F : Formatter) (params : dict)
  (context : string) : result AgentOutput :=
  let filters := get_default "filters" (VDict []) params in
  let limit := get_default "limit" (VInt 50) params in
  ws <- _build_where filters ;;
  let sql := "
            SELECT f.order_id, d.full_date AS order_date,
                   g.region, g.country,
                   p.category, p.subcategory,
                   c.customer_segment,
                   f.quantity, f.unit_price,
                   ROUND(f.revenue, 2) AS revenue,
                   ROUND(f.profit, 2) AS profit,
                   ROUND(f.profit_margin, 2) AS profit_margin
            " ++ BASE_FROM ++ "
            " ++ fst ws ++ "
            ORDER BY d.full_date DESC
            LIMIT " ++ fmt F limit ++ "
        " in
  df <- db sql (snd ws) ;;
  desc <- filter_desc F filters ;;
  let summary :=
    "Drill-through on [" ++ desc ++ "]. Showing " ++ str_nat (List.length df)
    ++ " transactions." in
  Ok {| out_agent := name; out_operation := "drill_through";
        out_sql := strip sql; out_data := Some df; out_summary := summary;
        out_error := None;
        out_metadata := [("filters", filters); ("limit", limit)] |}.

Definition run (db : Storage) (F : Formatter) (pivot_table : table -> table)
  (agent_input : AgentInput) : result AgentOutput :=
  let op := replace_char "-" "_" (lower (in_operation agent_input)) in
  let p := in_parameters agent_input in
  if String.eqb op "slice" then _slice db F p (in_context agent_input)
  else if String.eqb op "dice" then _dice db F p (in_context agent_input)
  else if String.eqb op "pivot"
  then _pivot db F pivot_table p (in_context agent_input)
  else if String.eqb op "drill_through"
  then _drill_through db F p (in_context agent_input)
  else Ok (error_output name op ""
             ("Unknown op '" ++ op
              ++ "'. Supported: slice, dice, pivot, drill_through")).

End CubeOperations.

(* ===================================================================== *)
(** ** pandas operations the KPI engine uses                              *)
(* ===================================================================== *)

Module Frame.

(** Truth value of a float. *)
Definition float_truthy (f : float) : bool := truthy (VFloat f).

(** [row[col]] of a numeric column. *)
Definition row_float (col : string) (r : row) : result float :=
  v <- row_get col r ;; cell_float v.

(** [df.iloc[i]] *)
Definition iloc (df : table) (i : nat) : result row :=
  match nth_error df i with
  | Some r => Ok r
  | None =>
      Raise (mkExn "IndexError" "single positional indexer is out-of-bounds")
  end.

(** The order [sort_values] and [groupby] put keys in: numbers by value,
    texts by code point, numbers before texts, missing keys last. *)
Definition float_leb (a b : float) : bool :=
  match a, b with
  | _, NaN => true
  | NaN, _ => false
  | Inf true, _ => true
  | _, Inf false => true
  | Fin x, Fin y => Qle_bool x y
  | _, _ => false
  end.

Definition key_leb (a b : value) : bool :=
  match a, b with
  | VStr s, VStr t => String.leb s t
  | VStr _, VNone => true
  | VStr _, _ => false
  | VNone, VNone => true
  | VNone, _ => false
  | _, VStr _ => true
  | _, _ =>
      match cell_float a, cell_float b with
      | Ok x, Ok y => float_leb x y
      | _, _ => true
      end
  end.

Definition key_eqb (a b : value) : bool := key_leb a b && key_leb b a.

Definition is_null (v : value) : bool :=
  match v with
  | VNone | VFloat NaN => true
  | _ => false
  end.

(** Stable insertion sort of rows on a key. *)
Fixpoint insert_by {A} (leb : A -> A -> bool) (x : A * row)
  (l : list (A * row)) : list (A * row) :=
  match l with
  | [] => [x]
  | y :: l' =>
      if leb (fst x) (fst y) then x :: l else y :: insert_by leb x l'
  end.

Definition sort_by {A} (leb : A -> A -> bool) (l : list (A * row))
  : list (A * row) :=
  fold_right (insert_by leb) [] l.

(** [df.sort_values(col).reset_index(drop=True)] *)
Definition sort_values (col : string) (df : table) : result table :=
  keys <- column col df ;;
  Ok (map snd (sort_by key_leb (combine keys df))).

(** The distinct non-null keys of a column, in key order. *)
Fixpoint insert_key (k : value) (ks : list value) : list value :=
  match ks with
  | [] => [k]
  | k' :: ks' =>
      if key_eqb k k' then ks
      else if key_leb k k' then k :: ks
      else k' :: insert_key k ks'
  end.

Definition group_keys (keys : list value) : list value :=
  fold_left (fun acc k => if is_null k then acc else insert_key k acc)
            keys [].

(** [df.groupby(col)]: one frame per distinct non-null key, keys in
    order, the rows of a group in their order in [df]. *)
Definition groupby (col : string) (df : table)
  : result (list (value * table)) :=
  keys <- column col df ;;
  Ok (map (fun k =>
             (k, map snd (List.filter (fun kr => key_eqb (fst kr) k)
                                      (combine keys df))))
          (group_keys keys)).

(** [df[col] = xs]: set a column, row by row. *)
Fixpoint set_cell (col : string) (v : value) (r : row) : row :=
  match r with
  | [] => [(col, v)]
  | (c, w) :: r' =>
      if String.eqb c col then (c, v) :: r' else (c, w) :: set_cell col v r'
  end.

Definition set_column (col : string) (xs : list value) (df : table) : table :=
  map (fun xr => set_cell col (fst xr) (snd xr)) (combine xs df).

(** [df.drop(columns=[col])] *)
Definition drop_column (col : string) (df : table) : table :=
  map (List.filter (fun cv => negb (String.eqb (fst cv) col))) df.

(** [float(v)] *)
Definition to_float (v : value) : result float :=
  match v with
  | VInt z => Ok (of_Z z)
  | VFloat f => Ok f
  | VBool b => Ok (of_Z (if b then 1 else 0))
  | VStr _ => Raise (mkExn "ValueError" "could not convert string to float")
  | _ => Raise (mkExn "TypeError"
                      "float() argument must be a string or a real number")
  end.

(** [int(v)] *)
Definition to_int (v : value) : result Z :=
  match v with
  | VInt z => Ok z
  | VBool b => Ok (if b then 1 else 0)%Z
  | VFloat (Fin q) => Ok (Z.quot (Qnum q) (Zpos (Qden q)))
  | VFloat NaN =>
      Raise (mkExn "ValueError" "cannot convert float NaN to integer")
  | VFloat (Inf _) =>
      Raise (mkExn "OverflowError" "cannot convert float infinity to integer")
  | VStr _ => Raise (mkExn "ValueError" "invalid literal for int()")
  | _ => Raise (mkExn "TypeError"
                      "int() argument must be a string or a real number")
  end.

End Frame.

(* ===================================================================== *)
(** ** backend/agents/kpi_calculator.py                                   *)
(* ===================================================================== *)

Module KPICalculator.

Import Frame.

Definition name : string := "KPICalculator".

Definition BASE_FROM : string := CubeOperations.BASE_FROM.

Definition COL_MAP : list (string * string) :=
  [ ("year", "d.year"); ("quarter", "d.quarter"); ("month", "d.month_name");
    ("region", "g.region"); ("country", "g.country");
    ("category", "p.category"); ("subcategory", "p.subcategory");
    ("customer_segment", "c.customer_segment") ].

Definition catalog_get := DimensionNavigator.catalog_get.
Definition placeholders := DimensionNavigator.placeholders.
Definition where_of := DimensionNavigator.where_of.

(** The loop of [_build_where] over [filters.items()]. *)
Fixpoint where_loop (kvs : dict) (conditions : list string)
  (params : list value) : list string * list value :=
  match kvs with
  | [] => (conditions, params)
  | (key, val) :: rest =>
      match catalog_get COL_MAP key with
      | None => where_loop rest conditions params
      | Some col =>
          match val with
          | VList l =>
              let cond := col ++ " IN (" ++ placeholders (List.length l) ++ ")" in
              where_loop rest (conditions ++ [cond])%list (params ++ l)%list
          | _ =>
              let cond := col ++ " = ?" in
              where_loop rest (conditions ++ [cond])%list
                         (params ++ [val])%list
          end
      end
  end.

Definition _build_where (filters : value) : result (string * list value) :=
  kvs <- items filters ;;
  let '(conditions, params) := where_loop kvs [] [] in
  Ok (where_of conditions, params).

(** *** Year-over-year growth *)

(** [((cur - prev) / prev * 100) if prev else None] *)
Definition growth_of (prev : option float) (cur : float) : option float :=
  match prev with
  | Some p =>
      if float_truthy p
      then Some (fmul (fdiv (fsub cur p) p) (of_Z 100))
      else None
  | None => None
  end.

(** [round(growth, 2) if growth is not None else None] *)
Definition growth_cell (growth : option float) : value :=
  match growth with
  | Some g => VFloat (fround 2 g)
  | None => VNone
  end.

(** The body of [for i, row in grp.iterrows()]: [grp] is the whole sorted
    series, [rest] the rows from position [i] on; [label] is the partition
    key when the series is one partition of several. *)
Fixpoint yoy_loop (label : option value) (grp : table) (i : nat)
  (rest : table) : result (list row) :=
  match rest with
  | [] => Ok []
  | row :: rest' =>
      prev <- (if (0 <? i)%nat
               then r <- iloc grp (i - 1) ;;
                    p <- row_float "total_revenue" r ;; Ok (Some p)
               else Ok None) ;;
      cur <- row_float "total_revenue" row ;;
      let growth := growth_of prev cur in
      year <- row_get "year" row ;;
      revenue <- row_get "total_revenue" row ;;
      let record :=
        (match label with Some l => [("dimension", l)] | None => [] end
         ++ [("year", year); ("total_revenue", revenue);
             ("yoy_growth_pct", growth_cell growth)])%list in
      records <- yoy_loop label grp (S i) rest' ;;
      Ok (record :: records)
  end.

(** One series: sorted by year, re-indexed from 0, then the loop. *)
Definition yoy_series (label : option value) (grp : table)
  : result (list row) :=
  sorted <- sort_values "year" grp ;;
  yoy_loop label sorted 0 sorted.

(** [for label, grp in raw.groupby("dim_label")] *)
Fixpoint yoy_groups (groups : list (value * table)) : result (list row) :=
  match groups with
  | [] => Ok []
  | (label, grp) :: groups' =>
      rs <- yoy_series (Some label) grp ;;
      rest <- yoy_groups groups' ;;
      Ok (rs ++ rest)%list
  end.

Definition yoy_records (raw : table) : result (list row) :=
  if existsb (String.eqb "dim_label") (columns raw)
  then groups <- groupby "dim_label" raw ;; yoy_groups groups
  else yoy_series None raw.

(** [df["yoy_growth_pct"].dropna().iloc[-1]], if there is one. *)
Definition last_growth (df : table) : option float :=
  last (map Some
         (flat_map (fun r => match dict_get "yoy_growth_pct" r with
                             | Some (VFloat NaN) => []
                             | Some (VFloat g) => [g]
                             | _ => []
                             end) df))
       None.

Definition _yoy_growth (db : Storage) (F : Formatter) (params : dict)
  (context : string) : result AgentOutput :=
  let dimension := get_default "dimension" VNone params in
  let filters := get_default "filters" (VDict []) params in
  dim_col <- (if truthy dimension
              then o <- lookup_value COL_MAP dimension ;;
                   Ok (Some (match o with Some c => c | None => "g.region" end))
              else Ok None) ;;
  let select_extra :=
    match dim_col with Some c => c ++ " AS dim_label," | None => "" end in
  let group_extra :=
    match dim_col with Some c => c ++ "," | None => "" end in
  ws <- _build_where filters ;;
  let sql := "
            SELECT " ++ select_extra ++ "
                   d.year,
                   ROUND(SUM(f.revenue), 2) AS total_revenue
            " ++ BASE_FROM ++ "
            " ++ fst ws ++ "
            GROUP BY " ++ group_extra ++ " d.year
            ORDER BY " ++ group_extra ++ " d.year
        " in
  raw <- db sql (snd ws) ;;
  if df_empty raw
  then Ok {| out_agent := name; out_operation := "yoy_growth";
             out_sql := strip sql; out_data := Some raw;
             out_summary := "No data returned."; out_error := None;
             out_metadata := [] |}
  else
    df <- yoy_records raw ;;
    let summary :=
      match last_growth df with
      | Some g =>
          "Year-over-year growth"
          ++ (if truthy dimension then " by " ++ fmt F dimension else "")
          ++ ". Most recent YoY: " ++ signed2 F g ++ "%"
      | None => "."
      end in
    Ok {| out_agent := name; out_operation := "yoy_growth";
          out_sql := strip sql; out_data := Some df; out_summary := summary;
          out_error := None; out_metadata := [("dimension", dimension)] |}.

(** *** Month-over-month change *)

(** [s.shift(1)] *)
Definition shift1 (xs : list float) : list float :=
  match xs with
  | [] => []
  | _ => NaN :: removelast xs
  end.

Definition _mom_change (db : Storage) (F : Formatter) (params : dict)
  (context : string) : result AgentOutput :=
  let year := get_default "year" VNone params in
  let filters := if truthy year then VDict [("year", year)] else VDict [] in
  ws <- _build_where filters ;;
  let sql := "
            SELECT d.year, d.month, d.month_name,
                   ROUND(SUM(f.revenue), 2) AS total_revenue
            " ++ BASE_FROM ++ "
            " ++ fst ws ++ "
            GROUP BY d.year, d.month, d.month_name
            ORDER BY d.year, d.month
        " in
  raw <- db sql (snd ws) ;;
  if df_empty raw
  then Ok {| out_agent := name; out_operation := "mom_change";
             out_sql := strip sql; out_data := Some raw;
             out_summary := "No data."; out_error := None;
             out_metadata := [] |}
  else
    revenue <- column_floats "total_revenue" raw ;;
    let prev_revenue := shift1 revenue in
    let pct :=
      map (fun cp => VFloat (fround 2 (fmul (fdiv (fsub (fst cp) (snd cp))
                                                  (snd cp)) (of_Z 100))))
          (combine revenue prev_revenue) in
    let raw := set_column "prev_revenue" (map VFloat prev_revenue) raw in
    let raw := set_column "mom_change_pct" pct raw in
    let raw := drop_column "prev_revenue" raw in
    let summary :=
      "Month-over-month change ("
      ++ (if truthy year then fmt F year else "all years") ++ "). "
      ++ str_nat (List.length raw) ++ " months." in
    Ok {| out_agent := name; out_operation := "mom_change";
          out_sql := strip sql; out_data := Some raw; out_summary := summary;
          out_error := None; out_metadata := [] |}.

(** *** Period comparison *)

(** ["_".join(f"{k}{v}" for k, v in period.items())] *)
Definition period_label (F : Formatter) (period : value) : result string :=
  kvs <- items period ;;
  Ok (join "_" (map (fun kv => fst kv ++ fmt F (snd kv)) kvs)).

(** The local function [get_period_data]: the period's table with its
    [period] column set, and the query text. *)
Definition get_period_data (db : Storage) (group_by : value)
  (period_filter : value) (label : string) : result (table * string) :=
  ws <- _build_where period_filter ;;
  dim_col <- (if truthy group_by then lookup_value COL_MAP group_by
              else Ok None) ;;
  let select_dim :=
    match dim_col with Some c => c ++ " AS dimension," | None => "" end in
  let group_dim :=
    match dim_col with Some c => c ++ "," | None => "" end in
  let sql := "
                SELECT " ++ select_dim ++ "
                       ROUND(SUM(f.revenue), 2) AS revenue,
                       ROUND(SUM(f.profit), 2)  AS profit,
                       SUM(f.quantity)          AS quantity
                " ++ BASE_FROM ++ "
                " ++ fst ws ++ "
                GROUP BY " ++ group_dim ++ "1
            " in
  df <- db sql (snd ws) ;;
  Ok (map (set_cell "period" (VStr label)) df, sql).

Definition has_column (col : string) (df : table) : bool :=
  existsb (String.eqb col) (columns df).

(** [df_a.merge(df_b, on=key, suffixes=(sa, sb))]: an inner join.  The
    columns both frames have, the key apart, take the frame's suffix; a
    pair of equal suffixes would duplicate them, which pandas refuses. *)
Definition suffixed (key suffix : string) (other : list string) (r : row)
  : row :=
  map (fun cv =>
         if negb (String.eqb (fst cv) key)
            && existsb (String.eqb (fst cv)) other
         then (fst cv ++ suffix, snd cv) else cv) r.

Definition without (key : string) (r : row) : row :=
  List.filter (fun cv => negb (String.eqb (fst cv) key)) r.

Definition merge (key : string) (sa sb : string) (df_a df_b : table)
  : result (list string * table) :=
  if negb (has_column key df_a) || negb (has_column key df_b)
  then Raise (mkExn "KeyError" ("'" ++ key ++ "'"))
  else
    let cols_a := columns df_a in
    let cols_b := columns df_b in
    let shared := existsb (fun c => negb (String.eqb c key)
                                    && existsb (String.eqb c) cols_b) cols_a in
    if shared && String.eqb sa sb
    then Raise (mkExn "MergeError"
                      "Passing 'suffixes' which cause duplicate columns")
    else
      let left r := suffixed key sa cols_b r in
      let right r := without key (suffixed key sb cols_a r) in
      let joined :=
        flat_map
          (fun ra =>
             flat_map
               (fun rb =>
                  match dict_get key ra, dict_get key rb with
                  | Some ka, Some kb =>
                      if key_eqb ka kb then [(left ra ++ right rb)%list]
                      else []
                  | _, _ => []
                  end) df_b) df_a in
      let header :=
        (map fst (left (combine cols_a (repeat VNone (List.length cols_a))))
         ++ map fst (right (combine cols_b
                                    (repeat VNone (List.length cols_b)))))%list in
      Ok (header, joined).

(** [s.replace(0, float("nan"))] on one cell. *)
Definition zero_to_nan (a : float) : float :=
  match a with
  | Fin q => if Qeq_bool q 0 then NaN else a
  | _ => a
  end.

(** The two columns the grouped comparison adds to a merged row. *)
Definition change_cells (rev_a rev_b : string) (r : row) : result row :=
  a <- row_float rev_a r ;;
  b <- row_float rev_b r ;;
  let change := fround 2 (fsub b a) in
  let pct :=
    fround 2 (fmul (fdiv (fsub b a) (zero_to_nan a)) (of_Z 100)) in
  Ok (set_cell "revenue_change_pct" (VFloat pct)
        (set_cell "revenue_change" (VFloat change) r)).

(** [(change / rev_a * 100) if rev_a else 0], then [round(.., 2)]: the
    [else] branch is the int 0. *)
Definition ungrouped_pct (rev_a change : float) : value :=
  if float_truthy rev_a
  then VFloat (fround 2 (fmul (fdiv change rev_a) (of_Z 100)))
  else VInt 0.

(** [float(row.get("revenue", 0))] of the first row, or of [{}]. *)
Definition first_revenue (df : table) : result float :=
  let row := if df_empty df then [] else hd [] df in
  to_float (get_default "revenue" (VInt 0) row).

Definition _compare_periods (db : Storage) (F : Formatter) (params : dict)
  (context : string) : result AgentOutput :=
  let period_a := get_default "period_a" (VDict [("year", VInt 2023)]) params in
  let period_b := get_default "period_b" (VDict [("year", VInt 2024)]) params in
  let group_by := get_default "group_by" VNone params in
  label_a <- period_label F period_a ;;
  label_b <- period_label F period_b ;;
  da <- get_period_data db group_by period_a label_a ;;
  db_ <- get_period_data db group_by period_b label_b ;;
  let df_a := fst da in
  let sql_a := snd da in
  let df_b := fst db_ in
  df <-
    (if truthy group_by && has_column "dimension" df_a
     then
       m <- merge "dimension" ("_" ++ label_a) ("_" ++ label_b) df_a df_b ;;
       let rev_a := "revenue_" ++ label_a in
       let rev_b := "revenue_" ++ label_b in
       if negb (existsb (String.eqb rev_b) (fst m))
       then Raise (mkExn "KeyError" ("'" ++ rev_b ++ "'"))
       else if negb (existsb (String.eqb rev_a) (fst m))
       then Raise (mkExn "KeyError" ("'" ++ rev_a ++ "'"))
       else mapM (change_cells rev_a rev_b) (snd m)
     else
       rev_a <- first_revenue df_a ;;
       rev_b <- first_revenue df_b ;;
       let change := fsub rev_b rev_a in
       let change_pct := ungrouped_pct rev_a change in
       Ok [[ ("period_a", VStr label_a); ("revenue_a", VFloat rev_a);
             ("period_b", VStr label_b); ("revenue_b", VFloat rev_b);
             ("change", VFloat (fround 2 change));
             ("change_pct", change_pct) ]]) ;;
  let summary :=
    "Comparison: " ++ label_a ++ " vs " ++ label_b
    ++ (if truthy group_by then " by " ++ fmt F group_by else "")
    ++ ". " ++ str_nat (List.length df) ++ " rows." in
  Ok {| out_agent := name; out_operation := "compare_periods";
        out_sql := strip sql_a; out_data := Some df; out_summary := summary;
        out_error := None;
        out_metadata := [("period_a", period_a); ("period_b", period_b);
                         ("group_by", group_by)] |}.

(** *** Top-N, margins and the overall summary *)

Definition additive := CubeOperations.additive.

(** [df.iloc[0]] *)
Definition first_row (df : table) : result row := iloc df 0.

Definition _top_n (db : Storage) (F : Formatter) (params : dict)
  (context : string) : result AgentOutput :=
  let n := get_default "n" (VInt 5) params in
  let dimension := get_default "dimension" (VStr "country") params in
  let measure := get_default "measure" (VStr "revenue") params in
  let filters := get_default "filters" (VDict []) params in
  o <- lookup_value COL_MAP dimension ;;
  let dim_col := match o with Some c => c | None => "g.country" end in
  let agg := if additive measure then "SUM" else "AVG" in
  ws <- _build_where filters ;;
  let sql := "
            SELECT " ++ dim_col ++ " AS dimension,
                   ROUND(" ++ agg ++ "(f." ++ fmt F measure ++ "), 2) AS metric,
                   ROUND(SUM(f.revenue), 2) AS total_revenue,
                   ROUND(SUM(f.profit), 2)  AS total_profit,
                   COUNT(" ++ star ++ ")                 AS transactions
            " ++ BASE_FROM ++ "
            " ++ fst ws ++ "
            GROUP BY " ++ dim_col ++ "
            ORDER BY metric DESC
            LIMIT " ++ fmt F n ++ "
        " in
  df <- db sql (snd ws) ;;
  let df :=
    map (fun ir => ("rank", VInt (Z.of_nat (fst ir))) :: snd ir)
        (combine (seq 1 (List.length df)) df) in
  summary <-
    (if df_empty df then Ok "No data."
     else
       top <- first_row df ;;
       d <- row_get "dimension" top ;;
       m <- row_get "metric" top ;;
       metric <- fixed2 F m ;;
       Ok ("Top " ++ fmt F n ++ " " ++ fmt F dimension ++ "s by "
           ++ fmt F measure ++ ". #1: " ++ fmt F d ++ " (" ++ metric ++ ")")) ;;
  Ok {| out_agent := name; out_operation := "top_n";
        out_sql := strip sql; out_data := Some df; out_summary := summary;
        out_error := None;
        out_metadata := [("n", n); ("dimension", dimension);
                         ("measure", measure)] |}.

Definition _profit_margins (db : Storage) (F : Formatter) (params : dict)
  (context : string) : result AgentOutput :=
  let dimension := get_default "dimension" (VStr "category") params in
  let filters := get_default "filters" (VDict []) params in
  o <- lookup_value COL_MAP dimension ;;
  let dim_col := match o with Some c => c | None => "p.category" end in
  ws <- _build_where filters ;;
  let sql := "
            SELECT " ++ dim_col ++ " AS dimension,
                   ROUND(SUM(f.revenue), 2)       AS total_revenue,
                   ROUND(SUM(f.profit), 2)        AS total_profit,
                   ROUND(AVG(f.profit_margin), 2) AS avg_margin_pct,
                   ROUND(SUM(f.profit)/SUM(f.revenue)*100, 2) AS blended_margin_pct
            " ++ BASE_FROM ++ "
            " ++ fst ws ++ "
            GROUP BY " ++ dim_col ++ "
            ORDER BY avg_margin_pct DESC
        " in
  df <- db sql (snd ws) ;;
  summary <-
    (if df_empty df then Ok ""
     else
       top <- first_row df ;;
       d <- row_get "dimension" top ;;
       m <- row_get "avg_margin_pct" top ;;
       Ok ("Profit margins by " ++ fmt F dimension ++ ". Best: " ++ fmt F d
           ++ " at " ++ fmt F m ++ "%")) ;;
  Ok {| out_agent := name; out_operation := "profit_margins";
        out_sql := strip sql; out_data := Some df; out_summary := summary;
        out_error := None; out_metadata := [("dimension", dimension)] |}.

Definition summary_sql : string := "
            SELECT
                COUNT(" ++ star ++ ")                                AS total_transactions,
                ROUND(SUM(f.revenue), 2)               AS total_revenue,
                ROUND(SUM(f.profit), 2)                AS total_profit,
                ROUND(AVG(f.profit_margin), 2)         AS avg_margin_pct,
                ROUND(AVG(f.revenue), 2)               AS avg_order_value,
                MIN(d.full_date)                       AS earliest_date,
                MAX(d.full_date)                       AS latest_date
            FROM fact_sales f
            JOIN dim_date d ON f.date_key = d.date_key
        ".

Definition _overall_summary (db : Storage) (F : Formatter) (params : dict)
  (context : string) : result AgentOutput :=
  df <- db summary_sql [] ;;
  r <- first_row df ;;
  tv <- row_get "total_transactions" r ;;
  transactions <- to_int tv ;;
  rv <- row_get "total_revenue" r ;;
  revenue <- fixed2 F rv ;;
  pv <- row_get "total_profit" r ;;
  profit <- fixed2 F pv ;;
  margin <- row_get "avg_margin_pct" r ;;
  let summary :=
    "Overall: " ++ commas F transactions ++ " transactions, $" ++ revenue
    ++ " revenue, $" ++ profit ++ " profit, " ++ fmt F margin
    ++ "% avg margin." in
  Ok {| out_agent := name; out_operation := "summary";
        out_sql := strip summary_sql; out_data := Some df;
        out_summary := summary; out_error := None; out_metadata := [] |}.

(** *** Dispatch *)

Definition handler := dict -> string -> result AgentOutput.

(** The [dispatch] table of [run]. *)
Definition dispatch (db : Storage) (F : Formatter) : list (string * handler) :=
  [ ("yoy", _yoy_growth db F);
    ("yoy_growth", _yoy_growth db F);
    ("mom", _mom_change db F);
    ("mom_change", _mom_change db F);
    ("compare", _compare_periods db F);
    ("compare_periods", _compare_periods db F);
    ("top_n", _top_n db F);
    ("ranking", _top_n db F);
    ("margins", _profit_margins db F);
    ("profit_margins", _profit_margins db F);
    ("summary", _overall_summary db F) ].

Definition run (db : Storage) (F : Formatter) (agent_input : AgentInput)
  : result AgentOutput :=
  let op := replace_char "-" "_" (lower (in_operation agent_input)) in
  let p := in_parameters agent_input in
  let fn :=
    match List.find (fun kh => String.eqb (fst kh) op) (dispatch db F) with
    | Some kh => snd kh
    | None => _overall_summary db F
    end in
  fn p (in_context agent_input).

End KPICalculator.

(* ===================================================================== *)
(** ** backend/agents/anomaly_detection.py                                *)
(* ===================================================================== *)

Module AnomalyDetection.

Import Frame.

Definition name : string := "AnomalyDetection".

(** *** Series statistics *)

(** The cells a pandas reduction keeps ([skipna]). *)
Definition present (xs : list float) : list float :=
  List.filter (fun x => match x with NaN => false | _ => true end) xs.

(** [s.mean()] *)
Definition mean (xs : list float) : float :=
  fdiv (series_sum xs) (of_Z (Z.of_nat (List.length (present xs)))).

(** The square of [s.std()]: pandas' default is the sample statistic,
    [ddof=1], and a series of fewer than two cells has none. *)
Definition variance (xs : list float) : float :=
  let n := List.length (present xs) in
  if (n <=? 1)%nat then NaN
  else
    let m := mean xs in
    fdiv (series_sum (map (fun x => fmul (fsub x m) (fsub x m)) (present xs)))
         (of_Z (Z.of_nat (n - 1))).

(** Rounding a real half to even. *)
Definition Rround_half_even (x : R) : Z :=
  let f := Int_part x in
  if Rlt_dec (x - IZR f) (1 / 2) then f
  else if Rlt_dec (1 / 2) (x - IZR f) then (f + 1)%Z
  else if Z.even f then f else (f + 1)%Z.

(** [round(d / sqrt(v), 3)] for finite [d] and positive [v]. *)
Definition round3_ratio (d v : Q) : Q :=
  Qred (inject_Z (Rround_half_even (1000 * (Q2R d / sqrt (Q2R v)))) / 1000).

(** [((x - mean) / std).round(3)] for a deviation [dev = x - mean] and the
    standard deviation whose square is [var].  The division is not
    guarded: a zero standard deviation gives not-a-number or an infinity. *)
Definition zscore (dev var : float) : float :=
  match dev, var with
  | NaN, _ | _, NaN => NaN
  | Fin d, Fin v =>
      if Qeq_bool v 0
      then (if Qeq_bool d 0 then NaN else Inf (Qneg_b d))
      else Fin (round3_ratio d v)
  | Inf s, Fin _ => Inf s
  | Fin _, Inf _ => Fin 0
  | Inf _, Inf _ => NaN
  end.

(** [z > c] and [z < c] on floats; not-a-number compares false. *)
Definition fgt (z : float) (c : Q) : bool :=
  match z with
  | Fin q => negb (Qle_bool q c)
  | Inf s => negb s
  | NaN => false
  end.

Definition flt (z : float) (c : Q) : bool :=
  match z with
  | Fin q => negb (Qle_bool c q)
  | Inf s => s
  | NaN => false
  end.

Definition fabs (z : float) : float :=
  match z with
  | Fin q => Fin (Qred (Qabs q))
  | Inf _ => Inf false
  | NaN => NaN
  end.

(** [df["z_score"].abs() > 2.0] *)
Definition is_anomaly (z : float) : bool := fgt (fabs z) 2.

(** The lambda of [df.apply]. *)
Definition anomaly_type (z : float) : string :=
  if fgt z 2 then "High" else if flt z (-2) then "Low" else "Normal".

(** The three columns [_monthly_anomaly] computes from the revenue
    series. *)
Definition zscores (xs : list float) : list float :=
  map (fun x => zscore (fsub x (mean xs)) (variance xs)) xs.

Definition annotate (xs : list float) (df : table) : table :=
  let zs := zscores xs in
  let df := set_column "z_score" (map VFloat zs) df in
  let df := set_column "anomaly" (map (fun z => VBool (is_anomaly z)) zs) df in
  set_column "anomaly_type" (map (fun z => VStr (anomaly_type z)) zs) df.

Definition monthly_sql : string := "
            SELECT d.year, d.month, d.month_name,
                   ROUND(SUM(f.revenue),2) AS monthly_revenue
            FROM fact_sales f
            JOIN dim_date d ON f.date_key = d.date_key
            GROUP BY d.year, d.month, d.month_name
            ORDER BY d.year, d.month
        ".

Definition flagged (r : row) : bool :=
  match dict_get "anomaly" r with
  | Some (VBool true) => true
  | _ => false
  end.

Definition _monthly_anomaly (db : Storage) (F : Formatter) (params : dict)
  (context : string) : result AgentOutput :=
  df <- db monthly_sql [] ;;
  xs <- column_floats "monthly_revenue" df ;;
  let df := annotate xs df in
  let anomalies := List.filter flagged df in
  mean_text <- fixed2 F (VFloat (mean xs)) ;;
  let summary :=
    "Detected " ++ str_nat (List.length anomalies)
    ++ " monthly revenue anomalies (Z-score threshold: ±2.0). Mean: $"
    ++ mean_text ++ ", Std: $" ++ fixed2_sqrt F (variance xs) ++ "." in
  summary <-
    (match anomalies with
     | [] => Ok summary
     | worst :: _ =>
         month <- row_get "month_name" worst ;;
         yv <- row_get "year" worst ;;
         year <- to_int yv ;;
         z <- row_get "z_score" worst ;;
         Ok (summary ++ " Most extreme: " ++ fmt F month ++ " "
             ++ str_int year ++ " (Z=" ++ fmt F z ++ ")")
     end) ;;
  Ok {| out_agent := name; out_operation := "monthly_anomaly";
        out_sql := strip monthly_sql; out_data := Some df;
        out_summary := summary; out_error := None;
        out_metadata :=
          [("threshold_z", VFloat (Fin 2));
           ("anomaly_count", VInt (Z.of_nat (List.length anomalies)))] |}.

(** *** Inter-quartile range *)

Fixpoint insert_float (x : float) (l : list float) : list float :=
  match l with
  | [] => [x]
  | y :: l' => if float_leb x y then x :: l else y :: insert_float x l'
  end.

Definition sort_floats (l : list float) : list float :=
  fold_right insert_float [] l.

(** [s.quantile(n / d)]: linear interpolation between the order
    statistics around position [(len - 1) * n / d]. *)
Definition quantile (n d : positive) (xs : list float) : float :=
  let sorted := sort_floats (present xs) in
  match sorted with
  | [] => NaN
  | _ =>
      let h := (inject_Z (Z.of_nat (List.length sorted - 1)) * (Zpos n # d))%Q in
      let lo := Z.to_nat (Qfloor h) in
      let frac := Qred (h - inject_Z (Qfloor h)) in
      let a := nth lo sorted NaN in
      let b := nth (S lo) sorted a in
      fadd a (fmul (Fin frac) (fsub b a))
  end.

Definition margin_type (lower upper x : float) : string :=
  match x, lower, upper with
  | Fin v, Fin l, Fin u =>
      if negb (Qle_bool v u) then "High margin"
      else if negb (Qle_bool l v) then "Low margin" else "Normal"
  | _, _, _ => "Normal"
  end.

Definition margin_anomaly (lower upper x : float) : bool :=
  negb (String.eqb (margin_type lower upper x) "Normal").

Definition product_sql : string := "
            SELECT p.category, p.subcategory,
                   ROUND(AVG(f.profit_margin),2) AS avg_margin,
                   ROUND(SUM(f.revenue),2) AS total_revenue
            FROM fact_sales f
            JOIN dim_product p ON f.product_key = p.product_key
            GROUP BY p.category, p.subcategory
        ".

Definition _product_anomaly (db : Storage) (F : Formatter) (params : dict)
  (context : string) : result AgentOutput :=
  df <- db product_sql [] ;;
  xs <- column_floats "avg_margin" df ;;
  let q1 := quantile 1 4 xs in
  let q3 := quantile 3 4 xs in
  let iqr := fsub q3 q1 in
  let lower := fsub q1 (fmul (Fin (3 # 2)) iqr) in
  let upper := fadd q3 (fmul (Fin (3 # 2)) iqr) in
  let df := set_column "anomaly"
              (map (fun x => VBool (margin_anomaly lower upper x)) xs) df in
  let df := set_column "anomaly_type"
              (map (fun x => VStr (margin_type lower upper x)) xs) df in
  let anomalies := List.filter flagged df in
  let summary :=
    "Product margin anomaly detection via IQR. Normal range: "
    ++ fixed1 F lower ++ "%–" ++ fixed1 F upper ++ "%. "
    ++ str_nat (List.length anomalies) ++ " subcategories flagged." in
  Ok {| out_agent := name; out_operation := "product_anomaly";
        out_sql := strip product_sql; out_data := Some df;
        out_summary := summary; out_error := None;
        out_metadata := [("iqr_lower", VFloat (fround 2 lower));
                         ("iqr_upper", VFloat (fround 2 upper))] |}.

Definition run (db : Storage) (F : Formatter) (agent_input : AgentInput)
  : result AgentOutput :=
  let op := lower (in_operation agent_input) in
  let p := in_parameters agent_input in
  if String.eqb op "time_anomaly" || String.eqb op "monthly"
  then _monthly_anomaly db F p (in_context agent_input)
  else if String.eqb op "product_anomaly" || String.eqb op "product"
  then _product_anomaly db F p (in_context agent_input)
  else _monthly_anomaly db F p (in_context agent_input).

End AnomalyDetection.

(* ===================================================================== *)
(** ** backend/agents/report_generator.py: dispatch                       *)
(* ===================================================================== *)

Module ReportGenerator.

Definition name : string := "ReportGenerator".

Definition handler := dict -> string -> result AgentOutput.

(** The three report builders, which only format what storage returns. *)
Record Reports : Type := mkReports {
  _format_table : handler;
  _executive_summary : handler;
  _trend_report : handler
}.

Definition run (R : Reports) (agent_input : AgentInput)
  : result AgentOutput :=
  let op := replace_char "-" "_" (lower (in_operation agent_input)) in
  let p := in_parameters agent_input in
  if String.eqb op "format_table" || String.eqb op "table"
  then _format_table R p (in_context agent_input)
  else if String.eqb op "executive_summary" || String.eqb op "summary"
          || String.eqb op "narrative"
  then _executive_summary R p (in_context agent_input)
  else if String.eqb op "trend_report" || String.eqb op "trend"
  then _trend_report R p (in_context agent_input)
  else _executive_summary R p (in_context agent_input).

End ReportGenerator.

(* ===================================================================== *)
(** ** backend/core/orchestrator.py                                       *)
(* ===================================================================== *)

Module Orchestrator.

(** A plan step [{"agent": .., "operation": .., "parameters": ..}]; a key
    an external plan leaves out has the default [step.get] gives it, the
    empty text or the empty dict. *)
Record PlanStep : Type := mkStep {
  agent : string;
  operation : string;
  parameters : dict
}.

Record Plan : Type := mkPlan {
  intent : string;
  steps : list PlanStep;
  always_include_report : bool;
  suggested_followups : list string
}.

(** One entry of the executed-steps ledger. *)
Record Executed : Type := mkExecuted {
  ex_agent : string;
  ex_operation : string;
  success : bool;
  row_count : nat
}.

Record OrchestratorResult : Type := mkOrchestratorResult {
  res_intent : string;
  steps_executed : list Executed;
  outputs : list AgentOutput;
  narrative : string;
  res_followups : list string;
  res_error : option string
}.

(** A turn of the conversation: role and content. *)
Definition message := (string * string)%type.

(** *** The rule-based planner *)

Definition mentioned (q : string) (words : list string) : list string :=
  List.filter (fun w => contains w q) words.

Definition years_in (q : string) : list Z :=
  List.filter (fun y => contains (str_int y) q) [2022; 2023; 2024]%Z.

Definition quarters_in (q : string) : list string :=
  List.filter (fun qtr => contains (lower qtr) q) ["Q1"; "Q2"; "Q3"; "Q4"].

(** [min(years)] and [max(years)] of a non-empty list. *)
Definition min_year (years : list Z) : Z :=
  match years with
  | [] => 0%Z
  | y :: ys => fold_left Z.min ys y
  end.

Definition max_year (years : list Z) : Z :=
  match years with
  | [] => 0%Z
  | y :: ys => fold_left Z.max ys y
  end.

(** The filter set the planner folds the literal mentions into. *)
Definition plan_filters (q : string) : dict :=
  let years := years_in q in
  let quarters := quarters_in q in
  let regions :=
    mentioned q ["north america"; "europe"; "asia pacific"; "latin america"] in
  let categories :=
    mentioned q ["electronics"; "furniture"; "office supplies"; "clothing"] in
  (match years with [y] => [("year", VInt y)] | _ => [] end
   ++ match quarters with qtr :: _ => [("quarter", VStr qtr)] | [] => [] end
   ++ match regions with r :: _ => [("region", VStr (title r))] | [] => [] end
   ++ match categories with
      | c :: _ => [("category", VStr (title c))]
      | [] => []
      end)%list.

(** [for word in q.split(): if word.isdigit(): n = int(word); break] *)
Fixpoint first_number (words : list string) (n : Z) : Z :=
  match words with
  | [] => n
  | word :: rest =>
      if isdigit word then int_of_digits word else first_number rest n
  end.

(** The step the keyword chain selects, if any rule matches. *)
Definition classify (q : string) : option PlanStep :=
  let has w := contains w q in
  let years := years_in q in
  let filters := plan_filters q in
  if has "compare" || has "vs" || has "versus" || has "growth" then
    if (2 <=? List.length years)%nat then
      Some (mkStep "KPICalculator" "compare_periods"
              [ ("period_a", VDict [("year", VInt (min_year years))]);
                ("period_b", VDict [("year", VInt (max_year years))]);
                ("group_by",
                 if has "region" then VStr "region"
                 else if has "categor" then VStr "category" else VNone) ])
    else
      Some (mkStep "KPICalculator" "yoy_growth"
              [ ("dimension", if has "region" then VStr "region" else VNone) ])
  else if has "drill" && (has "down" || has "into" || has "break") then
    let hierarchy := "time" in
    let to_level := "quarter" in
    let to_level := if has "month" then "month" else to_level in
    let '(hierarchy, to_level) :=
      if has "country" || has "countr" then ("geography", "country")
      else (hierarchy, to_level) in
    let '(hierarchy, to_level) :=
      if has "subcategor" then ("product", "subcategory")
      else (hierarchy, to_level) in
    Some (mkStep "DimensionNavigator" "drill_down"
            [ ("hierarchy", VStr hierarchy); ("to_level", VStr to_level);
              ("filters", VDict filters) ])
  else if has "top" then
    let n := first_number (split q) 5 in
    let dimension :=
      if has "countr" then "country"
      else if has "categor" then "category"
      else if has "sub" then "subcategory" else "region" in
    let measure := if has "profit" then "profit" else "revenue" in
    Some (mkStep "KPICalculator" "top_n"
            [ ("n", VInt n); ("dimension", VStr dimension);
              ("measure", VStr measure); ("filters", VDict filters) ])
  else if has "trend" || has "month" || has "monthly" then
    let year := match years with y :: _ => y | [] => 2024%Z end in
    Some (mkStep "ReportGenerator" "trend_report" [ ("year", VInt year) ])
  else if has "slice" || (List.length filters =? 1)%nat then
    let group_by :=
      if has "category" || has "product" then "category" else "region" in
    Some (mkStep "CubeOperations" "slice"
            [ ("filter", VDict filters); ("group_by", VList [VStr group_by]) ])
  else if has "dice" || (2 <=? List.length filters)%nat then
    let group_by :=
      if has "countr" then "country"
      else if has "sub" then "subcategory" else "region" in
    Some (mkStep "CubeOperations" "dice"
            [ ("filters", VDict filters); ("group_by", VList [VStr group_by]) ])
  else if has "pivot" then
    Some (mkStep "CubeOperations" "pivot"
            [ ("row_dim", VStr "region"); ("col_dim", VStr "year");
              ("measure", VStr "revenue") ])
  else if has "anomal" || has "unusual" || has "outlier" then
    Some (mkStep "AnomalyDetection" "monthly_anomaly" [])
  else if has "margin" || has "profit" then
    Some (mkStep "KPICalculator" "profit_margins"
            [ ("dimension",
               if has "categor" then VStr "category" else VStr "region");
              ("filters", VDict filters) ])
  else if has "region" || has "revenue by" then
    Some (mkStep "DimensionNavigator" "group"
            [ ("dimensions", VList [VStr "region"]);
              ("filters", VDict filters) ])
  else None.

Definition executive_summary_step : PlanStep :=
  mkStep "ReportGenerator" "executive_summary" [].

Definition _rule_based_plan (query : string) (fallback_error : string)
  : Plan :=
  let q := lower query in
  let steps := match classify q with Some s => [s] | None => [] end in
  let steps :=
    match steps with
    | [] => (steps ++ [mkStep "KPICalculator" "summary" []])%list
    | _ => steps
    end in
  let steps := (steps ++ [executive_summary_step])%list in
  {| intent :=
       "Answering: '" ++ query ++ "'"
       ++ (if String.eqb fallback_error "" then ""
           else " [rule-based fallback: " ++ fallback_error ++ "]");
     steps := steps;
     always_include_report := true;
     suggested_followups :=
       [ "Which region has the highest growth?";
         "Show me the top 5 subcategories by profit";
         "Compare 2023 vs 2024 by category" ] |}.

(** [l[-n:]] *)
Definition last_n {A} (n : nat) (l : list A) : list A :=
  skipn (List.length l - n) l.

(** [_call_llm]: the external planner is an oracle from the recent turns
    and the query to a plan; when it fails in any way the rule-based plan
    is used. *)
Definition _call_llm (llm : list message -> string -> result Plan)
  (history : list message) (user_query : string) : Plan :=
  match llm (last_n 6 history) user_query with
  | Ok plan => plan
  | Raise e =>
      if String.eqb (exn_class e) "ImportError"
      then _rule_based_plan user_query ""
      else _rule_based_plan user_query (exn_text e)
  end.

(** *** The plan executor *)

(** The body of [for step in steps], on the two lists the loop appends
    to. *)
Definition execute_step (agents : list (string * Agent))
  (user_query : string)
  (state : list AgentOutput * list Executed) (step : PlanStep)
  : list AgentOutput * list Executed :=
  let agent_name := agent step in
  let operation := operation step in
  let parameters := parameters step in
  match List.find (fun na => String.eqb (fst na) agent_name) agents with
  | None => state
  | Some (_, run) =>
      let agent_input := mkInput operation parameters user_query in
      let output :=
        match run agent_input with
        | Ok output => output
        | Raise e => error_output agent_name operation "" (exn_text e)
        end in
      ((fst state ++ [output])%list,
       (snd state
        ++ [ {| ex_agent := agent_name;
                ex_operation := operation;
                success := match out_error output with
                           | None => true
                           | Some _ => false
                           end;
                row_count := match out_data output with
                             | Some df => List.length df
                             | None => 0%nat
                             end |} ])%list)
  end.

(** [o.summary and not o.error] *)
Definition in_narrative (o : AgentOutput) : bool :=
  negb (String.eqb (out_summary o) "")
  && match out_error o with
     | None => true
     | Some e => String.eqb e ""
     end.

Definition build_narrative (outputs : list AgentOutput) : string :=
  let summaries := map out_summary (List.filter in_narrative outputs) in
  match summaries with
  | [] => "No results generated."
  | _ => join (nl ++ nl) summaries
  end.

(** [process]: the result and the conversation history after the turn. *)
Definition process (llm : list message -> string -> result Plan)
  (agents : list (string * Agent)) (history : list message)
  (user_query : string) : OrchestratorResult * list message :=
  let plan := _call_llm llm history user_query in
  let '(outputs, steps_executed) :=
    fold_left (execute_step agents user_query) (steps plan) ([], []) in
  let narrative := build_narrative outputs in
  let history :=
    (history ++ [("user", user_query);
                 ("assistant", take 500 narrative)])%list in
  ({| res_intent := intent plan;
      steps_executed := steps_executed;
      outputs := outputs;
      narrative := narrative;
      res_followups := suggested_followups plan;
      res_error := None |}, history).

(** [reset_context] *)
Definition reset_context (history : list message) : list message := [].

(** The agents of [OLAPOrchestrator.__init__] that are embedded above; the
    report builders are given, the chart agent is any agent. *)
Definition _agents (db : Storage) (F : Formatter)
  (pivot_table : table -> table) (R : ReportGenerator.Reports)
  (visualization : Agent) : list (string * Agent) :=
  [ ("DimensionNavigator", DimensionNavigator.run db F);
    ("CubeOperations", CubeOperations.run db F pivot_table);
    ("KPICalculator", KPICalculator.run db F);
    ("ReportGenerator", ReportGenerator.run R);
    ("Visualization", visualization);
    ("AnomalyDetection", AnomalyDetection.run db F) ].

End Orchestrator.

(* ===================================================================== *)
(** ** Concrete collaborators for the worked examples                    *)
(* ===================================================================== *)

Module Examples.

(** A formatter that prints every number as [#]. *)
Definition plain : Formatter :=
  {| py_str := fun _ => "?";
     fixed2 := fun v =>
       match v with
       | VInt _ | VFloat _ => Ok "#"
       | _ => Raise (mkExn "TypeError" "unsupported format string")
       end;
     signed2 := fun _ => "#";
     fixed1 := fun _ => "#";
     commas := fun _ => "#";
     fixed2_sqrt := fun _ => "#" |}.

(** Storage that answers every query with the same one-row table. *)
Definition one_row : row :=
  [ ("dimension", VStr "Europe");
    ("total_transactions", VInt 3);
    ("total_revenue", VFloat (Fin 100));
    ("total_profit", VFloat (Fin 20));
    ("avg_margin_pct", VFloat (Fin 20)) ].

Definition one_row_db : Storage := fun _ _ => Ok [one_row].

(** Storage with no rows at all. *)
Definition empty_db : Storage := fun _ _ => Ok [].

(** Storage that holds revenue for 2024 only. *)
Definition only_2024_db : Storage :=
  fun _ params =>
    match params with
    | [VInt 2024] =>
        Ok [[ ("revenue", VFloat (Fin 500)); ("profit", VFloat (Fin 50));
              ("quantity", VInt 10) ]]
    | _ => Ok []
    end.

(** Storage where one region had no revenue in the first period. *)
Definition regions_db : Storage :=
  fun _ params =>
    match params with
    | [VInt 2023] =>
        Ok [[ ("dimension", VStr "Europe"); ("revenue", VFloat (Fin 0));
              ("profit", VFloat (Fin 0)); ("quantity", VInt 0) ]]
    | _ =>
        Ok [[ ("dimension", VStr "Europe"); ("revenue", VFloat (Fin 500));
              ("profit", VFloat (Fin 50)); ("quantity", VInt 10) ]]
    end.

(** Two agents for the plan executor: one raises, one answers. *)
Definition failing_agent : Agent :=
  fun _ => Raise (mkExn "RuntimeError" "storage is down").

Definition answering_agent : Agent :=
  fun i =>
    Ok {| out_agent := "Good"; out_operation := in_operation i;
          out_sql := ""; out_data := Some [one_row];
          out_summary := "One row."; out_error := None;
          out_metadata := [] |}.

Definition two_agents : list (string * Agent) :=
  [("Bad", failing_agent); ("Good", answering_agent)].

Definition two_step_plan : Orchestrator.Plan :=
  {| Orchestrator.intent := "try both";
     Orchestrator.steps :=
       [ Orchestrator.mkStep "Bad" "anything" [];
         Orchestrator.mkStep "Good" "anything" [] ];
     Orchestrator.always_include_report := false;
     Orchestrator.suggested_followups := [] |}.

Definition two_step_llm : list Orchestrator.message -> string
                          -> result Orchestrator.Plan :=
  fun _ _ => Ok two_step_plan.

End Examples.

(* ===================================================================== *)
(** ** Reference definitions the properties are stated against           *)
(* ===================================================================== *)

Module ExecutorSpec.

Import Orchestrator.

(** [agents.get(name)] *)
Definition resolve (agents : list (string * Agent)) (name : string)
  : option Agent :=
  option_map snd (List.find (fun na => String.eqb (fst na) name) agents).

Definition input_of (user_query : string) (s : PlanStep) : AgentInput :=
  mkInput (operation s) (parameters s) user_query.

(** The ledger entry of a step whose Agent Output is [o]. *)
Definition entry_of (s : PlanStep) (o : AgentOutput) : Executed :=
  {| ex_agent := agent s;
     ex_operation := operation s;
     success := match out_error o with None => true | Some _ => false end;
     row_count := match out_data o with
                  | Some df => List.length df
                  | None => 0%nat
                  end |}.

(** What one step adds to the outputs and to the ledger, whatever the
    steps before it did: nothing when its agent is unknown, else one
    Agent Output, a failed one when the agent raised. *)
Definition step_result (agents : list (string * Agent)) (user_query : string)
  (s : PlanStep) : list (AgentOutput * Executed) :=
  match resolve agents (agent s) with
  | None => []
  | Some run =>
      let o := match run (input_of user_query s) with
               | Ok o => o
               | Raise e =>
                   error_output (agent s) (operation s) "" (exn_text e)
               end in
      [(o, entry_of s o)]
  end.

(** An output that is not an error and has a summary. *)
Definition contributes (o : AgentOutput) : Prop :=
  out_summary o <> "" /\ (out_error o = None \/ out_error o = Some "").

End ExecutorSpec.

Module NavigatorSpec.

Import DimensionNavigator.

(** The two edges of a hierarchy: the position of its finest and of its
    coarsest level. *)
Definition finest (h : hierarchy) : nat := (List.length (levels h) - 1)%nat.
Definition coarsest (h : hierarchy) : nat := 0%nat.

(** The requested level is the name of the level at position [i]. *)
Definition names_level (to_level : value) (h : hierarchy) (i : nat) : Prop :=
  exists s, to_level = VStr s /\ nth_error (levels h) i = Some s.

(** The requested level is absent from the hierarchy's level list. *)
Definition absent (to_level : value) (h : hierarchy) : Prop :=
  forall i, ~ names_level to_level h i.

(** A navigation request for hierarchy [hname]. *)
Definition nav_params (hname : string) (to_level : value) (fs : dict)
  : dict :=
  [("hierarchy", VStr hname); ("to_level", to_level); ("filters", VDict fs)].

(** What a request shows of its grouping: the query text and the rows. *)
Definition query_and_data (r : result AgentOutput)
  : result (string * option table) :=
  match r with
  | Ok o => Ok (out_sql o, out_data o)
  | Raise e => Raise e
  end.

Definition with_name (hname : value) (rq : Request) : Request :=
  mkRequest hname (rq_hierarchy rq) (rq_to_level rq) (rq_to_idx rq)
            (rq_group_cols rq) (rq_sql rq) (rq_params rq).

End NavigatorSpec.

Module BuilderSpec.

(** The column reference each builder groups by for a requested
    dimension name. *)
Definition navigator_column (d : string) : string :=
  match DimensionNavigator.catalog_get DimensionNavigator.col_map d with
  | Some c => c
  | None => "d." ++ d
  end.

Definition cube_column (d : string) : string :=
  match CubeOperations.catalog_get CubeOperations.COL_MAP d with
  | Some c => c
  | None => d
  end.

(** A rejection: the request raises or its output carries an error. *)
Definition rejected (r : result AgentOutput) : Prop :=
  match r with
  | Raise _ => True
  | Ok o => out_error o <> None
  end.

(** A success with zero rows. *)
Definition zero_rows (r : result AgentOutput) : Prop :=
  exists o, r = Ok o /\ out_error o = None /\ out_data o = Some [].

Definition group_params (dims : list string) (fs : dict) : dict :=
  [("dimensions", VList (map VStr dims)); ("filters", VDict fs)].

Definition cube_params (filter_key : string) (dims : list string) (fs : dict)
  : dict :=
  [(filter_key, VDict fs); ("group_by", VList (map VStr dims))].

End BuilderSpec.

Module DispatchSpec.

(** The operation name as [run] compares it. *)
Definition lowered (i : AgentInput) : string := lower (in_operation i).

Definition normalized (i : AgentInput) : string :=
  replace_char "-" "_" (lower (in_operation i)).

(** The operation names each agent's [run] recognises. *)
Definition navigator_ops : list string :=
  ["drill_down"; "drill-down"; "roll_up"; "roll-up"; "group"].

Definition cube_ops : list string :=
  ["slice"; "dice"; "pivot"; "drill_through"].

Definition kpi_ops : list string :=
  ["yoy"; "yoy_growth"; "mom"; "mom_change"; "compare"; "compare_periods";
   "top_n"; "ranking"; "margins"; "profit_margins"; "summary"].

Definition anomaly_ops : list string :=
  ["time_anomaly"; "monthly"; "product_anomaly"; "product"].

Definition report_ops : list string :=
  ["format_table"; "table"; "executive_summary"; "summary"; "narrative";
   "trend_report"; "trend"].

End DispatchSpec.

Module FilterSpec.

Definition placeholders := DimensionNavigator.placeholders.
Definition catalog_get := DimensionNavigator.catalog_get.
Definition where_of := DimensionNavigator.where_of.

(** The rules of the filter compiler for a value on a recognised column,
    in priority order: a list is a membership test with one bind per
    element, a range object is a one-sided inequality, anything else an
    equality with one bind. *)
Definition predicate (col : string) (val : value) : string * list value :=
  match val with
  | VList l => (col ++ " IN (" ++ placeholders (List.length l) ++ ")", l)
  | VDict d =>
      match dict_get "gte" d, dict_get "lte" d with
      | Some lo, _ => (col ++ " >= ?", [lo])
      | None, Some hi => (col ++ " <= ?", [hi])
      | None, None => (col ++ " = ?", [val])
      end
  | _ => (col ++ " = ?", [val])
  end.

(** What one entry contributes: nothing when its key is not in the
    catalog. *)
Definition contribution (catalog : list (string * string))
  (kv : string * value) : list (string * list value) :=
  match catalog_get catalog (fst kv) with
  | None => []
  | Some col => [predicate col (snd kv)]
  end.

Definition compile (catalog : list (string * string)) (fs : dict)
  : string * list value :=
  let cs := flat_map (contribution catalog) fs in
  (where_of (map fst cs), List.concat (map snd cs)).

(** A range object. *)
Definition is_range (val : value) : bool :=
  match val with
  | VDict d => has_key "gte" d || has_key "lte" d
  | _ => false
  end.

End FilterSpec.

Module ComparisonSpec.

(** The cells of a column of the table a request returns. *)
Definition pct_cells (col : string) (r : result AgentOutput)
  : option (list (option value)) :=
  match r with
  | Ok o => option_map (map (dict_get col)) (out_data o)
  | Raise _ => None
  end.

End ComparisonSpec.

Module GrowthSpec.

(** Growth of a point over its predecessor, in percent, to 2 decimals. *)
Definition growth_pct (prev cur : Q) : Q :=
  Qround_to 2 ((cur - prev) / prev * 100).

(** The growth value of a point given the previous one of its series:
    absent for the first point and for a zero base. *)
Definition point_growth (prev : option Q) (cur : Q) : option Q :=
  match prev with
  | None => None
  | Some p => if Qeq_bool p 0 then None else Some (growth_pct p cur)
  end.

(** The growth values of a series, read with a pointer to the previous
    point that starts out unset. *)
Fixpoint growths (prev : option Q) (xs : list Q) : list (option Q) :=
  match xs with
  | [] => []
  | x :: xs' => point_growth prev x :: growths (Some x) xs'
  end.

Definition growth_value (g : option Q) : value :=
  match g with
  | Some q => VFloat (Fin q)
  | None => VNone
  end.

(** The revenue of a row, when it is a finite number. *)
Definition revenue_of (r : row) : option Q :=
  match dict_get "total_revenue" r with
  | Some v =>
      match cell_float v with
      | Ok (Fin q) => Some q
      | _ => None
      end
  | None => None
  end.

(** A point of a revenue series: a row with a year and a finite
    revenue. *)
Definition is_point (r : row) : bool :=
  match dict_get "year" r, revenue_of r with
  | Some _, Some _ => true
  | _, _ => false
  end.

Definition revenues (rows : table) : list Q :=
  map (fun r => match revenue_of r with Some q => q | None => 0 end) rows.

(** The output record of a point with growth value [g]. *)
Definition record (label : option value) (r : row) (g : option Q) : row :=
  (match label with Some l => [("dimension", l)] | None => [] end
   ++ [ ("year", match dict_get "year" r with Some y => y | None => VNone end);
        ("total_revenue",
         match dict_get "total_revenue" r with Some v => v | None => VNone end);
        ("yoy_growth_pct", growth_value g) ])%list.

(** The revenue of the last row of a prefix of a series, if any. *)
Definition last_revenue (pre : table) : option Q :=
  match rev pre with
  | [] => None
  | r :: _ => revenue_of r
  end.

Definition records (label : option value) (prev : option Q) (rows : table)
  : list row :=
  map (fun rg => record label (fst rg) (snd rg))
      (combine rows (growths prev (revenues rows))).

(** Rows in the order of their years. *)
Fixpoint time_ordered (keys : list value) : bool :=
  match keys with
  | [] => true
  | k :: ks =>
      match ks with
      | [] => true
      | k' :: _ => Frame.key_leb k k' && time_ordered ks
      end
  end.

Definition years (rows : table) : list value :=
  map (fun r => match dict_get "year" r with Some y => y | None => VNone end)
      rows.

(** The series of the example: revenue by consecutive year. *)
Definition yearly (revenue : list Z) : table :=
  map (fun yr => [ ("year", VInt (fst yr));
                   ("total_revenue", VFloat (of_Z (snd yr))) ])
      (combine (map Z.of_nat (seq 2022 (List.length revenue))) revenue).

Definition growth_column (r : result (list row)) : list (option value) :=
  match r with
  | Ok rows => map (dict_get "yoy_growth_pct") rows
  | Raise _ => []
  end.

End GrowthSpec.

Module AnomalySpec.

(** Statistics of a finite series of exact numbers. *)
Definition Qsum (qs : list Q) : Q := fold_right Qplus 0 qs.

Definition Qcount (qs : list Q) : Q := inject_Z (Z.of_nat (List.length qs)).

Definition Qmean (qs : list Q) : Q := Qsum qs / Qcount qs.

Definition sum_of_squares (qs : list Q) : Q :=
  Qsum (map (fun q => (q - Qmean qs) * (q - Qmean qs)) qs).

(** The variance with denominator [n] and the one with [n - 1]. *)
Definition population_variance (qs : list Q) : Q :=
  sum_of_squares qs / Qcount qs.

Definition sample_variance (qs : list Q) : Q :=
  sum_of_squares qs / (Qcount qs - 1).

(** The z-score as the specification words it: deviation from the mean
    over the population standard deviation, flagged when beyond 2. *)
Definition population_z (qs : list Q) (q : Q) : R :=
  ((Q2R q - Q2R (Qmean qs)) / sqrt (Q2R (population_variance qs)))%R.

Definition population_flagged (qs : list Q) (q : Q) : Prop :=
  (Rabs (population_z qs q) > 2)%R.

(** The z-score over the sample standard deviation, before rounding. *)
Definition sample_z (qs : list Q) (q : Q) : R :=
  (Q2R (q - Qmean qs) / sqrt (Q2R (sample_variance qs)))%R.

(** What [_monthly_anomaly] computes for the point at position [i] of a
    series: its flag and its class. *)
Definition flag_at (qs : list Q) (i : nat) : option bool :=
  nth_error (map AnomalyDetection.is_anomaly
                 (AnomalyDetection.zscores (map Fin qs))) i.

Definition type_at (qs : list Q) (i : nat) : option string :=
  nth_error (map AnomalyDetection.anomaly_type
                 (AnomalyDetection.zscores (map Fin qs))) i.

(** Six months of revenue with one high month. *)
Definition one_high_month : list Q := [1; 1; 1; 1; 2; 6].

End AnomalySpec.

Module PlannerSpec.

Import Orchestrator.

Definition comparison_phrase : string := "compare 2023 and 2024 by region".

(** The first step the specification expects for the phrase. *)
Definition comparison_step : PlanStep :=
  mkStep "KPICalculator" "compare_periods"
    [ ("period_a", VDict [("year", VInt 2023)]);
      ("period_b", VDict [("year", VInt 2024)]);
      ("group_by", VStr "region") ].

(** A text that contains the phrase and also names 2022. *)
Definition since_2022 : string :=
  "compare 2023 and 2024 by region since 2022".

(** A text of digits. *)
Definition digits_only (d : string) : bool :=
  forallb is_digit (list_ascii_of_string d).

Definition first_step (p : Plan) : option PlanStep := hd_error (steps p).

Definition last_step (p : Plan) : option PlanStep :=
  hd_error (rev (steps p)).

End PlannerSpec.

(* ===================================================================== *)
(** ** backend/agents/base.py, report_generator.py, visualization.py:   *)
(**    serialisation, report builders and chart recommendation          *)
(* ===================================================================== *)

Module Serialization.

(** [isinstance(v, float) and (v != v or v == float("inf") or
    v == float("-inf"))] *)
Definition not_finite (v : value) : bool :=
  match v with
  | VFloat NaN | VFloat (Inf _) => true
  | _ => false
  end.

(** One cell of [AgentOutput.to_dict]: [None if ... else v]. *)
Definition cell (v : value) : value :=
  if not_finite v then VNone else v.

(** [{k: .. for k, v in row.items()}] *)
Definition record (r : row) : row :=
  map (fun kv => (fst kv, cell (snd kv))) r.

(** What [AgentOutput.to_dict] returns. *)
Record OutputDict : Type := mkOutputDict {
  d_agent : string;
  d_operation : string;
  d_sql : string;
  d_data : list row;
  d_columns : list string;
  d_row_count : nat;
  d_summary : string;
  d_error : option string;
  d_metadata : dict
}.

(** [AgentOutput.to_dict] *)
Definition to_dict (o : AgentOutput) : OutputDict :=
  {| d_agent := out_agent o;
     d_operation := out_operation o;
     d_sql := out_sql o;
     d_data := match out_data o with
               | Some df => map record df
               | None => []
               end;
     d_columns := match out_data o with
                  | Some df => columns df
                  | None => []
                  end;
     d_row_count := match out_data o with
                    | Some df => List.length df
                    | None => 0%nat
                    end;
     d_summary := out_summary o;
     d_error := out_error o;
     d_metadata := out_metadata o |}.

(** What [OrchestratorResult.to_dict] returns. *)
Record ResultDict : Type := mkResultDict {
  r_intent : string;
  r_steps_executed : list Orchestrator.Executed;
  r_outputs : list OutputDict;
  r_narrative : string;
  r_suggested_followups : list string;
  r_error : option string
}.

(** [OrchestratorResult.to_dict] *)
Definition result_to_dict (r : Orchestrator.OrchestratorResult)
  : ResultDict :=
  {| r_intent := Orchestrator.res_intent r;
     r_steps_executed := Orchestrator.steps_executed r;
     r_outputs := map to_dict (Orchestrator.outputs r);
     r_narrative := Orchestrator.narrative r;
     r_suggested_followups := Orchestrator.res_followups r;
     r_error := Orchestrator.res_error r |}.

End Serialization.

Module SerializationSpec.

Import Serialization.

(** A table no cell of which is not-a-number or an infinity. *)
Definition finite_cells (df : list row) : Prop :=
  Forall (Forall (fun kv : string * value => not_finite (snd kv) = false)) df.

End SerializationSpec.

Module ReportBuilders.

Import Frame.

Definition name : string := ReportGenerator.name.

(** The number formats of the reports the shared formatter does not
    have: [signed1 x] is [format(x, "+.1f")] and [whole v] is
    [format(v, ",.0f")], which raises on a value that is not a number. *)
Record ReportFormatter : Type := mkReportFormatter {
  signed1 : float -> string;
  whole : value -> result string
}.

(** [f"WHERE d.year = {year_filter}" if year_filter else ""] *)
Definition year_where (F : Formatter) (year_filter : value) : string :=
  if truthy year_filter then "WHERE d.year = " ++ fmt F year_filter else "".

(** [str(year_filter) if year_filter else "all years"] *)
Definition year_label (F : Formatter) (year_filter : value) : string :=
  if truthy year_filter then fmt F year_filter else "all years".

Definition sql_topline (where_ : string) : string := "
            SELECT ROUND(SUM(f.revenue),2)       AS total_revenue,
                   ROUND(SUM(f.profit),2)        AS total_profit,
                   ROUND(AVG(f.profit_margin),2) AS avg_margin,
                   COUNT(" ++ star ++ ")                      AS transactions,
                   ROUND(AVG(f.revenue),2)       AS avg_order
            FROM fact_sales f
            JOIN dim_date d ON f.date_key = d.date_key
            " ++ where_ ++ "
        ".

Definition sql_region (where_ : string) : string := "
            SELECT g.region, ROUND(SUM(f.revenue),2) AS rev
            FROM fact_sales f
            JOIN dim_date d ON f.date_key = d.date_key
            JOIN dim_geography g ON f.geo_key = g.geo_key
            " ++ where_ ++ "
            GROUP BY g.region ORDER BY rev DESC LIMIT 1
        ".

Definition sql_cat (where_ : string) : string := "
            SELECT p.category, ROUND(SUM(f.revenue),2) AS rev,
                   ROUND(AVG(f.profit_margin),2) AS margin
            FROM fact_sales f
            JOIN dim_date d ON f.date_key = d.date_key
            JOIN dim_product p ON f.product_key = p.product_key
            " ++ where_ ++ "
            GROUP BY p.category ORDER BY rev DESC LIMIT 1
        ".

Definition sql_yoy : string := "
                SELECT d.year, ROUND(SUM(f.revenue),2) AS rev
                FROM fact_sales f
                JOIN dim_date d ON f.date_key = d.date_key
                GROUP BY d.year ORDER BY d.year
            ".

(** The sentence on the last two years, when no year is selected. *)
Definition yoy_insight (db : Storage) (RF : ReportFormatter)
  (year_filter : value) : result string :=
  if truthy year_filter then Ok ""
  else
    yoy_df <- db sql_yoy [] ;;
    if (2 <=? List.length yoy_df)%nat
    then
      last <- iloc yoy_df (List.length yoy_df - 1) ;;
      prev <- iloc yoy_df (List.length yoy_df - 2) ;;
      last_rev <- row_float "rev" last ;;
      prev_rev <- row_float "rev" prev ;;
      let growth := fmul (fdiv (fsub last_rev prev_rev) prev_rev) (of_Z 100) in
      py <- row_get "year" prev ;;
      prev_year <- to_int py ;;
      prev_text <- whole RF (VFloat prev_rev) ;;
      ly <- row_get "year" last ;;
      last_year <- to_int ly ;;
      last_text <- whole RF (VFloat last_rev) ;;
      Ok (" Revenue grew " ++ signed1 RF growth ++ "% from "
          ++ str_int prev_year ++ " ($" ++ prev_text ++ ") to "
          ++ str_int last_year ++ " ($" ++ last_text ++ ").")
    else Ok "".

(** [df.iloc[0][col] if not df.empty else "N/A"] *)
Definition first_or_na (col : string) (df : table) : result value :=
  if df_empty df then Ok (VStr "N/A")
  else r <- iloc df 0 ;; row_get col r.

(** [df.iloc[0][col]] *)
Definition first_cell (col : string) (df : table) : result value :=
  r <- iloc df 0 ;; row_get col r.

Definition metric_row (metric : string) (v : value) : row :=
  [("metric", VStr metric); ("value", v)].

Definition _executive_summary (db : Storage) (F : Formatter)
  (RF : ReportFormatter) (params : dict) (context : string)
  : result AgentOutput :=
  let focus := get_default "focus" (VStr "overall") params in
  let year_filter := get_default "year" VNone params in
  let where_ := year_where F year_filter in
  let label := year_label F year_filter in
  topline_df <- db (sql_topline where_) [] ;;
  topline <- iloc topline_df 0 ;;
  top_region <- db (sql_region where_) [] ;;
  top_cat <- db (sql_cat where_) [] ;;
  insight <- yoy_insight db RF year_filter ;;
  rv <- row_get "total_revenue" topline ;;
  revenue <- fixed2 F rv ;;
  tv <- row_get "transactions" topline ;;
  transactions <- to_int tv ;;
  pv <- row_get "total_profit" topline ;;
  profit <- fixed2 F pv ;;
  margin <- row_get "avg_margin" topline ;;
  ov <- row_get "avg_order" topline ;;
  order <- fixed2 F ov ;;
  region <- first_or_na "region" top_region ;;
  rrv <- first_cell "rev" top_region ;;
  region_rev <- fixed2 F rrv ;;
  category <- first_or_na "category" top_cat ;;
  crv <- first_cell "rev" top_cat ;;
  cat_rev <- fixed2 F crv ;;
  cat_margin <- first_cell "margin" top_cat ;;
  let narrative := "## Executive Summary — " ++ title label ++ "

**Revenue:** $" ++ revenue ++ " across " ++ commas F transactions ++ " transactions.
**Profit:** $" ++ profit ++ " | **Avg Margin:** " ++ fmt F margin ++ "% | **Avg Order Value:** $" ++ order ++ "
" ++ insight ++ "

**Top Region:** " ++ fmt F region ++ " ($" ++ region_rev ++ ")
**Top Category:** " ++ fmt F category ++ " ($" ++ cat_rev ++ ", " ++ fmt F cat_margin ++ "% margin)
" in
  let summary_df :=
    [ metric_row "Total Revenue" (VStr ("$" ++ revenue));
      metric_row "Total Profit" (VStr ("$" ++ profit));
      metric_row "Avg Margin" (VStr (fmt F margin ++ "%"));
      metric_row "Total Transactions" (VStr (commas F transactions));
      metric_row "Avg Order Value" (VStr ("$" ++ order));
      metric_row "Top Region" region;
      metric_row "Top Category" category ] in
  Ok {| out_agent := name; out_operation := "executive_summary";
        out_sql := strip (sql_topline where_); out_data := Some summary_df;
        out_summary := narrative; out_error := None;
        out_metadata := [("focus", focus); ("year", year_filter);
                         ("narrative", VStr narrative)] |}.

(** The breakdown columns of the trend report. *)
Definition trend_columns : list (string * string) :=
  [ ("region", "g.region"); ("category", "p.category");
    ("customer_segment", "c.customer_segment") ].

(** [_trend_report] up to the call of [execute_sql]: the query text. *)
Definition trend_request (F : Formatter) (params : dict) : result string :=
  let year := get_default "year" (VInt 2024) params in
  let dimension := get_default "dimension" VNone params in
  dim_col <- lookup_value trend_columns dimension ;;
  let select_extra :=
    match dim_col with Some c => c ++ " AS dimension," | None => "" end in
  let group_extra :=
    match dim_col with Some c => c ++ "," | None => "" end in
  Ok ("
            SELECT " ++ select_extra ++ "
                   d.month, d.month_name,
                   ROUND(SUM(f.revenue),2)  AS total_revenue,
                   ROUND(SUM(f.profit),2)   AS total_profit,
                   COUNT(" ++ star ++ ")                 AS transactions
            FROM fact_sales f
            JOIN dim_date d ON f.date_key = d.date_key
            JOIN dim_geography g ON f.geo_key = g.geo_key
            JOIN dim_product p ON f.product_key = p.product_key
            JOIN dim_customer c ON f.customer_key = c.customer_key
            WHERE d.year = " ++ fmt F year ++ "
            GROUP BY " ++ group_extra ++ " d.month, d.month_name
            ORDER BY " ++ group_extra ++ " d.month
        ").

End ReportBuilders.

Module ReportSpec.

Import ReportBuilders.

(** A report formatter that prints every number as [#]. *)
Definition plain_report : ReportFormatter :=
  {| signed1 := fun _ => "#"; whole := fun _ => Ok "#" |}.

(** Storage with one row for the totals, the best region and the best
    category, and two years of revenue. *)
Definition summary_db : Storage :=
  fun sql _ =>
    if contains "g.region" sql
    then Ok [[("region", VStr "Europe"); ("rev", VFloat (Fin 100))]]
    else if contains "p.category" sql
    then Ok [[("category", VStr "Furniture"); ("rev", VFloat (Fin 60));
              ("margin", VFloat (Fin 20))]]
    else if contains "GROUP BY d.year" sql
    then Ok [[("year", VInt 2023); ("rev", VFloat (Fin 80))];
             [("year", VInt 2024); ("rev", VFloat (Fin 100))]]
    else Ok [[("total_revenue", VFloat (Fin 180));
              ("total_profit", VFloat (Fin 40));
              ("avg_margin", VFloat (Fin 22));
              ("transactions", VInt 3);
              ("avg_order", VFloat (Fin 60))]].

(** A year parameter that is not a year. *)
Definition any_year : string := "2024 OR 1=1".

End ReportSpec.

Module Visualization.

Definition name : string := "Visualization".

Definition CHART_RULES : list (string * string) :=
  [ ("trend", "line"); ("mom_change", "line"); ("yoy_growth", "bar");
    ("drill_down_time", "bar"); ("top_n", "bar"); ("ranking", "bar");
    ("compare_periods", "grouped_bar"); ("slice", "bar"); ("dice", "bar");
    ("profit_margins", "bar"); ("pivot", "heatmap"); ("group", "bar");
    ("distribution", "pie") ].

(** What [_recommend_chart] reads of a table: [data.empty], the number
    of rows and the number of columns of a numeric type. *)
Record Shape : Type := mkShape {
  is_empty : bool;
  n_rows : nat;
  numeric_cols : nat
}.

(** [_recommend_chart(operation, data)]; [None] is no table. *)
Definition _recommend_chart (operation : value) (data : option Shape)
  : result string :=
  match data with
  | None => Ok "bar"
  | Some shape =>
      if is_empty shape then Ok "bar"
      else
        rule <- lookup_value CHART_RULES operation ;;
        match rule with
        | Some chart => Ok chart
        | None =>
            if (n_rows shape <=? 5)%nat && (numeric_cols shape =? 1)%nat
            then Ok "pie"
            else if (12 <? n_rows shape)%nat && (numeric_cols shape =? 1)%nat
            then Ok "line"
            else if (3 <? numeric_cols shape)%nat then Ok "heatmap"
            else Ok "bar"
        end
  end.

(** The chart types [_build_plotly_config] has a branch for; any other
    type is given an empty plot. *)
Definition drawn (chart_type : string) : bool :=
  String.eqb chart_type "bar" || String.eqb chart_type "line"
  || String.eqb chart_type "pie" || String.eqb chart_type "grouped_bar"
  || String.eqb chart_type "heatmap".

End Visualization.

(* ===================================================================== *)
(** ** Reference definitions for the further properties                 *)
(* ===================================================================== *)

Module BindSpec.

(** The number of occurrences of a character in a text. *)
Fixpoint count_char (c : ascii) (s : string) : nat :=
  match s with
  | EmptyString => 0%nat
  | String x s' => ((if Ascii.eqb x c then 1 else 0) + count_char c s')%nat
  end.

(** The positional placeholders of a query fragment. *)
Definition question_marks (s : string) : nat := count_char "?" s.

Definition marks_in (l : list string) : nat :=
  fold_right (fun s n => (question_marks s + n)%nat) 0%nat l.

(** A filter set without range objects and without the key the cube's
    catalog alone knows. *)
Definition plain_filters (fs : dict) : bool :=
  forallb (fun kv => negb (FilterSpec.is_range (snd kv))
                     && negb (String.eqb (fst kv) "month_num")) fs.

End BindSpec.

Module EdgeSpec.

(** Storage that answers every query with the same table. *)
Definition answers (db : Storage) (df : table) : Prop :=
  forall q ps, db q ps = Ok df.

(** Storage that fails on every query. *)
Definition down (db : Storage) : Prop :=
  forall q ps, exists e, db q ps = Raise e.

(** An object that can key a dict lookup. *)
Definition hashable (v : value) : bool :=
  match v with
  | VList _ | VDict _ => false
  | _ => true
  end.

(** A parameter bag whose filters, when given, are a dict and whose
    dimension, when given, can key the column catalog. *)
Definition well_formed (params : dict) : Prop :=
  (forall v, dict_get "filters" params = Some v -> exists fs, v = VDict fs)
  /\ (forall v, dict_get "dimension" params = Some v -> hashable v = true).


Definition storage_down : Storage :=
  fun _ _ => Raise (mkExn "OperationalError" "unable to open database file").

End EdgeSpec.

Module OutageSpec.

(** A request that did not succeed: it raised, or it returned the error
    output of an unknown operation. *)
Definition failed (r : result AgentOutput) : Prop :=
  match r with
  | Raise _ => True
  | Ok o => exists agent op msg, o = error_output agent op "" msg
  end.

(** The agents that read storage. *)
Definition storage_agents : list string :=
  ["DimensionNavigator"; "CubeOperations"; "KPICalculator";
   "AnomalyDetection"].

End OutageSpec.

Module EmptyComparisonSpec.


(** The period a request compares from and to. *)
Definition period_a (params : dict) : value :=
  get_default "period_a" (VDict [("year", VInt 2023)]) params.

Definition period_b (params : dict) : value :=
  get_default "period_b" (VDict [("year", VInt 2024)]) params.

Definition group_by (params : dict) : value :=
  get_default "group_by" VNone params.

End EmptyComparisonSpec.

Module RankingSpec.

(** The first row of a table can be read for the summary line: it has a
    dimension and a metric the formatter prints. *)
Definition summarizable (F : Formatter) (df : table) : Prop :=
  forall top, hd_error df = Some top ->
    exists d m text,
      dict_get "dimension" top = Some d
      /\ dict_get "metric" top = Some m
      /\ fixed2 F m = Ok text.

Definition has_rank (df : table) : bool :=
  existsb (fun r => has_key "rank" r) df.

(** Three countries, the last two with the same metric. *)
Definition three_countries : table :=
  [ [("dimension", VStr "Germany"); ("metric", VFloat (Fin 300))];
    [("dimension", VStr "France"); ("metric", VFloat (Fin 200))];
    [("dimension", VStr "Spain"); ("metric", VFloat (Fin 200))] ].

End RankingSpec.

Module MonthlySpec.

(** The percentage change from [prev] to [cur], to two decimals. *)
Definition mom_pct (prev cur : float) : float :=
  fround 2 (fmul (fdiv (fsub cur prev) prev) (of_Z 100)).

(** The changes along a series that follows a month with revenue
    [prev]. *)
Fixpoint mom_from (prev : float) (xs : list float) : list float :=
  match xs with
  | [] => []
  | x :: rest => mom_pct prev x :: mom_from x rest
  end.

(** Three months, the second without revenue. *)
Definition three_months : table :=
  [ [("month", VInt 1); ("total_revenue", VFloat (Fin 100))];
    [("month", VInt 2); ("total_revenue", VFloat (Fin 0))];
    [("month", VInt 3); ("total_revenue", VFloat (Fin 50))] ].

End MonthlySpec.

Module PlanSpec.

Import Orchestrator.






(** The keys of the filter sets the planner builds. *)
Definition planner_keys : list string :=
  ["year"; "quarter"; "region"; "category"].

Definition scalar (v : value) : bool :=
  match v with
  | VList _ | VDict _ => false
  | _ => true
  end.

End PlanSpec.

Module ConversationSpec.

Import Orchestrator.

(** A conversation: the history after the questions [qs] were processed
    one after the other. *)
Definition turns (llm : list message -> string -> result Plan)
  (agents : list (string * Agent)) (history : list message)
  (qs : list string) : list message :=
  fold_left (fun h q => snd (process llm agents h q)) qs history.

(** An assistant message of at most 500 characters, or a user message. *)
Definition bounded (m : message) : Prop :=
  fst m = "user" \/ (fst m = "assistant" /\ (String.length (snd m) <= 500)%nat).

End ConversationSpec.

Module JoinSpec.

Import Frame.

(** Two rows of the two periods carry the same dimension value. *)
Definition matches (ra rb : row) : bool :=
  match dict_get "dimension" ra, dict_get "dimension" rb with
  | Some ka, Some kb => key_eqb ka kb
  | _, _ => false
  end.

(** The pairs of rows of the two periods that carry the same dimension
    value, in the order of the first period, then of the second. *)
Definition matching_pairs (df_a df_b : table) : list (row * row) :=
  List.filter (fun p => matches (fst p) (snd p)) (list_prod df_a df_b).

(** Storage where Asia sold in 2023 only. *)
Definition asia_left_db : Storage :=
  fun _ params =>
    match params with
    | [VInt 2023] =>
        Ok [[ ("dimension", VStr "Europe"); ("revenue", VFloat (Fin 100)) ];
            [ ("dimension", VStr "Asia"); ("revenue", VFloat (Fin 40)) ]]
    | _ =>
        Ok [[ ("dimension", VStr "Europe"); ("revenue", VFloat (Fin 150)) ]]
    end.

Definition by_region : dict :=
  [ ("period_a", VDict [("year", VInt 2023)]);
    ("period_b", VDict [("year", VInt 2024)]);
    ("group_by", VStr "region") ].

End JoinSpec.

Module SingleYearSpec.

(** The record of the first year of a series: it has no growth. *)
Definition first_record (year revenue : value) : row :=
  [("year", year); ("total_revenue", revenue); ("yoy_growth_pct", VNone)].

End SingleYearSpec.

Module PlannedNamesSpec.

Import Orchestrator.

(** A text parameter of a step. *)
Definition text_of (key : string) (params : dict) : option string :=
  match dict_get key params with
  | Some (VStr s) => Some s
  | _ => None
  end.

(** A dimension the catalog [m] maps to a column; a parameter that is
    absent or [None] names no dimension. *)
Definition mapped (m : list (string * string)) (d : option value) : bool :=
  match d with
  | None | Some VNone => true
  | Some (VStr s) =>
      match DimensionNavigator.catalog_get m s with
      | Some _ => true
      | None => false
      end
  | Some _ => false
  end.

Definition all_mapped (m : list (string * string)) (d : option value)
  : bool :=
  match d with
  | Some (VList l) => forallb (fun v => mapped m (Some v)) l
  | _ => false
  end.

(** A level of the hierarchy registered under a name. *)
Definition level_of (hname level : string) : bool :=
  match List.find (fun nh => String.eqb (fst nh) hname)
                  DimensionNavigator.HIERARCHIES with
  | Some nh => existsb (String.eqb level) (DimensionNavigator.levels (snd nh))
  | None => false
  end.

(** Every hierarchy, level, dimension and measure a step names is one
    its agent has an entry for, so that none of the agent's fall-backs
    for unknown names is taken. *)
Definition names_known (s : PlanStep) : bool :=
  let p := parameters s in
  let op := operation s in
  if String.eqb op "drill_down" then
    match text_of "hierarchy" p, text_of "to_level" p with
    | Some h, Some l => level_of h l
    | _, _ => false
    end
  else if String.eqb op "group" then
    all_mapped DimensionNavigator.col_map (dict_get "dimensions" p)
  else if String.eqb op "slice" || String.eqb op "dice" then
    all_mapped CubeOperations.COL_MAP (dict_get "group_by" p)
  else if String.eqb op "pivot" then
    mapped CubeOperations.COL_MAP (dict_get "row_dim" p)
    && mapped CubeOperations.COL_MAP (dict_get "col_dim" p)
    && match dict_get "measure" p with
       | Some m => CubeOperations.additive m
       | None => true
       end
  else if String.eqb op "top_n" then
    mapped KPICalculator.COL_MAP (dict_get "dimension" p)
    && match dict_get "measure" p with
       | Some m => KPICalculator.additive m
       | None => true
       end
  else if String.eqb op "yoy_growth" || String.eqb op "profit_margins" then
    mapped KPICalculator.COL_MAP (dict_get "dimension" p)
  else if String.eqb op "compare_periods" then
    mapped KPICalculator.COL_MAP (dict_get "group_by" p)
  else true.


End PlannedNamesSpec.

Module QuartileSpec.

(** Insertion sort of exact numbers, ascending. *)
Fixpoint insertQ (x : Q) (l : list Q) : list Q :=
  match l with
  | [] => [x]
  | y :: l' => if Qle_bool x y then x :: l else y :: insertQ x l'
  end.

Definition sortQ (l : list Q) : list Q := fold_right insertQ [] l.

(** Ascending order. *)
Inductive ascending : list Q -> Prop :=
| asc_nil : ascending []
| asc_one : forall x, ascending [x]
| asc_cons : forall x y l, x <= y -> ascending (y :: l) ->
                           ascending (x :: y :: l).

(** The position of the quartile [k/4] among [n] ordered values. *)
Definition position (n : nat) (k : positive) : Q :=
  inject_Z (Z.of_nat (n - 1)) * (Zpos k # 4).

(** The quartile [k/4] of a series, by linear interpolation between the
    two order statistics around its position. *)
Definition quartile (k : positive) (qs : list Q) : Q :=
  let s := sortQ qs in
  let h := position (List.length s) k in
  let lo := Z.to_nat (Qfloor h) in
  let a := nth lo s 0 in
  let b := nth (S lo) s a in
  a + (h - inject_Z (Qfloor h)) * (b - a).

(** The fences one and a half inter-quartile ranges outside the
    quartiles. *)
Definition lower_fence (qs : list Q) : Q :=
  quartile 1 qs - (3 # 2) * (quartile 3 qs - quartile 1 qs).

Definition upper_fence (qs : list Q) : Q :=
  quartile 3 qs + (3 # 2) * (quartile 3 qs - quartile 1 qs).

(** A margin outside the fences. *)
Definition outside (lo up q : Q) : bool :=
  negb (Qle_bool lo q && Qle_bool q up).

(** Five subcategories, one with a margin far above the others. *)
Definition five_margins : list Q := [10; 12; 11; 13; 40].

Definition five_subcategories : table :=
  map (fun q => [("subcategory", VStr "s"); ("avg_margin", VFloat (Fin q))])
      five_margins.

End QuartileSpec.

(* ===================================================================== *)
(** * Properties                                                          *)
(* ===================================================================== *)

Module ExecutorProofs.
Import Orchestrator ExecutorSpec.

Lemma execute_step_result agents q state s :
  execute_step agents q state s =
  ((fst state ++ map fst (step_result agents q s))%list,
   (snd state ++ map snd (step_result agents q s))%list).
Proof.
  unfold execute_step, step_result, resolve.
  destruct (List.find _ agents) as [[n run]|]; simpl.
  - reflexivity.
  - rewrite !app_nil_r. destruct state; reflexivity.
Qed.

Lemma fold_execute_steps agents q steps :
  forall state,
    fold_left (execute_step agents q) steps state =
    ((fst state ++ map fst (flat_map (step_result agents q) steps))%list,
     (snd state ++ map snd (flat_map (step_result agents q) steps))%list).
Proof.
  induction steps as [|s steps IH]; intros state; simpl.
  - rewrite !app_nil_r. destruct state; reflexivity.
  - rewrite IH, execute_step_result. simpl.
    rewrite !map_app, !app_assoc. reflexivity.
Qed.

Lemma in_narrative_iff o : in_narrative o = true <-> contributes o.
Proof.
  unfold in_narrative, contributes. rewrite andb_true_iff, negb_true_iff.
  rewrite String.eqb_neq.
  destruct (out_error o) as [e|].
  - rewrite String.eqb_eq. split; intros [H1 H2]; split; auto.
    + right; congruence.
    + destruct H2 as [H2|H2]; congruence.
  - split; intros [H1 _]; split; auto.
Qed.

(** C1.  The plan executor isolates step failures.  The outputs and the
    ledger of [process] are what the steps of the plan contribute one by
    one, in plan order, whatever the steps before did (no plan-wide
    abort).  A step whose agent raises contributes a failed Agent Output:
    its error is the text of the exception, its result table is empty,
    its ledger entry has [success = false] and it adds nothing to the
    narrative.  A step whose agent returns contributes that output, with
    [success = true] exactly when the output carries no error.  The
    narrative joins, in plan order, the summaries of the outputs that have
    a summary and no error, and it is the placeholder
    ["No results generated."] when there is none. *)
Theorem process_isolates_step_failures :
  forall llm agents history q,
    let plan := _call_llm llm history q in
    let r := fst (process llm agents history q) in
    let results := flat_map (step_result agents q) (steps plan) in
    outputs r = map fst results
    /\ steps_executed r = map snd results
    /\ (forall s run e,
          resolve agents (agent s) = Some run ->
          run (input_of q s) = Raise e ->
          exists o,
            step_result agents q s = [(o, entry_of s o)]
            /\ out_error o = Some (exn_text e)
            /\ out_data o = None
            /\ success (entry_of s o) = false
            /\ in_narrative o = false)
    /\ (forall s run o,
          resolve agents (agent s) = Some run ->
          run (input_of q s) = Ok o ->
          step_result agents q s = [(o, entry_of s o)]
          /\ (success (entry_of s o) = true <-> out_error o = None))
    /\ (forall o, in_narrative o = true <-> contributes o)
    /\ narrative r =
       match map out_summary (List.filter in_narrative (outputs r)) with
       | [] => "No results generated."
       | summaries => join (nl ++ nl) summaries
       end.
Proof.
  intros llm agents history q plan r results.
  assert (Hfold := fold_execute_steps agents q (steps plan) ([], [])).
  simpl in Hfold. fold results in Hfold.
  assert (Hr : outputs r = map fst results /\ steps_executed r = map snd results).
  { subst r. unfold process. fold plan. rewrite Hfold. simpl. auto. }
  destruct Hr as [Ho He].
  split; [exact Ho|]. split; [exact He|].
  split; [|split; [|split; [exact in_narrative_iff|]]].
  - intros s run e Hres Hrun.
    exists (error_output (agent s) (operation s) "" (exn_text e)).
    unfold step_result. rewrite Hres, Hrun. simpl. repeat split; reflexivity.
  - intros s run o Hres Hrun. split.
    + unfold step_result. rewrite Hres, Hrun. reflexivity.
    + simpl. destruct (out_error o); split; congruence.
  - subst r. unfold process. fold plan. rewrite Hfold.
    cbn [fst narrative outputs]. unfold build_narrative.
    destruct (map out_summary _); reflexivity.
Qed.
(** C1, worked example: a plan whose first step raises and whose second
    step answers gives two outputs, a ledger marking failure then
    success, and a narrative holding only the second step's summary. *)
Lemma failing_then_answering_plan :
  let r := fst (process Examples.two_step_llm Examples.two_agents [] "q") in
  List.length (outputs r) = 2%nat
  /\ map success (steps_executed r) = [false; true]
  /\ narrative r = "One row.".
Proof.
  pose proof (process_isolates_step_failures
                Examples.two_step_llm Examples.two_agents [] "q") as H.
  cbv zeta in H. destruct H as (Ho & He & _ & _ & _ & Hn).
  cbv zeta. rewrite Hn, Ho, He. repeat split; reflexivity.
Defined.

End ExecutorProofs.

Module NavigatorProofs.

Import DimensionNavigator NavigatorSpec.

Lemma index_of_None s l : index_of s l = None <-> ~ In s l.
Proof.
  induction l as [|y l IH]; simpl.
  - tauto.
  - destruct (String.eqb_spec s y) as [->|Hne].
    + split; [discriminate|]. intros H; exfalso; apply H; auto.
    + destruct (index_of s l); simpl.
      * split; [discriminate|]. intros H; exfalso.
        apply H. right. apply Decidable.not_not.
        { destruct (in_dec string_dec s l); [left|right]; auto. }
        intro Hn. apply IH in Hn. discriminate.
      * split; auto. intros _ [H|H]; [congruence|]. apply IH in H; auto.
Qed.

Lemma index_of_Some s l i :
  index_of s l = Some i -> nth_error l i = Some s /\ (i < List.length l)%nat.
Proof.
  revert i. induction l as [|y l IH]; simpl; intros i H.
  - discriminate.
  - destruct (String.eqb_spec s y) as [->|Hne].
    + inversion H; subst. simpl. split; [reflexivity|lia].
    + destruct (index_of s l) as [j|]; simpl in H; [|discriminate].
      inversion H; subst. destruct (IH j eq_refl) as [H1 H2].
      simpl. split; [assumption|lia].
Qed.

Lemma index_of_nth s l i :
  NoDup l -> nth_error l i = Some s -> index_of s l = Some i.
Proof.
  intros Hnd. revert i. induction Hnd as [|y l Hy Hnd IH]; intros i Hi.
  - destruct i; discriminate.
  - destruct i as [|i]; simpl in *.
    + inversion Hi; subst. rewrite String.eqb_refl. reflexivity.
    + destruct (String.eqb_spec s y) as [->|Hne].
      * exfalso. apply Hy. eapply nth_error_In; eauto.
      * rewrite (IH i Hi). reflexivity.
Qed.

Lemma hierarchies_cases hname h :
  In (hname, h) HIERARCHIES ->
  (hname, h) = ("time", time_hierarchy)
  \/ (hname, h) = ("geography", geography_hierarchy)
  \/ (hname, h) = ("product", product_hierarchy).
Proof.
  unfold HIERARCHIES. simpl. intuition congruence.
Qed.

Lemma hierarchy_shape hname h :
  In (hname, h) HIERARCHIES ->
  get_hierarchy (VStr hname) = Ok h
  /\ NoDup (levels h)
  /\ List.length (hcolumns h) = List.length (levels h)
  /\ (0 < List.length (levels h))%nat.
Proof.
  intros H. destruct (hierarchies_cases _ _ H) as [E|[E|E]];
    inversion E; subst; (split; [reflexivity|]);
    (split; [|split; simpl; lia]);
    repeat constructor; simpl; intuition discriminate.
Qed.

Lemma build_filter_clause_dict fs :
  _build_filter_clause (VDict fs) =
  Ok (where_of (fst (filter_loop fs [] [])), snd (filter_loop fs [] [])).
Proof.
  unfold _build_filter_clause. simpl.
  destruct (filter_loop fs [] []); reflexivity.
Qed.

Lemma drill_down_request_eq hname h to_level fs :
  In (hname, h) HIERARCHIES ->
  drill_down_request (nav_params hname to_level fs) =
  let cols := firstn (drill_index to_level h + 1) (hcolumns h) in
  let w := where_of (fst (filter_loop fs [] [])) in
  let ps := snd (filter_loop fs [] []) in
  Ok (mkRequest (VStr hname) h to_level (drill_index to_level h) cols
                (fst (_base_query cols w ps)) ps).
Proof.
  intros H. destruct (hierarchy_shape _ _ H) as [Hg _].
  unfold drill_down_request, nav_params.
  replace (get_default "hierarchy" (VStr "time") _) with (VStr hname)
    by reflexivity.
  rewrite Hg. cbn [bind].
  replace (get_default "to_level" _ _) with to_level by reflexivity.
  replace (get_default "filters" _ _) with (VDict fs) by reflexivity.
  rewrite build_filter_clause_dict. reflexivity.
Qed.

Lemma roll_up_request_eq hname h to_level fs :
  In (hname, h) HIERARCHIES ->
  roll_up_request (nav_params hname to_level fs) =
  let cols := firstn (roll_index to_level h + 1) (hcolumns h) in
  let w := where_of (fst (filter_loop fs [] [])) in
  let ps := snd (filter_loop fs [] []) in
  Ok (mkRequest (VStr hname) h to_level (roll_index to_level h) cols
                (fst (_base_query cols w ps)) ps).
Proof.
  intros H. destruct (hierarchy_shape _ _ H) as [Hg _].
  unfold roll_up_request, nav_params.
  replace (get_default "hierarchy" (VStr "time") _) with (VStr hname)
    by reflexivity.
  rewrite Hg. cbn [bind].
  replace (get_default "to_level" _ _) with to_level by reflexivity.
  replace (get_default "filters" _ _) with (VDict fs) by reflexivity.
  rewrite build_filter_clause_dict. reflexivity.
Qed.

Lemma level_index_absent to_level h :
  absent to_level h <-> level_index to_level h = None.
Proof.
  unfold absent, names_level, level_index. split.
  - intros Ha. destruct to_level; try reflexivity.
    destruct (index_of s (levels h)) as [i|] eqn:E; [|reflexivity].
    exfalso. apply (Ha i). exists s. split; [reflexivity|].
    apply index_of_Some; assumption.
  - intros Hn i (s & -> & Hs).
    apply index_of_None in Hn. apply Hn. eapply nth_error_In; eauto.
Qed.

Lemma level_index_names to_level h i :
  NoDup (levels h) -> names_level to_level h i ->
  level_index to_level h = Some i.
Proof.
  intros Hnd (s & -> & Hs). simpl. apply index_of_nth; assumption.
Qed.

Lemma drill_index_lt to_level h :
  (0 < List.length (levels h))%nat ->
  (drill_index to_level h < List.length (levels h))%nat.
Proof.
  intros Hpos. unfold drill_index, level_index.
  destruct to_level; try lia.
  destruct (index_of s (levels h)) eqn:E; [|lia].
  apply index_of_Some in E. tauto.
Qed.

Lemma roll_index_lt to_level h :
  (0 < List.length (levels h))%nat ->
  (roll_index to_level h < List.length (levels h))%nat.
Proof.
  intros Hpos. unfold roll_index, level_index.
  destruct to_level; try lia.
  destruct (index_of s (levels h)) eqn:E; [|lia].
  apply index_of_Some in E. tauto.
Qed.

(** Two drill-down requests that differ only in the names they print
    show the same query and the same rows. *)
Lemma drill_down_same_grouping db F ctx rq1 rq2 p1 p2 :
  drill_down_request p1 = Ok rq1 ->
  drill_down_request p2 = Ok rq2 ->
  rq_sql rq1 = rq_sql rq2 -> rq_params rq1 = rq_params rq2 ->
  query_and_data (_drill_down db F p1 ctx)
  = query_and_data (_drill_down db F p2 ctx).
Proof.
  intros H1 H2 Hs Hp. unfold _drill_down. rewrite H1, H2. cbn [bind].
  rewrite Hs, Hp. destruct (db (rq_sql rq2) (rq_params rq2)) as [df|e];
    cbn [bind]; [|reflexivity].
  destruct (df_empty df); cbn [bind query_and_data]; [reflexivity|].
  destruct df as [|[|[c first] top] df']; cbn [bind query_and_data];
    try reflexivity.
  destruct (row_get "total_revenue" _) as [rev|e]; cbn [bind query_and_data];
    [|reflexivity].
  destruct (fixed2 F rev); reflexivity.
Qed.

Lemma roll_up_same_grouping db F ctx rq1 rq2 p1 p2 :
  roll_up_request p1 = Ok rq1 ->
  roll_up_request p2 = Ok rq2 ->
  rq_sql rq1 = rq_sql rq2 -> rq_params rq1 = rq_params rq2 ->
  query_and_data (_roll_up db F p1 ctx)
  = query_and_data (_roll_up db F p2 ctx).
Proof.
  intros H1 H2 Hs Hp. unfold _roll_up. rewrite H1, H2. cbn [bind].
  rewrite Hs, Hp. destruct (db (rq_sql rq2) (rq_params rq2)) as [df|e];
    cbn [bind]; [|reflexivity].
  destruct (column_sum "total_revenue" df) as [total|e]; cbn [bind];
    [|reflexivity].
  destruct (fixed2 F (VFloat total)); reflexivity.
Qed.

(** C5.  Level resolution of the hierarchy navigator.  For each of the
    three hierarchies and any requested level, drill-down and roll-up
    both resolve: when the level is absent from the hierarchy's level
    list, drill-down takes the finest level and roll-up the coarsest;
    when it names the level at position [i], both take position [i].  In
    all cases the grouping columns are the prefix of the hierarchy's
    columns up to and including the resolved level, and a drill-down
    (roll-up) to an absent level issues the same query and returns the
    same rows as one to the finest (coarsest) level. *)
Theorem unknown_level_falls_back_to_edge :
  forall hname h, In (hname, h) HIERARCHIES ->
  forall (to_level : value) (fs : dict),
    let params := nav_params hname to_level fs in
    exists drill roll,
      drill_down_request params = Ok drill
      /\ roll_up_request params = Ok roll
      /\ (absent to_level h ->
          rq_to_idx drill = finest h /\ rq_to_idx roll = coarsest h)
      /\ (forall i, names_level to_level h i ->
          rq_to_idx drill = i /\ rq_to_idx roll = i)
      /\ (rq_to_idx drill < List.length (levels h))%nat
      /\ (rq_to_idx roll < List.length (levels h))%nat
      /\ rq_group_cols drill = firstn (S (rq_to_idx drill)) (hcolumns h)
      /\ rq_group_cols roll = firstn (S (rq_to_idx roll)) (hcolumns h)
      /\ List.length (rq_group_cols drill) = S (rq_to_idx drill)
      /\ List.length (rq_group_cols roll) = S (rq_to_idx roll)
      /\ (forall db F ctx,
          absent to_level h ->
          query_and_data (_drill_down db F params ctx)
          = query_and_data
              (_drill_down db F
                 (nav_params hname (VStr (last (levels h) "")) fs) ctx)
          /\ query_and_data (_roll_up db F params ctx)
             = query_and_data
                 (_roll_up db F
                    (nav_params hname (VStr (hd "" (levels h))) fs) ctx)).
Proof.
  intros hname h Hin to_level fs params.
  destruct (hierarchy_shape _ _ Hin) as (Hg & Hnd & Hlen & Hpos).
  eexists. eexists.
  split; [apply drill_down_request_eq; exact Hin|].
  split; [apply roll_up_request_eq; exact Hin|].
  cbn [rq_to_idx rq_group_cols].
  assert (Hd := drill_index_lt to_level h Hpos).
  assert (Hr := roll_index_lt to_level h Hpos).
  split.
  { intros Ha. apply level_index_absent in Ha.
    unfold drill_index, roll_index. rewrite Ha. split; reflexivity. }
  split.
  { intros i Hi. apply (level_index_names _ _ _ Hnd) in Hi.
    unfold drill_index, roll_index. rewrite Hi. split; reflexivity. }
  split; [exact Hd|]. split; [exact Hr|].
  rewrite !Nat.add_1_r.
  split; [reflexivity|]. split; [reflexivity|].
  split; [rewrite length_firstn; lia|].
  split; [rewrite length_firstn; lia|].
  intros db F ctx Ha.
  assert (Hlast : drill_index (VStr (last (levels h) "")) h
                  = drill_index to_level h).
  { apply level_index_absent in Ha. unfold drill_index at 2. rewrite Ha.
    destruct (hierarchies_cases _ _ Hin) as [E|[E|E]];
      inversion E; subst; reflexivity. }
  assert (Hhd : roll_index (VStr (hd "" (levels h))) h
                = roll_index to_level h).
  { apply level_index_absent in Ha. unfold roll_index at 2. rewrite Ha.
    destruct (hierarchies_cases _ _ Hin) as [E|[E|E]];
      inversion E; subst; reflexivity. }
  split.
  - eapply drill_down_same_grouping.
    + apply drill_down_request_eq; exact Hin.
    + apply drill_down_request_eq; exact Hin.
    + cbn [rq_sql]. rewrite Hlast. reflexivity.
    + reflexivity.
  - eapply roll_up_same_grouping.
    + apply roll_up_request_eq; exact Hin.
    + apply roll_up_request_eq; exact Hin.
    + cbn [rq_sql]. rewrite Hhd. reflexivity.
    + reflexivity.
Qed.

(** C5, worked example: drill-down on the time hierarchy to the unknown
    level "decade" groups by year, quarter and month, as "month" does. *)
Lemma decade_resolves_like_month :
  exists drill month,
    drill_down_request (nav_params "time" (VStr "decade") []) = Ok drill
    /\ drill_down_request (nav_params "time" (VStr "month") []) = Ok month
    /\ rq_to_idx drill = 2%nat
    /\ rq_group_cols drill = ["d.year"; "d.quarter"; "d.month_name"]
    /\ rq_group_cols month = rq_group_cols drill
    /\ rq_sql month = rq_sql drill.
Proof.
  destruct (unknown_level_falls_back_to_edge
              "time" time_hierarchy (or_introl eq_refl) (VStr "decade") [])
    as (drill & roll & Hd & _ & Habs & _ & _ & _ & Hcols & _).
  assert (Ha : absent (VStr "decade") time_hierarchy)
    by (apply level_index_absent; reflexivity).
  destruct (Habs Ha) as [Hi _].
  exists drill. eexists. split; [exact Hd|]. split; [reflexivity|].
  split; [rewrite Hi; reflexivity|].
  split; [rewrite Hcols, Hi; reflexivity|].
  cbv zeta in Hd. vm_compute in Hd. inversion Hd. split; reflexivity.
Defined.

End NavigatorProofs.

Module UnknownHierarchyProofs.

Import DimensionNavigator NavigatorSpec.

Lemma get_hierarchy_unknown hname :
  ~ In hname ["time"; "geography"; "product"] ->
  get_hierarchy (VStr hname) = Ok time_hierarchy.
Proof.
  intros Hn.
  assert (H1 : String.eqb "time" hname = false).
  { apply String.eqb_neq. intros <-. apply Hn. simpl. auto. }
  assert (H2 : String.eqb "geography" hname = false).
  { apply String.eqb_neq. intros <-. apply Hn. simpl. auto. }
  assert (H3 : String.eqb "product" hname = false).
  { apply String.eqb_neq. intros <-. apply Hn. simpl. auto. }
  unfold get_hierarchy, lookup_value, HIERARCHIES.
  cbn [List.find fst]. rewrite H1, H2, H3. reflexivity.
Qed.

Lemma drill_down_request_unknown hname rest :
  ~ In hname ["time"; "geography"; "product"] ->
  drill_down_request (("hierarchy", VStr hname) :: rest)
  = (rq <- drill_down_request (("hierarchy", VStr "time") :: rest) ;;
     Ok (with_name (VStr hname) rq)).
Proof.
  intros Hn. unfold drill_down_request.
  replace (get_default "hierarchy" (VStr "time")
             (("hierarchy", VStr hname) :: rest))
    with (VStr hname) by reflexivity.
  replace (get_default "hierarchy" (VStr "time")
             (("hierarchy", VStr "time") :: rest))
    with (VStr "time") by reflexivity.
  rewrite (get_hierarchy_unknown _ Hn).
  replace (get_hierarchy (VStr "time")) with (Ok time_hierarchy)
    by reflexivity.
  cbn [bind].
  replace (get_default "to_level" (VStr (last (levels time_hierarchy) ""))
             (("hierarchy", VStr hname) :: rest))
    with (get_default "to_level" (VStr (last (levels time_hierarchy) ""))
             (("hierarchy", VStr "time") :: rest)) by reflexivity.
  replace (get_default "filters" (VDict [])
             (("hierarchy", VStr hname) :: rest))
    with (get_default "filters" (VDict [])
             (("hierarchy", VStr "time") :: rest)) by reflexivity.
  destruct (_build_filter_clause _) as [ws|e]; cbn [bind]; [|reflexivity].
  destruct (_base_query _ _ _); reflexivity.
Qed.

Lemma roll_up_request_unknown hname rest :
  ~ In hname ["time"; "geography"; "product"] ->
  roll_up_request (("hierarchy", VStr hname) :: rest)
  = (rq <- roll_up_request (("hierarchy", VStr "time") :: rest) ;;
     Ok (with_name (VStr hname) rq)).
Proof.
  intros Hn. unfold roll_up_request.
  replace (get_default "hierarchy" (VStr "time")
             (("hierarchy", VStr hname) :: rest))
    with (VStr hname) by reflexivity.
  replace (get_default "hierarchy" (VStr "time")
             (("hierarchy", VStr "time") :: rest))
    with (VStr "time") by reflexivity.
  rewrite (get_hierarchy_unknown _ Hn).
  replace (get_hierarchy (VStr "time")) with (Ok time_hierarchy)
    by reflexivity.
  cbn [bind].
  replace (get_default "to_level" (VStr (hd "" (levels time_hierarchy)))
             (("hierarchy", VStr hname) :: rest))
    with (get_default "to_level" (VStr (hd "" (levels time_hierarchy)))
             (("hierarchy", VStr "time") :: rest)) by reflexivity.
  replace (get_default "filters" (VDict [])
             (("hierarchy", VStr hname) :: rest))
    with (get_default "filters" (VDict [])
             (("hierarchy", VStr "time") :: rest)) by reflexivity.
  destruct (_build_filter_clause _) as [ws|e]; cbn [bind]; [|reflexivity].
  destruct (_base_query _ _ _); reflexivity.
Qed.

Lemma drill_down_no_error_output db F params ctx o :
  _drill_down db F params ctx = Ok o -> out_error o = None.
Proof.
  unfold _drill_down.
  destruct (drill_down_request params) as [rq|e]; cbn [bind]; [|discriminate].
  destruct (db _ _) as [df|e]; cbn [bind]; [|discriminate].
  match goal with |- (s <- ?X ;; _) = _ -> _ => destruct X as [s|e] end;
    cbn [bind]; [|discriminate].
  intros H; inversion H; reflexivity.
Qed.

Lemma roll_up_no_error_output db F params ctx o :
  _roll_up db F params ctx = Ok o -> out_error o = None.
Proof.
  unfold _roll_up.
  destruct (roll_up_request params) as [rq|e]; cbn [bind]; [|discriminate].
  destruct (db _ _) as [df|e]; cbn [bind]; [|discriminate].
  destruct (column_sum _ _) as [t|e]; cbn [bind]; [|discriminate].
  destruct (fixed2 F _) as [m|e]; cbn [bind]; [|discriminate].
  intros H; inversion H; reflexivity.
Qed.

(** C10.  A drill-down or roll-up request whose hierarchy name is none of
    "time", "geography" and "product" is resolved against the time
    hierarchy: the request is the one for "time" but for the name it
    carries, it issues the same query and returns the same rows, and an
    output it returns carries no error. *)
Theorem unknown_hierarchy_falls_back_to_time :
  forall (hname : string) (rest : dict),
    ~ In hname ["time"; "geography"; "product"] ->
    let params := ("hierarchy", VStr hname) :: rest in
    let as_time := ("hierarchy", VStr "time") :: rest in
    get_hierarchy (VStr hname) = Ok time_hierarchy
    /\ drill_down_request params
       = (rq <- drill_down_request as_time ;; Ok (with_name (VStr hname) rq))
    /\ roll_up_request params
       = (rq <- roll_up_request as_time ;; Ok (with_name (VStr hname) rq))
    /\ (forall db F ctx,
          query_and_data (_drill_down db F params ctx)
          = query_and_data (_drill_down db F as_time ctx)
          /\ query_and_data (_roll_up db F params ctx)
             = query_and_data (_roll_up db F as_time ctx)
          /\ (forall o, _drill_down db F params ctx = Ok o ->
                        out_error o = None)
          /\ (forall o, _roll_up db F params ctx = Ok o ->
                        out_error o = None)).
Proof.
  intros hname rest Hn params as_time.
  assert (Hd := drill_down_request_unknown hname rest Hn).
  assert (Hr := roll_up_request_unknown hname rest Hn).
  split; [apply get_hierarchy_unknown; exact Hn|].
  split; [exact Hd|]. split; [exact Hr|].
  intros db F ctx. fold params as_time in Hd, Hr.
  split; [|split; [|split]].
  - destruct (drill_down_request as_time) as [rq|e] eqn:E.
    + eapply NavigatorProofs.drill_down_same_grouping;
        [exact Hd|exact E|reflexivity|reflexivity].
    + unfold _drill_down. rewrite Hd, E. reflexivity.
  - destruct (roll_up_request as_time) as [rq|e] eqn:E.
    + eapply NavigatorProofs.roll_up_same_grouping;
        [exact Hr|exact E|reflexivity|reflexivity].
    + unfold _roll_up. rewrite Hr, E. reflexivity.
  - intros o. apply drill_down_no_error_output.
  - intros o. apply roll_up_no_error_output.
Qed.

(** C10, worked example: the hierarchy "calendar" is the time
    hierarchy. *)
Lemma calendar_is_time :
  get_hierarchy (VStr "calendar") = Ok time_hierarchy.
Proof.
  assert (Hn : ~ In "calendar" ["time"; "geography"; "product"])
    by (simpl; intuition discriminate).
  destruct (unknown_hierarchy_falls_back_to_time "calendar" [] Hn)
    as [H _].
  exact H.
Defined.

End UnknownHierarchyProofs.

Module BuilderProofs.

Import BuilderSpec.

Lemma mapM_as_str l : mapM as_str (map VStr l) = Ok l.
Proof.
  induction l as [|x l IH]; simpl; [reflexivity|].
  rewrite IH. reflexivity.
Qed.

Lemma join_values_strings sep l :
  join_values sep (VList (map VStr l)) = Ok (join sep l).
Proof.
  unfold join_values. cbn [iter bind]. rewrite mapM_as_str. reflexivity.
Qed.

Lemma navigator_group_col F d :
  DimensionNavigator.group_col F (VStr d) = Ok (navigator_column d).
Proof. reflexivity. Qed.

Lemma cube_group_col d :
  CubeOperations.group_col (VStr d) = Ok (VStr (cube_column d)).
Proof.
  unfold CubeOperations.group_col, cube_column, CubeOperations.catalog_get,
    DimensionNavigator.catalog_get.
  cbn [lookup_value bind]. destruct (option_map snd _); reflexivity.
Qed.

Lemma navigator_group_cols F dims :
  mapM (DimensionNavigator.group_col F) (map VStr dims)
  = Ok (map navigator_column dims).
Proof.
  induction dims as [|d dims IH]; [reflexivity|].
  cbn [map mapM]. rewrite IH, navigator_group_col. reflexivity.
Qed.

Lemma cube_group_cols dims :
  CubeOperations.group_cols_of (VList (map VStr dims))
  = Ok (map (fun d => VStr (cube_column d)) dims).
Proof.
  unfold CubeOperations.group_cols_of. cbn [iter bind].
  induction dims as [|d dims IH]; [reflexivity|].
  cbn [map mapM]. rewrite IH, cube_group_col. reflexivity.
Qed.

Lemma cube_build_where_dict fs :
  CubeOperations._build_where (VDict fs) =
  Ok (CubeOperations.where_of (fst (CubeOperations.where_loop fs [] [])),
      snd (CubeOperations.where_loop fs [] [])).
Proof.
  unfold CubeOperations._build_where. simpl.
  destruct (CubeOperations.where_loop fs [] []); reflexivity.
Qed.

Lemma group_request_eq F dims fs :
  DimensionNavigator.group_request F (group_params dims fs)
  = Ok (map navigator_column dims,
        DimensionNavigator._base_query (map navigator_column dims)
          (DimensionNavigator.where_of
             (fst (DimensionNavigator.filter_loop fs [] [])))
          (snd (DimensionNavigator.filter_loop fs [] []))).
Proof.
  unfold DimensionNavigator.group_request, group_params.
  replace (get_default "dimensions" _ _) with (VList (map VStr dims))
    by reflexivity.
  replace (get_default "filters" _ _) with (VDict fs) by reflexivity.
  cbn [iter bind]. rewrite navigator_group_cols. cbn [bind].
  rewrite NavigatorProofs.build_filter_clause_dict. reflexivity.
Qed.

Lemma grouped_request_eq key dflt dims fs :
  key <> "group_by" ->
  CubeOperations.grouped_request key dflt (cube_params key dims fs)
  = Ok (map (fun d => VStr (cube_column d)) dims,
        (CubeOperations.grouped_sql
           (join ", " (map cube_column dims))
           (CubeOperations.where_of
              (fst (CubeOperations.where_loop fs [] []))),
         snd (CubeOperations.where_loop fs [] []))).
Proof.
  intros Hk. unfold CubeOperations.grouped_request, cube_params.
  assert (E1 : get_default key (VDict [])
                 [(key, VDict fs); ("group_by", VList (map VStr dims))]
               = VDict fs).
  { unfold get_default. cbn [dict_get]. rewrite String.eqb_refl. reflexivity. }
  assert (E2 : get_default "group_by" (VList [VStr dflt])
                 [(key, VDict fs); ("group_by", VList (map VStr dims))]
               = VList (map VStr dims)).
  { unfold get_default. cbn [dict_get].
    assert (String.eqb "group_by" key = false) as ->
        by (apply String.eqb_neq; congruence).
    reflexivity. }
  rewrite E1, E2, cube_group_cols. cbn [bind].
  rewrite <- (map_map cube_column VStr), join_values_strings. cbn [bind].
  rewrite cube_build_where_dict. reflexivity.
Qed.

Lemma group_by_no_error_output db F params ctx o :
  DimensionNavigator._group_by db F params ctx = Ok o -> out_error o = None.
Proof.
  unfold DimensionNavigator._group_by.
  destruct (DimensionNavigator.group_request F params) as [[cols [sql ps]]|e];
    cbn [bind snd]; [|discriminate].
  destruct (db sql ps) as [df|e]; cbn [bind]; [|discriminate].
  destruct (join_values _ _) as [s|e]; cbn [bind]; [|discriminate].
  destruct (column_sum _ _) as [t|e]; cbn [bind]; [|discriminate].
  destruct (fixed2 F _) as [m|e]; cbn [bind]; [|discriminate].
  intros H; inversion H; reflexivity.
Qed.

Lemma slice_no_error_output db F params ctx o :
  CubeOperations._slice db F params ctx = Ok o -> out_error o = None.
Proof.
  unfold CubeOperations._slice.
  destruct (CubeOperations.grouped_request _ _ params) as [[cols [sql ps]]|e];
    cbn [bind snd]; [|discriminate].
  destruct (db sql ps) as [df|e]; cbn [bind]; [|discriminate].
  destruct (CubeOperations.filter_desc _ _) as [s|e]; cbn [bind];
    [|discriminate].
  destruct (column_sum _ _) as [t|e]; cbn [bind]; [|discriminate].
  destruct (fixed2 F _) as [m|e]; cbn [bind]; [|discriminate].
  intros H; inversion H; reflexivity.
Qed.

Lemma dice_no_error_output db F params ctx o :
  CubeOperations._dice db F params ctx = Ok o -> out_error o = None.
Proof.
  unfold CubeOperations._dice.
  destruct (CubeOperations.grouped_request _ _ params) as [[cols [sql ps]]|e];
    cbn [bind snd]; [|discriminate].
  destruct (db sql ps) as [df|e]; cbn [bind]; [|discriminate].
  destruct (CubeOperations.filter_desc _ _) as [s|e]; cbn [bind];
    [|discriminate].
  match goal with |- (s <- ?X ;; _) = _ -> _ => destruct X as [s'|e] end;
    cbn [bind]; [|discriminate].
  intros H; inversion H; reflexivity.
Qed.

Lemma drill_down_empty F hname to_level fs ctx :
  zero_rows (DimensionNavigator._drill_down Examples.empty_db F
               (NavigatorSpec.nav_params hname to_level fs) ctx).
Proof.
  unfold zero_rows, DimensionNavigator._drill_down.
  assert (Hrq : exists rq,
             DimensionNavigator.drill_down_request
               (NavigatorSpec.nav_params hname to_level fs) = Ok rq).
  { unfold DimensionNavigator.drill_down_request, NavigatorSpec.nav_params.
    replace (get_default "hierarchy" _ _) with (VStr hname) by reflexivity.
    unfold DimensionNavigator.get_hierarchy. cbn [lookup_value bind].
    replace (get_default "filters" _ _) with (VDict fs) by reflexivity.
    rewrite NavigatorProofs.build_filter_clause_dict. cbn [bind].
    destruct (DimensionNavigator._base_query _ _ _). eexists; reflexivity. }
  destruct Hrq as [rq ->]. cbn [bind]. unfold Examples.empty_db.
  cbn [bind df_empty columns]. eexists. split; [reflexivity|].
  split; reflexivity.
Qed.

Lemma dice_empty F dims fs ctx :
  zero_rows (CubeOperations._dice Examples.empty_db F
               (cube_params "filters" dims fs) ctx).
Proof.
  unfold zero_rows, CubeOperations._dice.
  rewrite grouped_request_eq by discriminate. cbn [bind snd].
  unfold Examples.empty_db. cbn [bind].
  replace (get_default "filters" _ _) with (VDict fs) by reflexivity.
  unfold CubeOperations.filter_desc. cbn [items bind df_empty columns].
  eexists. split; [reflexivity|]. split; reflexivity.
Qed.

(** C3, as amended.  The query builders never reject a grouping
    dimension they cannot map.  Group-by substitutes the column reference
    [d.<name>] for it, slice and dice pass the name through unchanged;
    the request with those grouping columns is built for every list of
    dimension names and every filter set, and an output these operations
    return carries no error.  For drill-down and for dice an empty result
    set is a success with zero rows. *)
Theorem unmapped_dimension_is_passed_through :
  forall (F : Formatter) (dims : list string) (fs : dict),
    (forall d, DimensionNavigator.catalog_get DimensionNavigator.col_map d
               = None ->
               navigator_column d = "d." ++ d)
    /\ (forall d, CubeOperations.catalog_get CubeOperations.COL_MAP d = None ->
                  cube_column d = d)
    /\ DimensionNavigator.group_request F (group_params dims fs)
       = Ok (map navigator_column dims,
             DimensionNavigator._base_query (map navigator_column dims)
               (DimensionNavigator.where_of
                  (fst (DimensionNavigator.filter_loop fs [] [])))
               (snd (DimensionNavigator.filter_loop fs [] [])))
    /\ (forall key dflt, key <> "group_by" ->
          CubeOperations.grouped_request key dflt (cube_params key dims fs)
          = Ok (map (fun d => VStr (cube_column d)) dims,
                (CubeOperations.grouped_sql
                   (join ", " (map cube_column dims))
                   (CubeOperations.where_of
                      (fst (CubeOperations.where_loop fs [] []))),
                 snd (CubeOperations.where_loop fs [] []))))
    /\ (forall db params ctx o,
          (DimensionNavigator._group_by db F params ctx = Ok o
           \/ CubeOperations._slice db F params ctx = Ok o
           \/ CubeOperations._dice db F params ctx = Ok o) ->
          out_error o = None)
    /\ (forall hname to_level ctx,
          zero_rows (DimensionNavigator._drill_down Examples.empty_db F
                       (NavigatorSpec.nav_params hname to_level fs) ctx))
    /\ (forall ctx,
          zero_rows (CubeOperations._dice Examples.empty_db F
                       (cube_params "filters" dims fs) ctx)).
Proof.
  intros F dims fs.
  split; [intros d Hd; unfold navigator_column; rewrite Hd; reflexivity|].
  split; [intros d Hd; unfold cube_column; rewrite Hd; reflexivity|].
  split; [apply group_request_eq|].
  split; [intros key dflt Hk; apply grouped_request_eq; exact Hk|].
  split.
  { intros db params ctx o [H|[H|H]].
    - eapply group_by_no_error_output; eauto.
    - eapply slice_no_error_output; eauto.
    - eapply dice_no_error_output; eauto. }
  split; [intros; apply drill_down_empty|intros; apply dice_empty].
Qed.

(** C3, worked example: dice by an unknown dimension over storage with
    no rows is a success with zero rows. *)
Lemma dice_on_empty_storage :
  zero_rows (CubeOperations._dice Examples.empty_db Examples.plain
               (cube_params "filters" ["bogus"] []) "").
Proof.
  destruct (unmapped_dimension_is_passed_through Examples.plain ["bogus"] [])
    as (_ & _ & _ & _ & _ & _ & H).
  exact (H "").
Defined.

(** C3: group-by on a dimension that maps to no column is not rejected;
    it returns the rows of a query grouped by [d.bogus]. *)
Lemma group_by_accepts_unmappable_dimension :
  DimensionNavigator.catalog_get DimensionNavigator.col_map "bogus" = None
  /\ ~ rejected (DimensionNavigator._group_by Examples.one_row_db
                   Examples.plain (group_params ["bogus"] []) "")
  /\ exists o,
       DimensionNavigator._group_by Examples.one_row_db Examples.plain
         (group_params ["bogus"] []) "" = Ok o
       /\ out_error o = None
       /\ out_data o = Some [Examples.one_row]
       /\ contains "GROUP BY d.bogus" (out_sql o) = true.
Proof.
  split; [reflexivity|]. split.
  - vm_compute. intros H. apply H. reflexivity.
  - eexists. split; [vm_compute; reflexivity|].
    repeat split; reflexivity.
Qed.

(** Group-by, slice and roll-up read the revenue column of the result
    without looking whether there are rows: on an empty result set they
    raise [KeyError]. *)
Lemma empty_result_raises_key_error :
  DimensionNavigator._group_by Examples.empty_db Examples.plain
    (group_params ["region"] []) ""
  = Raise (mkExn "KeyError" "'total_revenue'")
  /\ CubeOperations._slice Examples.empty_db Examples.plain
       (cube_params "filter" ["region"] []) ""
     = Raise (mkExn "KeyError" "'total_revenue'")
  /\ DimensionNavigator._roll_up Examples.empty_db Examples.plain
       (NavigatorSpec.nav_params "time" (VStr "year") []) ""
     = Raise (mkExn "KeyError" "'total_revenue'").
Proof. repeat split; vm_compute; reflexivity. Qed.

End BuilderProofs.

Module DispatchProofs.

Import DispatchSpec.

Lemma eqb_not_in (op : string) (l : list string) :
  ~ In op l -> forall s, In s l -> String.eqb op s = false.
Proof.
  intros Hn s Hs. apply String.eqb_neq. intros ->. contradiction.
Qed.

Lemma eqb_not_in_sym (op : string) (l : list string) :
  ~ In op l -> forall s, In s l -> String.eqb s op = false.
Proof.
  intros Hn s Hs. apply String.eqb_neq. intros ->. contradiction.
Qed.

Ltac known_name := simpl; tauto.

Lemma navigator_unknown db F i :
  ~ In (lowered i) navigator_ops ->
  DimensionNavigator.run db F i
  = Ok (error_output DimensionNavigator.name (lowered i) ""
          ("Unknown operation '" ++ lowered i
           ++ "'. Supported: drill_down, roll_up, group")).
Proof.
  intros Hn. unfold DimensionNavigator.run. fold (lowered i).
  rewrite (eqb_not_in _ _ Hn "drill_down") by known_name.
  rewrite (eqb_not_in _ _ Hn "drill-down") by known_name.
  rewrite (eqb_not_in _ _ Hn "roll_up") by known_name.
  rewrite (eqb_not_in _ _ Hn "roll-up") by known_name.
  rewrite (eqb_not_in _ _ Hn "group") by known_name.
  reflexivity.
Qed.

Lemma cube_unknown db F pivot i :
  ~ In (normalized i) cube_ops ->
  CubeOperations.run db F pivot i
  = Ok (error_output CubeOperations.name (normalized i) ""
          ("Unknown op '" ++ normalized i
           ++ "'. Supported: slice, dice, pivot, drill_through")).
Proof.
  intros Hn. unfold CubeOperations.run. fold (normalized i).
  rewrite (eqb_not_in _ _ Hn "slice") by known_name.
  rewrite (eqb_not_in _ _ Hn "dice") by known_name.
  rewrite (eqb_not_in _ _ Hn "pivot") by known_name.
  rewrite (eqb_not_in _ _ Hn "drill_through") by known_name.
  reflexivity.
Qed.

Lemma kpi_dispatch_keys db F :
  map fst (KPICalculator.dispatch db F) = kpi_ops.
Proof. reflexivity. Qed.

Lemma kpi_unknown db F i :
  ~ In (normalized i) kpi_ops ->
  KPICalculator.run db F i
  = KPICalculator._overall_summary db F (in_parameters i) (in_context i).
Proof.
  intros Hn. unfold KPICalculator.run. fold (normalized i).
  unfold KPICalculator.dispatch. cbn [List.find fst].
  rewrite (eqb_not_in_sym _ _ Hn "yoy") by known_name.
  rewrite (eqb_not_in_sym _ _ Hn "yoy_growth") by known_name.
  rewrite (eqb_not_in_sym _ _ Hn "mom") by known_name.
  rewrite (eqb_not_in_sym _ _ Hn "mom_change") by known_name.
  rewrite (eqb_not_in_sym _ _ Hn "compare") by known_name.
  rewrite (eqb_not_in_sym _ _ Hn "compare_periods") by known_name.
  rewrite (eqb_not_in_sym _ _ Hn "top_n") by known_name.
  rewrite (eqb_not_in_sym _ _ Hn "ranking") by known_name.
  rewrite (eqb_not_in_sym _ _ Hn "margins") by known_name.
  rewrite (eqb_not_in_sym _ _ Hn "profit_margins") by known_name.
  rewrite (eqb_not_in_sym _ _ Hn "summary") by known_name.
  reflexivity.
Qed.

Lemma anomaly_unknown db F i :
  ~ In (lowered i) anomaly_ops ->
  AnomalyDetection.run db F i
  = AnomalyDetection._monthly_anomaly db F (in_parameters i) (in_context i).
Proof.
  intros Hn. unfold AnomalyDetection.run. fold (lowered i).
  rewrite (eqb_not_in _ _ Hn "time_anomaly") by known_name.
  rewrite (eqb_not_in _ _ Hn "monthly") by known_name.
  rewrite (eqb_not_in _ _ Hn "product_anomaly") by known_name.
  rewrite (eqb_not_in _ _ Hn "product") by known_name.
  reflexivity.
Qed.

Lemma report_unknown R i :
  ~ In (normalized i) report_ops ->
  ReportGenerator.run R i
  = ReportGenerator._executive_summary R (in_parameters i) (in_context i).
Proof.
  intros Hn. unfold ReportGenerator.run. fold (normalized i).
  rewrite (eqb_not_in _ _ Hn "format_table") by known_name.
  rewrite (eqb_not_in _ _ Hn "table") by known_name.
  rewrite (eqb_not_in _ _ Hn "executive_summary") by known_name.
  rewrite (eqb_not_in _ _ Hn "summary") by known_name.
  rewrite (eqb_not_in _ _ Hn "narrative") by known_name.
  rewrite (eqb_not_in _ _ Hn "trend_report") by known_name.
  rewrite (eqb_not_in _ _ Hn "trend") by known_name.
  reflexivity.
Qed.

(** C4, as amended.  An operation name outside the set an agent
    recognises is an error for the dimension navigator and for the cube
    operations agent: they return an Agent Output with the error
    populated, no result table and no query.  The KPI calculator, the
    anomaly agent and the report generator run a default operation
    instead: the overall summary, the monthly anomaly detection and the
    executive summary. *)
Theorem unknown_operation_strict_or_default :
  forall (db : Storage) (F : Formatter) (pivot_table : table -> table)
         (R : ReportGenerator.Reports) (i : AgentInput),
    (~ In (lowered i) navigator_ops ->
     exists o, DimensionNavigator.run db F i = Ok o
               /\ out_error o
                  = Some ("Unknown operation '" ++ lowered i
                          ++ "'. Supported: drill_down, roll_up, group")
               /\ out_data o = None /\ out_sql o = "")
    /\ (~ In (normalized i) cube_ops ->
        exists o, CubeOperations.run db F pivot_table i = Ok o
                  /\ out_error o
                     = Some ("Unknown op '" ++ normalized i
                             ++ "'. Supported: slice, dice, pivot, drill_through")
                  /\ out_data o = None /\ out_sql o = "")
    /\ (~ In (normalized i) kpi_ops ->
        KPICalculator.run db F i
        = KPICalculator._overall_summary db F (in_parameters i)
            (in_context i))
    /\ (~ In (lowered i) anomaly_ops ->
        AnomalyDetection.run db F i
        = AnomalyDetection._monthly_anomaly db F (in_parameters i)
            (in_context i))
    /\ (~ In (normalized i) report_ops ->
        ReportGenerator.run R i
        = ReportGenerator._executive_summary R (in_parameters i)
            (in_context i)).
Proof.
  intros db F pivot_table R i.
  split; [|split; [|split; [|split]]].
  - intros Hn. eexists. split; [apply navigator_unknown; exact Hn|].
    repeat split; reflexivity.
  - intros Hn. eexists. split; [apply cube_unknown; exact Hn|].
    repeat split; reflexivity.
  - apply kpi_unknown.
  - apply anomaly_unknown.
  - apply report_unknown.
Qed.

(** C4, worked example: the navigator answers "frobnicate" with an
    error. *)
Lemma navigator_rejects_frobnicate :
  exists o,
    DimensionNavigator.run Examples.one_row_db Examples.plain
      (mkInput "Frobnicate" [] "") = Ok o
    /\ out_error o
       = Some "Unknown operation 'frobnicate'. Supported: drill_down, roll_up, group".
Proof.
  destruct (unknown_operation_strict_or_default
              Examples.one_row_db Examples.plain (fun t => t)
              (ReportGenerator.mkReports
                 (fun _ _ => Raise (mkExn "RuntimeError" ""))
                 (fun _ _ => Raise (mkExn "RuntimeError" ""))
                 (fun _ _ => Raise (mkExn "RuntimeError" "")))
              (mkInput "Frobnicate" [] "")) as [H _].
  destruct H as (o & Ho & He & _).
  - vm_compute. intuition discriminate.
  - exists o. split; [exact Ho|exact He].
Defined.

(** C4: the KPI calculator answers an operation it does not know with
    the overall summary, and no error. *)
Lemma kpi_runs_summary_for_unknown_operation :
  ~ In (normalized (mkInput "frobnicate" [] "")) kpi_ops
  /\ exists o,
       KPICalculator.run Examples.one_row_db Examples.plain
         (mkInput "frobnicate" [] "") = Ok o
       /\ out_error o = None
       /\ out_operation o = "summary"
       /\ out_data o = Some [Examples.one_row].
Proof.
  split.
  - vm_compute. intuition discriminate.
  - eexists. split; [vm_compute; reflexivity|]. repeat split; reflexivity.
Qed.

(** The operation name the rule-based planner sends to the anomaly agent
    is none of the names the agent compares with: it reaches the monthly
    detection through the default. *)
Lemma monthly_anomaly_is_a_default :
  ~ In "monthly_anomaly" anomaly_ops.
Proof. simpl. intuition discriminate. Qed.

End DispatchProofs.

Module FilterProofs.

Import FilterSpec.

Lemma cube_where_loop fs :
  forall conditions params,
    CubeOperations.where_loop fs conditions params
    = ((conditions
        ++ map fst (flat_map (contribution CubeOperations.COL_MAP) fs))%list,
       (params
        ++ List.concat (map snd (flat_map (contribution CubeOperations.COL_MAP)
                                      fs)))%list).
Proof.
  induction fs as [|[key val] fs IH]; intros conditions params.
  - simpl. rewrite !app_nil_r. reflexivity.
  - cbn [CubeOperations.where_loop flat_map]. unfold contribution at 1 3.
    cbn [fst snd]. unfold catalog_get, CubeOperations.catalog_get.
    destruct (DimensionNavigator.catalog_get CubeOperations.COL_MAP key)
      as [col|]; [|apply IH].
    cbn [app map List.concat fst snd].
    destruct val; cbn [predicate fst snd]; try (rewrite IH, <- !app_assoc;
                                                 reflexivity).
    destruct (dict_get "gte" d) as [lo|];
      [|destruct (dict_get "lte" d) as [hi|]];
      cbn [fst snd]; rewrite IH, <- !app_assoc; reflexivity.
Qed.

(** The cube's filter compiler follows the rules. *)
Lemma cube_build_where_compiles fs :
  CubeOperations._build_where (VDict fs)
  = Ok (compile CubeOperations.COL_MAP fs).
Proof.
  unfold CubeOperations._build_where, compile. cbn [items bind].
  rewrite cube_where_loop. reflexivity.
Qed.

Lemma navigator_filter_loop fs :
  forallb (fun kv => negb (is_range (snd kv))) fs = true ->
  forall conditions params,
    DimensionNavigator.filter_loop fs conditions params
    = ((conditions
        ++ map fst (flat_map (contribution DimensionNavigator.col_map) fs))%list,
       (params
        ++ List.concat (map snd (flat_map (contribution DimensionNavigator.col_map)
                                      fs)))%list).
Proof.
  induction fs as [|[key val] fs IH]; intros Hr conditions params.
  - simpl. rewrite !app_nil_r. reflexivity.
  - cbn [forallb snd] in Hr. apply andb_true_iff in Hr. destruct Hr as [Hv Hr].
    cbn [DimensionNavigator.filter_loop flat_map]. unfold contribution at 1 3.
    cbn [fst snd]. unfold catalog_get.
    destruct (DimensionNavigator.catalog_get DimensionNavigator.col_map key)
      as [col|]; [|apply IH; exact Hr].
    cbn [app map List.concat fst snd].
    destruct val; cbn [predicate fst snd];
      try (rewrite (IH Hr), <- !app_assoc; reflexivity).
    unfold is_range, has_key in Hv.
    destruct (dict_get "gte" d); [discriminate|].
    destruct (dict_get "lte" d); [discriminate|].
    cbn [fst snd]. rewrite (IH Hr), <- !app_assoc. reflexivity.
Qed.

(** Every compiler drops an entry whose key is not in its catalog. *)
Lemma unknown_key_is_dropped key val fs conditions params :
  (DimensionNavigator.catalog_get DimensionNavigator.col_map key = None ->
   DimensionNavigator.filter_loop ((key, val) :: fs) conditions params
   = DimensionNavigator.filter_loop fs conditions params)
  /\ (DimensionNavigator.catalog_get CubeOperations.COL_MAP key = None ->
      CubeOperations.where_loop ((key, val) :: fs) conditions params
      = CubeOperations.where_loop fs conditions params)
  /\ (DimensionNavigator.catalog_get KPICalculator.COL_MAP key = None ->
      KPICalculator.where_loop ((key, val) :: fs) conditions params
      = KPICalculator.where_loop fs conditions params).
Proof.
  repeat split; intros H; simpl;
    unfold CubeOperations.catalog_get, KPICalculator.catalog_get;
    rewrite H; reflexivity.
Qed.

(** C8.  The filter compilers on the range object [{"gte": 2023}] under
    the recognised key [year]: the navigator's and the KPI calculator's
    compilers bind the whole object to an equality, where the cube's
    compiler, and the rules, bind 2023 to the inequality [>=]. *)
Theorem navigator_filter_binds_range_as_equality :
  let range := VDict [("gte", VInt 2023)] in
  let filters := VDict [("year", range)] in
  DimensionNavigator._build_filter_clause filters
  = Ok ("WHERE d.year = ?", [range])
  /\ KPICalculator._build_where filters = Ok ("WHERE d.year = ?", [range])
  /\ CubeOperations._build_where filters
     = Ok ("WHERE d.year >= ?", [VInt 2023])
  /\ compile DimensionNavigator.col_map [("year", range)]
     = ("WHERE d.year >= ?", [VInt 2023]).
Proof. repeat split; reflexivity. Qed.

End FilterProofs.

Module ComparisonProofs.

Import KPICalculator ComparisonSpec.

(** The scalar comparison: a zero base gives the int 0, whatever the
    change. *)
Lemma ungrouped_pct_zero_base (q : Q) (change : float) :
  q == 0 -> ungrouped_pct (Fin q) change = VInt 0.
Proof.
  intros Hq. unfold ungrouped_pct, Frame.float_truthy, truthy.
  apply Qeq_bool_iff in Hq. rewrite Hq. reflexivity.
Qed.

(** The grouped comparison: a zero base gives not-a-number. *)
Lemma grouped_pct_zero_base (q : Q) (b : float) :
  q == 0 ->
  fround 2 (fmul (fdiv (fsub b (Fin q)) (zero_to_nan (Fin q))) (of_Z 100))
  = NaN.
Proof.
  intros Hq. unfold zero_to_nan. apply Qeq_bool_iff in Hq. rewrite Hq.
  destruct (fsub b (Fin q)); reflexivity.
Qed.

(** C2.  Period comparison against a zero base.  Ungrouped, with no
    revenue in period A (1999) and 500 in period B (2024), the percentage
    delta is the int 0; grouped by region, with zero revenue in period A,
    it is not-a-number. *)
Theorem ungrouped_comparison_reports_zero_for_zero_base :
  pct_cells "change_pct"
    (_compare_periods Examples.only_2024_db Examples.plain
       [ ("period_a", VDict [("year", VInt 1999)]);
         ("period_b", VDict [("year", VInt 2024)]) ] "")
  = Some [Some (VInt 0)]
  /\ pct_cells "revenue_change_pct"
       (_compare_periods Examples.regions_db Examples.plain
          [ ("period_a", VDict [("year", VInt 2023)]);
            ("period_b", VDict [("year", VInt 2024)]);
            ("group_by", VStr "region") ] "")
     = Some [Some (VFloat NaN)].
Proof. split; vm_compute; reflexivity. Qed.

End ComparisonProofs.

Module GrowthProofs.

Import Frame KPICalculator GrowthSpec.

Lemma round_half_even_comp (x y : Q) :
  x == y -> round_half_even x = round_half_even y.
Proof.
  intros H. unfold round_half_even.
  rewrite (Qfloor_comp _ _ H).
  assert (Hc : x - inject_Z (Qfloor y) == y - inject_Z (Qfloor y))
    by (rewrite H; reflexivity).
  rewrite (Qcompare_comp _ _ Hc _ _ (Qeq_refl (1 # 2))). reflexivity.
Qed.

Lemma Qround_to_comp (d : nat) (x y : Q) :
  x == y -> Qround_to d x = Qround_to d y.
Proof.
  intros H. unfold Qround_to.
  rewrite (round_half_even_comp (x * inject_Z (10 ^ Z.of_nat d))
                                (y * inject_Z (10 ^ Z.of_nat d)));
    [reflexivity|].
  rewrite H. reflexivity.
Qed.

(** The code's growth of [cur] over a non-zero finite [prev] is the
    rounded formula. *)
Lemma growth_of_finite (p c : Q) :
  Qeq_bool p 0 = false ->
  growth_cell (growth_of (Some (Fin p)) (Fin c))
  = VFloat (Fin (growth_pct p c)).
Proof.
  intros Hp. unfold growth_of, float_truthy, truthy. rewrite Hp.
  cbn [negb growth_cell fsub fneg fadd fdiv]. rewrite Hp.
  cbn [fmul of_Z fround]. unfold growth_pct.
  f_equal. f_equal. apply Qround_to_comp.
  rewrite !Qred_correct. unfold Qminus. reflexivity.
Qed.

Lemma growth_of_spec (prev : option Q) (c : Q) :
  growth_cell (growth_of (option_map Fin prev) (Fin c))
  = growth_value (point_growth prev c).
Proof.
  destruct prev as [p|]; [|reflexivity].
  cbn [option_map point_growth].
  destruct (Qeq_bool p 0) eqn:Hp.
  - unfold growth_of, float_truthy, truthy. rewrite Hp. reflexivity.
  - rewrite growth_of_finite by exact Hp. reflexivity.
Qed.

Lemma is_point_inv r :
  is_point r = true ->
  exists y v q,
    dict_get "year" r = Some y
    /\ dict_get "total_revenue" r = Some v
    /\ cell_float v = Ok (Fin q)
    /\ revenue_of r = Some q.
Proof.
  unfold is_point, revenue_of.
  destruct (dict_get "year" r) as [y|]; [|discriminate].
  destruct (dict_get "total_revenue" r) as [v|]; [|discriminate].
  destruct (cell_float v) as [[q| |]|] eqn:E; try discriminate.
  intros _. exists y, v, q. auto.
Qed.

Lemma row_float_point r q v :
  dict_get "total_revenue" r = Some v -> cell_float v = Ok (Fin q) ->
  row_float "total_revenue" r = Ok (Fin q).
Proof.
  intros Hv Hq. unfold row_float, row_get. rewrite Hv. cbn [bind]. exact Hq.
Qed.

Lemma last_revenue_snoc pre r :
  last_revenue (pre ++ [r])%list = revenue_of r.
Proof. unfold last_revenue. rewrite rev_app_distr. reflexivity. Qed.

Lemma iloc_last pre r rest :
  iloc ((pre ++ [r]) ++ rest)%list (List.length (pre ++ [r])%list - 1) = Ok r.
Proof.
  unfold iloc. rewrite <- app_assoc, length_app. cbn [List.length app].
  replace (List.length pre + 1 - 1)%nat with (List.length pre + 0)%nat by lia.
  rewrite nth_error_app2 by lia.
  replace (List.length pre + 0 - List.length pre)%nat with 0%nat by lia.
  reflexivity.
Qed.

Lemma yoy_loop_records label rest :
  forall pre,
    forallb is_point pre = true ->
    forallb is_point rest = true ->
    yoy_loop label (pre ++ rest)%list (List.length pre) rest
    = Ok (records label (last_revenue pre) rest).
Proof.
  induction rest as [|r rest IH]; intros pre Hpre Hrest.
  - reflexivity.
  - cbn [forallb] in Hrest. apply andb_true_iff in Hrest.
    destruct Hrest as [Hr Hrest].
    destruct (is_point_inv r Hr) as (y & v & q & Hy & Hv & Hq & Hrev).
    cbn [yoy_loop].
    assert (Hprev :
              (if (0 <? List.length pre)%nat
               then r0 <- iloc (pre ++ r :: rest)%list (List.length pre - 1) ;;
                    p <- row_float "total_revenue" r0 ;; Ok (Some p)
               else Ok None)
              = Ok (option_map Fin (last_revenue pre))).
    { destruct (rev pre) as [|r0 pre'] eqn:Erev.
      - apply (f_equal (@rev row)) in Erev. rewrite rev_involutive in Erev.
        subst pre. reflexivity.
      - apply (f_equal (@rev row)) in Erev. rewrite rev_involutive in Erev.
        cbn [rev] in Erev. subst pre.
        assert (Hr0 : is_point r0 = true).
        { rewrite forallb_app in Hpre. apply andb_true_iff in Hpre.
          destruct Hpre as [_ H0]. cbn [forallb] in H0.
          apply andb_true_iff in H0. tauto. }
        destruct (is_point_inv r0 Hr0) as (y0 & v0 & q0 & _ & Hv0 & Hq0 & Hrev0).
        assert (Hlen : (0 <? List.length (rev pre' ++ [r0])%list)%nat = true).
        { apply Nat.ltb_lt. rewrite length_app. cbn. lia. }
        rewrite Hlen, iloc_last. cbn [bind].
        rewrite (row_float_point _ _ _ Hv0 Hq0). cbn [bind].
        rewrite last_revenue_snoc, Hrev0. reflexivity. }
    rewrite Hprev. cbn [bind].
    rewrite (row_float_point _ _ _ Hv Hq). cbn [bind].
    assert (Hgy : row_get "year" r = Ok y). { unfold row_get. rewrite Hy; reflexivity. }
    assert (Hgv : row_get "total_revenue" r = Ok v)
      by (unfold row_get; rewrite Hv; reflexivity).
    rewrite Hgy, Hgv. cbn [bind].
    replace (pre ++ r :: rest)%list with ((pre ++ [r]) ++ rest)%list
      by (rewrite <- app_assoc; reflexivity).
    replace (S (List.length pre)) with (List.length (pre ++ [r])%list)
      by (rewrite length_app; cbn; lia).
    rewrite IH.
    + cbn [bind]. rewrite last_revenue_snoc, Hrev.
      unfold records at 2. cbn [revenues map growths combine fst snd].
      rewrite Hrev. unfold record at 1. rewrite Hy, Hv.
      rewrite <- growth_of_spec. reflexivity.
    + rewrite forallb_app, Hpre. cbn [forallb]. rewrite Hr. reflexivity.
    + exact Hrest.
Qed.

Lemma dict_get_column k (r : row) v :
  dict_get k r = Some v -> existsb (String.eqb k) (map fst r) = true.
Proof.
  induction r as [|[k' w] r IH]; simpl; [discriminate|].
  destruct (String.eqb k k'); [reflexivity|]. exact IH.
Qed.

Lemma years_of_points rows :
  forallb is_point rows = true ->
  mapM (row_get "year") rows = Ok (years rows).
Proof.
  induction rows as [|r rows IH]; intros H; [reflexivity|].
  cbn [forallb] in H. apply andb_true_iff in H. destruct H as [Hr H].
  destruct (is_point_inv r Hr) as (y & v & q & Hy & _).
  cbn [mapM years map]. unfold row_get at 1. rewrite Hy. cbn [bind].
  rewrite (IH H). reflexivity.
Qed.

Lemma sort_by_ordered (keys : list value) :
  time_ordered keys = true ->
  forall rows, List.length rows = List.length keys ->
    sort_by key_leb (combine keys rows) = combine keys rows.
Proof.
  induction keys as [|k keys IH]; intros Hord rows Hlen; [reflexivity|].
  destruct rows as [|r rows]; [discriminate|].
  cbn [combine sort_by fold_right]. fold (sort_by key_leb (combine keys rows)).
  cbn [time_ordered] in Hord.
  destruct keys as [|k' keys'].
  - destruct rows; reflexivity.
  - apply andb_true_iff in Hord. destruct Hord as [Hk Hord].
    rewrite IH by (auto; simpl in *; lia).
    destruct rows as [|r' rows']; [discriminate|].
    cbn [combine insert_by fst]. rewrite Hk. reflexivity.
Qed.

Lemma map_snd_combine {A B} (l : list A) (l' : list B) :
  List.length l = List.length l' -> map snd (combine l l') = l'.
Proof.
  revert l'. induction l as [|a l IH]; intros [|b l'] H; try discriminate;
    [reflexivity|].
  simpl. rewrite IH by (simpl in H; lia). reflexivity.
Qed.

Lemma sort_values_ordered rows :
  rows <> [] ->
  forallb is_point rows = true ->
  time_ordered (years rows) = true ->
  sort_values "year" rows = Ok rows.
Proof.
  intros Hne Hp Hord. unfold sort_values, column.
  destruct rows as [|r rows]; [congruence|].
  assert (Hcol : existsb (String.eqb "year") (columns (r :: rows)) = true).
  { cbn [forallb] in Hp. apply andb_true_iff in Hp. destruct Hp as [Hr _].
    destruct (is_point_inv r Hr) as (y & v & q & Hy & _).
    apply (dict_get_column _ _ _ Hy). }
  rewrite Hcol, (years_of_points _ Hp). cbn [bind].
  rewrite sort_by_ordered by (auto; unfold years; rewrite length_map; auto).
  rewrite map_snd_combine by (unfold years; rewrite length_map; auto).
  reflexivity.
Qed.

Lemma yoy_series_records label rows :
  rows <> [] ->
  forallb is_point rows = true ->
  time_ordered (years rows) = true ->
  yoy_series label rows = Ok (records label None rows).
Proof.
  intros Hne Hp Hord. unfold yoy_series.
  rewrite (sort_values_ordered _ Hne Hp Hord). cbn [bind].
  exact (yoy_loop_records label rows [] eq_refl Hp).
Qed.

Lemma growths_step (xs : list Q) :
  forall prev i p c,
    nth_error xs i = Some p -> nth_error xs (S i) = Some c ->
    nth_error (growths prev xs) (S i) = Some (point_growth (Some p) c).
Proof.
  induction xs as [|x xs IH]; intros prev i p c Hp Hc.
  - destruct i; discriminate.
  - destruct i as [|i].
    + cbn in Hp. inversion Hp; subst.
      destruct xs as [|x' xs]; [discriminate|].
      cbn in Hc. inversion Hc; subst. reflexivity.
    + cbn [growths nth_error]. apply IH; assumption.
Qed.

(** C6.  Year-over-year growth of a time-ordered revenue series (one
    partition, or the whole result when it is not partitioned).  The
    records are those of the series read with a previous-point pointer
    that starts unset: the first point has no growth value, and the point
    after a point of revenue [p] has growth
    [(c - p) / p * 100] rounded to 2 decimals, or no growth value when
    [p] is zero.  Partitions are processed one after the other, each from
    an unset pointer: the records of a partition do not depend on the
    partitions after it, and theirs not on it. *)
Theorem yoy_growth_follows_formula :
  forall (label : option value) (rows : table),
    rows <> [] ->
    forallb is_point rows = true ->
    time_ordered (years rows) = true ->
    yoy_series label rows = Ok (records label None rows)
    /\ nth_error (growths None (revenues rows)) 0 = Some None
    /\ (forall i p c,
          nth_error (revenues rows) i = Some p ->
          nth_error (revenues rows) (S i) = Some c ->
          nth_error (growths None (revenues rows)) (S i)
          = Some (if Qeq_bool p 0 then None
                  else Some (Qround_to 2 ((c - p) / p * 100))))
    /\ (forall (rest : list (value * table)) (others : list row),
          yoy_groups rest = Ok others ->
          forall l,
            yoy_groups ((l, rows) :: rest)
            = Ok (records (Some l) None rows ++ others)%list).
Proof.
  intros label rows Hne Hp Hord.
  split; [apply yoy_series_records; assumption|].
  split.
  { destruct rows as [|r rows]; [congruence|]. reflexivity. }
  split.
  { intros i p c Hi Hc. rewrite (growths_step _ None i p c Hi Hc).
    reflexivity. }
  intros rest others Hrest l. cbn [yoy_groups].
  rewrite (yoy_series_records (Some l) rows Hne Hp Hord). cbn [bind].
  rewrite Hrest. reflexivity.
Qed.

(** C6, worked example: the revenue series 100, 150, 120 has growth
    values absent, +50.0 and -20.0. *)
Lemma growth_of_100_150_120 :
  growth_column (yoy_series None (yearly [100; 150; 120]%Z))
  = [Some VNone; Some (VFloat (Fin 50)); Some (VFloat (Fin (-20)))].
Proof.
  destruct (yoy_growth_follows_formula None (yearly [100; 150; 120]%Z))
    as [H _]; [discriminate|reflexivity|reflexivity|].
  rewrite H. reflexivity.
Defined.

(** Two partitions in one result: each starts from an absent growth
    value. *)
Lemma partitions_restart :
  growth_column
    (yoy_records
       [ [("dim_label", VStr "Europe"); ("year", VInt 2023);
          ("total_revenue", VFloat (Fin 100))];
         [("dim_label", VStr "Europe"); ("year", VInt 2024);
          ("total_revenue", VFloat (Fin 150))];
         [("dim_label", VStr "Asia"); ("year", VInt 2023);
          ("total_revenue", VFloat (Fin 10))];
         [("dim_label", VStr "Asia"); ("year", VInt 2024);
          ("total_revenue", VFloat (Fin 5))] ])
  = [Some VNone; Some (VFloat (Fin (-50)));
     Some VNone; Some (VFloat (Fin 50))].
Proof. reflexivity. Qed.

End GrowthProofs.

Module AnomalyStats.

Import Frame AnomalyDetection AnomalySpec.

Local Open Scope Q_scope.

Lemma present_finite (qs : list Q) : present (map Fin qs) = map Fin qs.
Proof.
  induction qs as [|q qs IH]; [reflexivity|].
  cbn [map present List.filter]. fold (present (map Fin qs)).
  rewrite IH. reflexivity.
Qed.

Lemma series_sum_from (qs : list Q) :
  forall a,
  exists s,
    fold_left (fun acc f => match f with NaN => acc | _ => fadd acc f end)
              (map Fin qs) (Fin a) = Fin s
    /\ s == a + Qsum qs.
Proof.
  induction qs as [|q qs IH]; intros a.
  - exists a. split; [reflexivity|]. simpl. ring.
  - cbn [map fold_left fadd].
    destruct (IH (Qred (a + q))) as (s & Hs & Heq).
    exists s. split; [exact Hs|].
    rewrite Heq, Qred_correct. simpl. ring.
Qed.

Lemma series_sum_finite (qs : list Q) :
  exists s, series_sum (map Fin qs) = Fin s /\ s == Qsum qs.
Proof.
  destruct (series_sum_from qs 0) as (s & Hs & Heq).
  exists s. split; [exact Hs|]. rewrite Heq. ring.
Qed.

Lemma Qcount_pos (qs : list Q) : qs <> [] -> 0 < Qcount qs.
Proof.
  intros H. unfold Qcount. destruct qs as [|q qs]; [congruence|].
  unfold Qlt. cbn [List.length]. simpl. lia.
Qed.

Lemma Qeq_bool_false (x : Q) : ~ x == 0 -> Qeq_bool x 0 = false.
Proof.
  intros H. destruct (Qeq_bool x 0) eqn:E; [|reflexivity].
  apply Qeq_bool_iff in E. contradiction.
Qed.

Lemma mean_finite (qs : list Q) :
  qs <> [] ->
  exists m, mean (map Fin qs) = Fin m /\ m == Qmean qs.
Proof.
  intros Hne. unfold mean. rewrite present_finite, length_map.
  destruct (series_sum_finite qs) as (s & -> & Hs).
  assert (Hpos := Qcount_pos qs Hne). unfold Qcount in Hpos.
  unfold of_Z. cbn [fdiv].
  rewrite Qeq_bool_false by (intro E; rewrite E in Hpos; discriminate).
  eexists. split; [reflexivity|].
  rewrite Qred_correct, Hs. reflexivity.
Qed.

Lemma Qsum_ext (f g : Q -> Q) (qs : list Q) :
  (forall q, f q == g q) -> Qsum (map f qs) == Qsum (map g qs).
Proof.
  intros H. induction qs as [|q qs IH]; simpl; [reflexivity|].
  rewrite IH, H. reflexivity.
Qed.

Lemma squares_finite (m : Q) (qs : list Q) :
  map (fun x => fmul (fsub x (Fin m)) (fsub x (Fin m))) (map Fin qs)
  = map Fin (map (fun q => Qred (Qred (q + Qred (- m))
                                 * Qred (q + Qred (- m)))) qs).
Proof.
  rewrite !map_map. reflexivity.
Qed.

Lemma variance_finite (qs : list Q) :
  (2 <= List.length qs)%nat ->
  exists v, variance (map Fin qs) = Fin v /\ v == sample_variance qs.
Proof.
  intros Hlen. unfold variance. rewrite present_finite, length_map.
  assert (Hne : qs <> []) by (destruct qs; [simpl in Hlen; lia|congruence]).
  destruct (mean_finite qs Hne) as (m & -> & Hm).
  assert ((List.length qs <=? 1)%nat = false) as -> by (apply Nat.leb_gt; lia).
  rewrite squares_finite.
  destruct (series_sum_finite
              (map (fun q => Qred (Qred (q + Qred (- m))
                                   * Qred (q + Qred (- m)))) qs))
    as (s & -> & Hs).
  assert (Hden : inject_Z (Z.of_nat (List.length qs - 1)) == Qcount qs - 1).
  { unfold Qcount. rewrite Nat2Z.inj_sub by lia.
    unfold Zminus. rewrite inject_Z_plus. reflexivity. }
  assert (Hnz : ~ inject_Z (Z.of_nat (List.length qs - 1)) == 0).
  { unfold Qeq. simpl. lia. }
  unfold of_Z. cbn [fdiv]. rewrite (Qeq_bool_false _ Hnz).
  eexists. split; [reflexivity|].
  rewrite Qred_correct, Hs, Hden. unfold sample_variance, sum_of_squares.
  apply Qdiv_comp; [|reflexivity].
  apply Qsum_ext. intros q. rewrite !Qred_correct, Hm.
  unfold Qminus. reflexivity.
Qed.

(** *** A constant series *)

Lemma Qsum_repeat (c : Q) (n : nat) :
  Qsum (repeat c n) == inject_Z (Z.of_nat n) * c.
Proof.
  induction n as [|n IH].
  - simpl. ring.
  - cbn [repeat Qsum fold_right]. fold (Qsum (repeat c n)). rewrite IH.
    rewrite Nat2Z.inj_succ. unfold Z.succ. rewrite inject_Z_plus. ring.
Qed.

Lemma Qmean_repeat (c : Q) (n : nat) :
  (0 < n)%nat -> Qmean (repeat c n) == c.
Proof.
  intros Hn. unfold Qmean, Qcount. rewrite Qsum_repeat, repeat_length.
  field. unfold Qeq. simpl. lia.
Qed.

Lemma Qsum_zero (f : Q -> Q) (qs : list Q) :
  (forall q, In q qs -> f q == 0) -> Qsum (map f qs) == 0.
Proof.
  induction qs as [|q qs IH]; intros H; simpl; [reflexivity|].
  rewrite IH by (intros; apply H; right; assumption).
  rewrite (H q) by (left; reflexivity). ring.
Qed.

Lemma sample_variance_repeat (c : Q) (n : nat) :
  (2 <= n)%nat -> sample_variance (repeat c n) == 0.
Proof.
  intros Hn. unfold sample_variance, sum_of_squares.
  rewrite Qsum_zero.
  - unfold Qdiv. ring.
  - intros q Hq. apply repeat_spec in Hq. subst q.
    rewrite Qmean_repeat by lia. ring.
Qed.

Lemma map_Fin_repeat (c : Q) (n : nat) :
  repeat (Fin c) n = map Fin (repeat c n).
Proof. induction n; simpl; congruence. Qed.

Lemma zscore_constant (c : Q) (n : nat) (x : float) :
  In x (repeat (Fin c) n) ->
  zscore (fsub x (mean (repeat (Fin c) n))) (variance (repeat (Fin c) n))
  = NaN.
Proof.
  intros Hx. apply repeat_spec in Hx. subst x.
  destruct (le_lt_dec 2 n) as [Hn|Hn].
  - rewrite map_Fin_repeat.
    assert (Hne : repeat c n <> []) by (destruct n; [lia|discriminate]).
    destruct (mean_finite _ Hne) as (m & -> & Hm).
    destruct (variance_finite (repeat c n)) as (v & -> & Hv);
      [rewrite repeat_length; exact Hn|].
    rewrite sample_variance_repeat in Hv by exact Hn.
    rewrite Qmean_repeat in Hm by lia.
    cbn [fsub fneg fadd zscore].
    apply Qeq_bool_iff in Hv. rewrite Hv.
    assert (Hd : Qeq_bool (Qred (c + Qred (- m))) 0 = true).
    { apply Qeq_bool_iff. rewrite !Qred_correct, Hm. ring. }
    rewrite Hd. reflexivity.
  - assert (Hv : variance (repeat (Fin c) n) = NaN).
    { unfold variance. rewrite map_Fin_repeat, present_finite, length_map,
        repeat_length.
      assert ((n <=? 1)%nat = true) as -> by (apply Nat.leb_le; lia).
      reflexivity. }
    rewrite Hv. destruct (fsub _ _); reflexivity.
Qed.

(** *** Zero variance *)

Lemma Qsum_nonneg (f : Q -> Q) (qs : list Q) :
  (forall q, 0 <= f q) -> 0 <= Qsum (map f qs).
Proof.
  intros H. induction qs as [|q qs IH]; simpl; [apply Qle_refl|].
  replace 0 with (0 + 0) by reflexivity.
  apply Qplus_le_compat; [apply H|exact IH].
Qed.

Lemma Qsum_nonneg_zero (f : Q -> Q) (qs : list Q) :
  (forall q, 0 <= f q) -> Qsum (map f qs) == 0 ->
  forall q, In q qs -> f q == 0.
Proof.
  intros Hf. induction qs as [|x qs IH]; intros Hs q Hq; [contradiction|].
  simpl in Hs. assert (H1 := Hf x). assert (H2 := Qsum_nonneg f qs Hf).
  assert (Hx : f x == 0).
  { apply Qle_antisym; [|exact H1].
    rewrite <- Hs. rewrite <- (Qplus_0_r (f x)) at 1.
    apply Qplus_le_compat; [apply Qle_refl|exact H2]. }
  destruct Hq as [->|Hq]; [exact Hx|].
  apply IH; [|exact Hq]. rewrite Hx in Hs. rewrite <- Hs. ring.
Qed.

Lemma Qsquare_nonneg (x : Q) : 0 <= x * x.
Proof.
  destruct (Qlt_le_dec x 0) as [H|H].
  - setoid_replace (x * x) with ((- x) * (- x)) by ring.
    apply Qmult_le_0_compat; apply (Qopp_le_compat x 0); apply Qlt_le_weak;
      exact H.
  - apply Qmult_le_0_compat; exact H.
Qed.

Lemma Qsquare_zero (x : Q) : x * x == 0 -> x == 0.
Proof.
  intros H. destruct (Qeq_dec x 0) as [E|E]; [exact E|].
  exfalso. apply E. apply Qmult_integral in H. tauto.
Qed.

Lemma zero_variance_constant (qs : list Q) :
  (2 <= List.length qs)%nat ->
  sample_variance qs == 0 ->
  forall q, In q qs -> q - Qmean qs == 0.
Proof.
  intros Hlen Hv q Hq.
  assert (Hden : ~ Qcount qs - 1 == 0).
  { unfold Qcount, Qeq. simpl. lia. }
  assert (Hs : sum_of_squares qs == 0).
  { unfold sample_variance in Hv.
    setoid_replace (sum_of_squares qs)
      with (sum_of_squares qs / (Qcount qs - 1) * (Qcount qs - 1))
      by (field; exact Hden).
    rewrite Hv. ring. }
  apply Qsquare_zero.
  apply (Qsum_nonneg_zero (fun q => (q - Qmean qs) * (q - Qmean qs)) qs);
    [intros; apply Qsquare_nonneg|exact Hs|exact Hq].
Qed.

(** *** Flags on a finite rounded z-score *)

Lemma is_anomaly_finite (q : Q) :
  is_anomaly (Fin q) = true <-> (2 < q \/ q < -2).
Proof.
  unfold is_anomaly, fabs, fgt. rewrite negb_true_iff.
  rewrite <- not_true_iff_false, Qle_bool_iff, Qred_correct.
  rewrite Qabs_Qle_condition. split.
  - intros H. destruct (Qlt_le_dec 2 q) as [H1|H1]; [left; exact H1|].
    destruct (Qlt_le_dec q (-2)) as [H2|H2]; [right; exact H2|].
    exfalso. apply H. split; [exact H2|exact H1].
  - intros [H|H] [H1 H2].
    + apply (Qlt_not_le _ _ H H2).
    + apply (Qlt_not_le _ _ H H1).
Qed.

Lemma anomaly_type_finite (q : Q) :
  (anomaly_type (Fin q) = "High" <-> 2 < q)
  /\ (anomaly_type (Fin q) = "Low" <-> q < -2)
  /\ (anomaly_type (Fin q) = "Normal" <-> -2 <= q <= 2).
Proof.
  unfold anomaly_type, fgt, flt.
  destruct (Qle_bool q 2) eqn:E1; cbn [negb].
  - apply Qle_bool_iff in E1.
    destruct (Qle_bool (-2) q) eqn:E2; cbn [negb].
    + apply Qle_bool_iff in E2.
      split; [|split]; split; try discriminate; try tauto.
      * intros H. exfalso. apply (Qlt_not_le _ _ H E1).
      * intros H. exfalso. apply (Qlt_not_le _ _ H E2).
    + assert (H2 : q < -2).
      { apply Qnot_le_lt. intro H. apply Qle_bool_iff in H. congruence. }
      split; [|split]; split; try discriminate; try tauto.
      * intros H. exfalso. apply (Qlt_not_le _ _ H E1).
      * intros [H _]. exfalso. apply (Qlt_not_le _ _ H2 H).
  - assert (H1 : 2 < q).
    { apply Qnot_le_lt. intro H. apply Qle_bool_iff in H. congruence. }
    split; [|split]; split; try discriminate; try tauto.
    + intros H. exfalso.
      apply (Qlt_irrefl q). apply Qlt_trans with (-2); [exact H|].
      apply Qlt_trans with 2; [reflexivity|exact H1].
    + intros [_ H]. exfalso. apply (Qlt_not_le _ _ H1 H).
Qed.

End AnomalyStats.

Module AnomalyProofs.

Import Frame AnomalyDetection AnomalySpec AnomalyStats.

Local Open Scope R_scope.

(** *** Rounding a real *)

Lemma Int_part_IZR (z : Z) : Int_part (IZR z) = z.
Proof.
  symmetry. apply Int_part_spec. split; lra.
Qed.

Lemma Rround_half_even_IZR (z : Z) : Rround_half_even (IZR z) = z.
Proof.
  unfold Rround_half_even. rewrite Int_part_IZR.
  destruct (Rlt_dec (IZR z - IZR z) (1 / 2)) as [_|H]; [reflexivity|].
  exfalso. apply H. lra.
Qed.

Lemma Rround_half_even_near (x : R) :
  Rabs (IZR (Rround_half_even x) - x) <= 1 / 2.
Proof.
  unfold Rround_half_even.
  destruct (base_Int_part x) as [Hlo Hhi].
  set (f := Int_part x) in *.
  destruct (Rlt_dec (x - IZR f) (1 / 2)) as [H1|H1].
  - apply Rabs_le. lra.
  - destruct (Rlt_dec (1 / 2) (x - IZR f)) as [H2|H2].
    + rewrite plus_IZR. apply Rabs_le. lra.
    + destruct (Z.even f).
      * apply Rabs_le. lra.
      * rewrite plus_IZR. apply Rabs_le. lra.
Qed.

Lemma sqrt_4 : sqrt 4 = 2.
Proof.
  replace 4 with (2 * 2) by lra. apply sqrt_square. lra.
Qed.

(** *** The z-score of one point *)

Lemma zscore_at (qs : list Q) (i : nat) (q m v : Q) :
  mean (map Fin qs) = Fin m ->
  variance (map Fin qs) = Fin v ->
  nth_error qs i = Some q ->
  nth_error (zscores (map Fin qs)) i
  = Some (zscore (Fin (Qred (q + Qred (- m)))) (Fin v)).
Proof.
  intros Hm Hv Hq. unfold zscores. rewrite Hm, Hv.
  rewrite nth_error_map, nth_error_map, Hq. reflexivity.
Qed.

Lemma flag_at_eq (qs : list Q) (i : nat) (z : float) :
  nth_error (zscores (map Fin qs)) i = Some z ->
  flag_at qs i = Some (is_anomaly z)
  /\ type_at qs i = Some (anomaly_type z).
Proof.
  intros H. unfold flag_at, type_at. rewrite !nth_error_map, H.
  split; reflexivity.
Qed.

Lemma zscore_rounds_sample_z (qs : list Q) (q m v : Q) :
  (m == Qmean qs)%Q -> (v == sample_variance qs)%Q -> ~ (v == 0)%Q ->
  exists z k,
    zscore (Fin (Qred (q + Qred (- m)))) (Fin v) = Fin z
    /\ (z == inject_Z k / 1000)%Q
    /\ Rabs (IZR k - 1000 * sample_z qs q) <= 1 / 2.
Proof.
  intros Hm Hv Hnz. cbn [zscore].
  rewrite (Qeq_bool_false _ Hnz). unfold round3_ratio.
  eexists. eexists. split; [reflexivity|]. split; [apply Qred_correct|].
  unfold sample_z.
  assert (E1 : Q2R (Qred (q + Qred (- m))) = Q2R (q - Qmean qs)).
  { apply Qeq_eqR. rewrite !Qred_correct, Hm. unfold Qminus. reflexivity. }
  assert (E2 : Q2R v = Q2R (sample_variance qs)) by (apply Qeq_eqR; exact Hv).
  rewrite <- E1, <- E2. apply Rround_half_even_near.
Qed.

Lemma nth_error_In_some {A} (l : list A) (i : nat) :
  (i < List.length l)%nat -> exists x, nth_error l i = Some x /\ In x l.
Proof.
  intros H. destruct (nth_error l i) as [x|] eqn:E.
  - exists x. split; [reflexivity|]. eapply nth_error_In; eauto.
  - apply nth_error_None in E. lia.
Qed.

(** C7, as amended.  Monthly z-scores.  For a series of at least two
    months the score of a month is its deviation from the mean over the
    sample standard deviation (denominator [n - 1]), rounded to 3
    decimals; a month is flagged exactly when the rounded score is beyond
    2 in absolute value, "High" when it is above 2 and "Low" when it is
    below -2.  When the standard deviation is zero the division is not
    guarded: the score is not-a-number, and no month is flagged.  A
    constant series of any length flags nothing. *)
Theorem zscore_is_rounded_sample_score :
  forall qs : list Q,
    ((2 <= List.length qs)%nat ->
     exists m v,
       mean (map Fin qs) = Fin m /\ (m == Qmean qs)%Q
       /\ variance (map Fin qs) = Fin v /\ (v == sample_variance qs)%Q
       /\ (~ (v == 0)%Q ->
           forall i q, nth_error qs i = Some q ->
             exists z k,
               nth_error (zscores (map Fin qs)) i = Some (Fin z)
               /\ (z == inject_Z k / 1000)%Q
               /\ Rabs (IZR k - 1000 * sample_z qs q) <= 1 / 2
               /\ (flag_at qs i = Some true <-> (2 < z \/ z < -2)%Q)
               /\ (type_at qs i = Some "High" <-> (2 < z)%Q)
               /\ (type_at qs i = Some "Low" <-> (z < -2)%Q))
       /\ ((v == 0)%Q ->
           forall i, (i < List.length qs)%nat ->
             nth_error (zscores (map Fin qs)) i = Some NaN
             /\ flag_at qs i = Some false
             /\ type_at qs i = Some "Normal"))
    /\ (forall (c : Q) (n : nat) (i : nat),
          (i < n)%nat ->
          flag_at (repeat c n) i = Some false
          /\ type_at (repeat c n) i = Some "Normal").
Proof.
  intros qs. split.
  - intros Hlen.
    assert (Hne : qs <> []) by (destruct qs; [simpl in Hlen; lia|congruence]).
    destruct (mean_finite qs Hne) as (m & Hmean & Hm).
    destruct (variance_finite qs Hlen) as (v & Hvar & Hv).
    exists m, v.
    split; [exact Hmean|]. split; [exact Hm|].
    split; [exact Hvar|]. split; [exact Hv|]. split.
    + intros Hnz i q Hq.
      destruct (zscore_rounds_sample_z qs q m v Hm Hv Hnz)
        as (z & k & Hz & Hk & Hnear).
      assert (Hat := zscore_at qs i q m v Hmean Hvar Hq). rewrite Hz in Hat.
      destruct (flag_at_eq qs i (Fin z) Hat) as [Hf Ht].
      destruct (anomaly_type_finite z) as (Hhigh & Hlow & _).
      exists z, k. split; [exact Hat|]. split; [exact Hk|].
      split; [exact Hnear|]. rewrite Hf, Ht.
      split; [|split].
      * rewrite <- is_anomaly_finite. split; congruence.
      * rewrite <- Hhigh. split; congruence.
      * rewrite <- Hlow. split; congruence.
    + intros Hz i Hi.
      destruct (nth_error_In_some qs i Hi) as (q & Hq & Hin).
      assert (Hat := zscore_at qs i q m v Hmean Hvar Hq).
      assert (Hd : Qeq_bool (Qred (q + Qred (- m))) 0 = true).
      { apply Qeq_bool_iff. rewrite !Qred_correct, Hm.
        rewrite Hv in Hz.
        apply (zero_variance_constant qs Hlen Hz q Hin). }
      assert (Hzb : Qeq_bool v 0 = true) by (apply Qeq_bool_iff; exact Hz).
      cbn [zscore] in Hat. rewrite Hzb, Hd in Hat.
      destruct (flag_at_eq qs i NaN Hat) as [Hf Ht].
      split; [exact Hat|]. split; [exact Hf|exact Ht].
  - intros c n i Hi.
    assert (Hz : nth_error (zscores (map Fin (repeat c n))) i = Some NaN).
    { unfold zscores. rewrite nth_error_map.
      destruct (nth_error_In_some (map Fin (repeat c n)) i) as (x & -> & Hx).
      { rewrite length_map, repeat_length. exact Hi. }
      cbn [option_map]. f_equal. rewrite <- map_Fin_repeat in *.
      apply zscore_constant. exact Hx. }
    destruct (flag_at_eq _ i NaN Hz) as [Hf Ht].
    split; [exact Hf|exact Ht].
Qed.

(** C7, worked example: the sample statistics of the series with one
    high month. *)
Lemma one_high_month_statistics :
  exists m v,
    mean (map Fin one_high_month) = Fin m
    /\ variance (map Fin one_high_month) = Fin v
    /\ (v == sample_variance one_high_month)%Q.
Proof.
  destruct (zscore_is_rounded_sample_score one_high_month) as [H _].
  destruct H as (m & v & Hm & _ & Hv & Hs & _).
  - simpl. lia.
  - exists m, v. split; [exact Hm|]. split; [exact Hv|exact Hs].
Defined.

(** The series with one high month: the code's score of the high month
    is exactly 2, which is not beyond the threshold. *)
Lemma one_high_month_score :
  nth_error (zscores (map Fin one_high_month)) 5 = Some (Fin 2).
Proof.
  assert (Hm : mean (map Fin one_high_month) = Fin 2) by reflexivity.
  assert (Hv : variance (map Fin one_high_month) = Fin 4) by reflexivity.
  rewrite (zscore_at one_high_month 5 6 2 4 Hm Hv eq_refl).
  change (zscore (Fin (Qred (6 + Qred (- (2))))) (Fin 4))
    with (Fin (round3_ratio 4 4)).
  unfold round3_ratio.
  assert (E : 1000 * (Q2R 4 / sqrt (Q2R 4)) = IZR 2000).
  { assert (Q2R 4 = 4) as -> by (unfold Q2R; simpl; lra).
    rewrite sqrt_4. lra. }
  rewrite E, Rround_half_even_IZR. reflexivity.
Qed.

Lemma one_high_month_population_z :
  population_z one_high_month 6 > 2.
Proof.
  unfold population_z.
  assert (Em : Q2R (Qmean one_high_month) = 2).
  { rewrite (Qeq_eqR (Qmean one_high_month) 2) by reflexivity.
    unfold Q2R. simpl. lra. }
  assert (Ev : Q2R (population_variance one_high_month) = 10 / 3).
  { rewrite (Qeq_eqR (population_variance one_high_month) (10 # 3))
      by reflexivity.
    unfold Q2R. simpl. lra. }
  assert (E6 : Q2R 6 = 6) by (unfold Q2R; simpl; lra).
  rewrite Em, Ev, E6.
  assert (Hpos : 0 < sqrt (10 / 3)) by (apply sqrt_lt_R0; lra).
  assert (Hlt : sqrt (10 / 3) < 2).
  { rewrite <- sqrt_4. apply sqrt_lt_1_alt. lra. }
  apply Rlt_gt. apply (Rmult_lt_reg_r (sqrt (10 / 3))); [exact Hpos|].
  unfold Rdiv. rewrite Rmult_assoc, Rinv_l by lra. lra.
Qed.

(** C7: the specification's statistic flags a month the code does not. *)
Lemma population_score_flags_more :
  population_flagged one_high_month 6
  /\ nth_error one_high_month 5 = Some 6%Q
  /\ flag_at one_high_month 5 = Some false
  /\ type_at one_high_month 5 = Some "Normal".
Proof.
  split.
  { unfold population_flagged.
    assert (H := one_high_month_population_z).
    rewrite Rabs_right by lra. exact H. }
  split; [reflexivity|].
  destruct (flag_at_eq one_high_month 5 (Fin 2) one_high_month_score)
    as [Hf Ht].
  split; [exact Hf|exact Ht].
Qed.

End AnomalyProofs.

Module PlannerProofs.

Import Orchestrator PlannerSpec.

(** *** Containment of texts *)

Lemma prefix_iff (a s : string) :
  String.prefix a s = true <-> exists post, s = a ++ post.
Proof.
  revert s. induction a as [|c a IH]; intros s.
  - split; [intros _; exists s; reflexivity|].
    intros _. destruct s; reflexivity.
  - destruct s as [|c' s]; simpl.
    + split; [discriminate|intros [post H]; discriminate].
    + destruct (Ascii.ascii_dec c c') as [->|Hne].
      * rewrite IH. split; intros [post H]; exists post; congruence.
      * split; [discriminate|]. intros [post H]. congruence.
Qed.

Lemma append_assoc (a b c : string) : (a ++ b) ++ c = a ++ (b ++ c).
Proof. induction a; simpl; congruence. Qed.

Lemma contains_iff (sub s : string) :
  contains sub s = true <-> exists pre post, s = pre ++ sub ++ post.
Proof.
  induction s as [|c s IH].
  - cbn [contains]. rewrite orb_false_r, prefix_iff. split.
    + intros [post H]. exists "", post. exact H.
    + intros (pre & post & H). destruct pre; [exists post; exact H|].
      discriminate.
  - cbn [contains]. rewrite orb_true_iff, prefix_iff, IH. split.
    + intros [[post H]|(pre & post & H)].
      * exists "", post. exact H.
      * exists (String c pre), post. simpl. congruence.
    + intros (pre & post & H). destruct pre as [|c' pre].
      * left. exists post. exact H.
      * right. exists pre, post. simpl in H. congruence.
Qed.

Lemma contains_trans (a b c : string) :
  contains a b = true -> contains b c = true -> contains a c = true.
Proof.
  rewrite !contains_iff. intros (p1 & q1 & ->) (p2 & q2 & ->).
  exists (p2 ++ p1), (q1 ++ q2). rewrite !append_assoc. reflexivity.
Qed.

Lemma lower_app (a b : string) : lower (a ++ b) = lower a ++ lower b.
Proof. induction a; simpl; congruence. Qed.

Lemma contains_lower (sub s : string) :
  contains sub s = true -> contains (lower sub) (lower s) = true.
Proof.
  rewrite !contains_iff. intros (pre & post & ->).
  exists (lower pre), (lower post). rewrite !lower_app. reflexivity.
Qed.

(** Lower-casing neither makes nor removes a digit. *)
Lemma upper_not_digit (x : ascii) :
  is_upper x = true -> is_digit x = false /\ is_digit (lower_char x) = false.
Proof.
  destruct x as [[] [] [] [] [] [] [] []]; intros H;
    try discriminate H; split; reflexivity.
Qed.

Lemma eqb_lower_digit (c x : ascii) :
  is_digit c = true -> Ascii.eqb c (lower_char x) = Ascii.eqb c x.
Proof.
  intros Hc. unfold lower_char. destruct (is_upper x) eqn:Hu; [|reflexivity].
  destruct (upper_not_digit x Hu) as [H1 H2]. fold (lower_char x) in *.
  assert (E : lower_char x = ascii_of_nat (nat_of_ascii x + 32))
    by (unfold lower_char; rewrite Hu; reflexivity).
  rewrite <- E.
  destruct (Ascii.eqb_spec c (lower_char x)) as [->|_]; [congruence|].
  destruct (Ascii.eqb_spec c x) as [->|_]; [congruence|]. reflexivity.
Qed.

Lemma prefix_lower_digits (d s : string) :
  digits_only d = true ->
  String.prefix d (lower s) = String.prefix d s.
Proof.
  unfold digits_only. revert s. induction d as [|c d IH]; intros s Hd.
  - destruct s; reflexivity.
  - cbn [list_ascii_of_string forallb] in Hd. apply andb_true_iff in Hd.
    destruct Hd as [Hc Hd]. destruct s as [|x s]; [reflexivity|].
    cbn [lower String.prefix].
    destruct (Ascii.ascii_dec c (lower_char x)) as [E|E];
      destruct (Ascii.ascii_dec c x) as [E'|E'].
    + apply IH; exact Hd.
    + exfalso. apply E'. apply Ascii.eqb_eq.
      rewrite <- (eqb_lower_digit c x Hc). apply Ascii.eqb_eq. exact E.
    + exfalso. apply E. apply Ascii.eqb_eq.
      rewrite (eqb_lower_digit c x Hc). apply Ascii.eqb_eq. exact E'.
    + reflexivity.
Qed.

Lemma contains_lower_digits (d s : string) :
  digits_only d = true -> contains d (lower s) = contains d s.
Proof.
  intros Hd. induction s as [|x s IH].
  - reflexivity.
  - change (lower (String x s)) with (String (lower_char x) (lower s)).
    cbn [contains]. rewrite IH.
    change (String (lower_char x) (lower s)) with (lower (String x s)).
    rewrite (prefix_lower_digits d (String x s) Hd). reflexivity.
Qed.

(** *** The plan for the comparison phrase *)

Lemma classify_comparison (q : string) :
  contains comparison_phrase q = true ->
  contains "2022" q = false ->
  classify q = Some comparison_step.
Proof.
  intros Hp H22.
  assert (Hc : contains "compare" q = true)
    by (apply (contains_trans _ comparison_phrase); [reflexivity|exact Hp]).
  assert (H23 : contains "2023" q = true)
    by (apply (contains_trans _ comparison_phrase); [reflexivity|exact Hp]).
  assert (H24 : contains "2024" q = true)
    by (apply (contains_trans _ comparison_phrase); [reflexivity|exact Hp]).
  assert (Hr : contains "region" q = true)
    by (apply (contains_trans _ comparison_phrase); [reflexivity|exact Hp]).
  assert (Hy : years_in q = [2023; 2024]%Z).
  { unfold years_in. cbn [List.filter].
    change (str_int 2022) with "2022". change (str_int 2023) with "2023".
    change (str_int 2024) with "2024". rewrite H22, H23, H24. reflexivity. }
  unfold classify. rewrite Hc, Hy, Hr. reflexivity.
Qed.

Lemma plan_ends_with_summary (query err : string) :
  last_step (_rule_based_plan query err) = Some executive_summary_step.
Proof.
  unfold last_step, _rule_based_plan. cbn [steps].
  rewrite rev_app_distr. reflexivity.
Qed.

(** C9, as amended.  The fallback planner.  For every text that contains
    "compare 2023 and 2024 by region" and does not contain "2022", the
    first step of the plan is [compare_periods] with period_a = year
    2023, period_b = year 2024 and group_by = "region"; and for every
    text the last step of the plan is the executive-summary report
    step. *)
Theorem fallback_plan_for_comparison :
  forall (query err : string),
    (contains comparison_phrase query = true ->
     contains "2022" query = false ->
     first_step (_rule_based_plan query err) = Some comparison_step)
    /\ last_step (_rule_based_plan query err) = Some executive_summary_step.
Proof.
  intros query err. split; [|apply plan_ends_with_summary].
  intros Hp H22.
  assert (Hq : classify (lower query) = Some comparison_step).
  { apply classify_comparison.
    - apply (contains_lower comparison_phrase query Hp).
    - rewrite contains_lower_digits by reflexivity. exact H22. }
  unfold first_step, _rule_based_plan. cbn [steps]. rewrite Hq. reflexivity.
Qed.

(** C9, worked example: the plan for the phrase itself. *)
Lemma plan_for_the_phrase :
  first_step (_rule_based_plan comparison_phrase "") = Some comparison_step.
Proof.
  destruct (fallback_plan_for_comparison comparison_phrase "") as [H _].
  apply H; reflexivity.
Defined.

(** C9: a text that contains the phrase and names 2022 as well is planned
    as a comparison of 2022 with 2024. *)
Lemma comparison_phrase_with_third_year :
  contains comparison_phrase since_2022 = true
  /\ first_step (_rule_based_plan since_2022 "")
     = Some (mkStep "KPICalculator" "compare_periods"
               [ ("period_a", VDict [("year", VInt 2022)]);
                 ("period_b", VDict [("year", VInt 2024)]);
                 ("group_by", VStr "region") ])
  /\ first_step (_rule_based_plan since_2022 "") <> Some comparison_step.
Proof.
  split; [reflexivity|]. split; [reflexivity|].
  vm_compute. discriminate.
Qed.

End PlannerProofs.

(* ===================================================================== *)
(** * Further properties                                                  *)
(* ===================================================================== *)

From Stdlib Require Lqa.

Module BindProofs.

Import BindSpec.

Lemma count_char_app c (a b : string) :
  count_char c (a ++ b) = (count_char c a + count_char c b)%nat.
Proof.
  induction a as [|x a IH]; [reflexivity|].
  cbn [append count_char]. rewrite IH. lia.
Qed.

Lemma marks_app (a b : string) :
  question_marks (a ++ b) = (question_marks a + question_marks b)%nat.
Proof. apply count_char_app. Qed.

Lemma marks_in_app (l l' : list string) :
  marks_in (l ++ l')%list = (marks_in l + marks_in l')%nat.
Proof.
  induction l as [|x l IH]; [reflexivity|].
  cbn [app marks_in fold_right]. fold (marks_in (l ++ l')%list).
  fold (marks_in l). rewrite IH. lia.
Qed.

Lemma marks_join (sep : string) (l : list string) :
  question_marks sep = 0%nat ->
  question_marks (join sep l) = marks_in l.
Proof.
  intros Hsep. induction l as [|x l IH]; [reflexivity|].
  destruct l as [|y l].
  - cbn [join marks_in fold_right]. lia.
  - change (join sep (x :: y :: l)) with (x ++ sep ++ join sep (y :: l)).
    rewrite !marks_app, IH, Hsep.
    change (marks_in (x :: y :: l))
      with (question_marks x + marks_in (y :: l))%nat.
    lia.
Qed.

Lemma marks_where_of (l : list string) :
  question_marks (DimensionNavigator.where_of l) = marks_in l.
Proof.
  unfold DimensionNavigator.where_of. destruct l as [|x l]; [reflexivity|].
  rewrite marks_app, (marks_join " AND ") by reflexivity. reflexivity.
Qed.

Lemma marks_placeholders (n : nat) :
  question_marks (DimensionNavigator.placeholders n) = n.
Proof.
  unfold DimensionNavigator.placeholders.
  rewrite (marks_join ",") by reflexivity.
  induction n as [|n IH]; [reflexivity|].
  cbn [repeat marks_in fold_right]. fold (marks_in (repeat "?" n)).
  rewrite IH. reflexivity.
Qed.

Lemma catalog_column_marks (m : list (string * string)) (key col : string) :
  forallb (fun kv => Nat.eqb (question_marks (snd kv)) 0) m = true ->
  DimensionNavigator.catalog_get m key = Some col ->
  question_marks col = 0%nat.
Proof.
  unfold DimensionNavigator.catalog_get. intros Hm H.
  induction m as [|[k c] m IH]; [discriminate|].
  cbn [forallb snd] in Hm. apply andb_true_iff in Hm. destruct Hm as [Hc Hm].
  cbn [List.find fst] in H. destruct (String.eqb k key).
  - inversion H; subst. apply Nat.eqb_eq. exact Hc.
  - apply IH; assumption.
Qed.

(** The marks of the three shapes of predicate. *)
Lemma marks_membership (col : string) (n : nat) :
  question_marks col = 0%nat ->
  question_marks (col ++ " IN (" ++ DimensionNavigator.placeholders n ++ ")")
  = n.
Proof.
  intros Hc. rewrite !marks_app, marks_placeholders, Hc.
  change (question_marks " IN (") with 0%nat.
  change (question_marks ")") with 0%nat. lia.
Qed.

Lemma marks_comparison (col op : string) :
  question_marks col = 0%nat -> question_marks op = 1%nat ->
  question_marks (col ++ op) = 1%nat.
Proof. intros Hc Ho. rewrite marks_app, Hc, Ho. reflexivity. Qed.

Lemma cube_loop_marks (kvs : dict) :
  forall conditions params,
    marks_in conditions = List.length params ->
    marks_in (fst (CubeOperations.where_loop kvs conditions params))
    = List.length (snd (CubeOperations.where_loop kvs conditions params)).
Proof.
  induction kvs as [|[key val] kvs IH]; intros conditions params Hinv;
    [exact Hinv|].
  cbn [CubeOperations.where_loop].
  destruct (CubeOperations.catalog_get CubeOperations.COL_MAP key)
    as [col|] eqn:Hcol; [|apply IH; exact Hinv].
  assert (Hc : question_marks col = 0%nat)
    by (apply (catalog_column_marks CubeOperations.COL_MAP key);
        [reflexivity|exact Hcol]).
  assert (Heq : forall op v,
             question_marks op = 1%nat ->
             marks_in (conditions ++ [(col ++ op)%string])%list
             = List.length (params ++ [v : value])%list).
  { intros op v Ho. rewrite marks_in_app, length_app. cbn [marks_in fold_right].
    rewrite (marks_comparison col op Hc Ho), Hinv. cbn. lia. }
  destruct val; try (apply IH; apply Heq; reflexivity).
  - apply IH. rewrite marks_in_app, length_app. cbn [marks_in fold_right].
    unfold CubeOperations.placeholders.
    rewrite (marks_membership col _ Hc), Hinv. lia.
  - destruct (dict_get "gte" d); [apply IH; apply Heq; reflexivity|].
    destruct (dict_get "lte" d); apply IH; apply Heq; reflexivity.
Qed.

Lemma navigator_loop_marks (kvs : dict) :
  forall conditions params,
    marks_in conditions = List.length params ->
    marks_in (fst (DimensionNavigator.filter_loop kvs conditions params))
    = List.length (snd (DimensionNavigator.filter_loop kvs conditions params)).
Proof.
  induction kvs as [|[key val] kvs IH]; intros conditions params Hinv;
    [exact Hinv|].
  cbn [DimensionNavigator.filter_loop].
  destruct (DimensionNavigator.catalog_get DimensionNavigator.col_map key)
    as [col|] eqn:Hcol; [|apply IH; exact Hinv].
  assert (Hc : question_marks col = 0%nat)
    by (apply (catalog_column_marks DimensionNavigator.col_map key);
        [reflexivity|exact Hcol]).
  assert (Heq : marks_in (conditions ++ [(col ++ " = ?")%string])%list
                = List.length (params ++ [val])%list).
  { rewrite marks_in_app, length_app. cbn [marks_in fold_right].
    rewrite (marks_comparison col " = ?" Hc eq_refl), Hinv. cbn. lia. }
  destruct val; try (apply IH; exact Heq).
  apply IH. rewrite marks_in_app, length_app. cbn [marks_in fold_right].
  rewrite (marks_membership col _ Hc), Hinv. lia.
Qed.

(** The navigator's and the KPI calculator's loops are the same loop. *)
Lemma kpi_loop_is_navigator_loop (kvs : dict) :
  forall conditions params,
    KPICalculator.where_loop kvs conditions params
    = DimensionNavigator.filter_loop kvs conditions params.
Proof.
  induction kvs as [|[key val] kvs IH]; intros conditions params;
    [reflexivity|].
  cbn [KPICalculator.where_loop DimensionNavigator.filter_loop].
  change (KPICalculator.catalog_get KPICalculator.COL_MAP key)
    with (DimensionNavigator.catalog_get DimensionNavigator.col_map key).
  destruct (DimensionNavigator.catalog_get DimensionNavigator.col_map key);
    [|apply IH].
  destruct val; apply IH.
Qed.

(** X1.  In every WHERE clause a filter compiler returns, the number of
    [?] placeholders is the number of bind values returned with it, for
    every filter dict and each of the three compilers. *)
Theorem placeholders_match_binds :
  forall fs : dict,
    (exists w ps,
        CubeOperations._build_where (VDict fs) = Ok (w, ps)
        /\ question_marks w = List.length ps)
    /\ (exists w ps,
           DimensionNavigator._build_filter_clause (VDict fs) = Ok (w, ps)
           /\ question_marks w = List.length ps)
    /\ (exists w ps,
           KPICalculator._build_where (VDict fs) = Ok (w, ps)
           /\ question_marks w = List.length ps).
Proof.
  intros fs. split; [|split].
  - eexists. eexists. split; [apply BuilderProofs.cube_build_where_dict|].
    unfold CubeOperations.where_of. rewrite marks_where_of.
    apply cube_loop_marks. reflexivity.
  - eexists. eexists.
    split; [apply NavigatorProofs.build_filter_clause_dict|].
    rewrite marks_where_of. apply navigator_loop_marks. reflexivity.
  - unfold KPICalculator._build_where. cbn [items bind].
    rewrite kpi_loop_is_navigator_loop.
    destruct (DimensionNavigator.filter_loop fs [] []) as [c p] eqn:E.
    eexists. eexists. split; [reflexivity|].
    unfold KPICalculator.where_of. rewrite marks_where_of.
    assert (H := navigator_loop_marks fs [] [] eq_refl). rewrite E in H.
    exact H.
Qed.

End BindProofs.

Module AgreementProofs.

Import BindSpec.

Lemma cube_catalog_is_navigator_catalog (key : string) :
  String.eqb key "month_num" = false ->
  CubeOperations.catalog_get CubeOperations.COL_MAP key
  = DimensionNavigator.catalog_get DimensionNavigator.col_map key.
Proof.
  intros Hk. rewrite String.eqb_sym in Hk.
  unfold CubeOperations.catalog_get, DimensionNavigator.catalog_get,
    CubeOperations.COL_MAP, DimensionNavigator.col_map.
  cbn [List.find fst]. rewrite Hk. reflexivity.
Qed.

Lemma not_range_no_bounds (d : dict) :
  FilterSpec.is_range (VDict d) = false ->
  dict_get "gte" d = None /\ dict_get "lte" d = None.
Proof.
  unfold FilterSpec.is_range, has_key. intros H.
  destruct (dict_get "gte" d); [discriminate|].
  destruct (dict_get "lte" d); [discriminate|]. split; reflexivity.
Qed.

Lemma cube_loop_is_navigator_loop (kvs : dict) :
  plain_filters kvs = true ->
  forall conditions params,
    CubeOperations.where_loop kvs conditions params
    = DimensionNavigator.filter_loop kvs conditions params.
Proof.
  induction kvs as [|[key val] kvs IH]; intros Hp conditions params;
    [reflexivity|].
  unfold plain_filters in Hp. cbn [forallb fst snd] in Hp.
  apply andb_true_iff in Hp. destruct Hp as [Hkv Hp].
  apply andb_true_iff in Hkv. destruct Hkv as [Hr Hk].
  apply negb_true_iff in Hr. apply negb_true_iff in Hk.
  specialize (IH Hp).
  cbn [CubeOperations.where_loop DimensionNavigator.filter_loop].
  rewrite (cube_catalog_is_navigator_catalog key Hk).
  destruct (DimensionNavigator.catalog_get DimensionNavigator.col_map key);
    [|apply IH].
  destruct val; try apply IH.
  destruct (not_range_no_bounds d Hr) as [Hlo Hhi]. rewrite Hlo, Hhi.
  apply IH.
Qed.

(** X2.  The navigator's and the KPI calculator's filter compilers are
    the same function, and the cube's compiler agrees with them on every
    filter dict that holds no range object and no [month_num] key. *)
Theorem filter_compilers_agree :
  (forall filters : value,
      KPICalculator._build_where filters
      = DimensionNavigator._build_filter_clause filters)
  /\ (forall fs : dict,
         plain_filters fs = true ->
         CubeOperations._build_where (VDict fs)
         = DimensionNavigator._build_filter_clause (VDict fs)).
Proof.
  split.
  - intros filters.
    unfold KPICalculator._build_where, DimensionNavigator._build_filter_clause.
    destruct (items filters) as [kvs|e]; [|reflexivity]. cbn [bind].
    rewrite BindProofs.kpi_loop_is_navigator_loop. reflexivity.
  - intros fs Hp.
    unfold CubeOperations._build_where, DimensionNavigator._build_filter_clause.
    cbn [items bind]. rewrite (cube_loop_is_navigator_loop fs Hp).
    reflexivity.
Qed.

(** X2, worked example: a region, a list of years and a key no catalog
    knows. *)
Lemma compilers_agree_on_region_and_years :
  let fs := [("region", VStr "West"); ("year", VList [VInt 2022; VInt 2023]);
             ("channel", VStr "web")] in
  plain_filters fs = true
  /\ CubeOperations._build_where (VDict fs)
     = DimensionNavigator._build_filter_clause (VDict fs).
Proof.
  cbv zeta. split; [reflexivity|].
  apply (proj2 filter_compilers_agree). reflexivity.
Defined.

End AgreementProofs.

Module NavigatorDefaults.

Import DimensionNavigator.

Lemma get_hierarchy_range (hname : value) (h : hierarchy) :
  get_hierarchy hname = Ok h ->
  h = time_hierarchy \/ h = geography_hierarchy \/ h = product_hierarchy.
Proof.
  unfold get_hierarchy, lookup_value, HIERARCHIES.
  destruct hname; cbn [bind]; try discriminate;
    try solve [intros H; inversion H; auto].
  cbn [List.find fst].
  destruct (String.eqb "time" s); cbn [option_map snd];
    [intros H; inversion H; auto|].
  destruct (String.eqb "geography" s); cbn [option_map snd];
    [intros H; inversion H; auto|].
  destruct (String.eqb "product" s); cbn [option_map snd];
    intros H; inversion H; auto.
Qed.

Lemma get_default_absent (k : string) (dflt : value) (d : dict) :
  dict_get k d = None -> get_default k dflt d = dflt.
Proof. unfold get_default. intros ->. reflexivity. Qed.

(** X3.  A navigation request that names no level: drill-down goes to the
    finest level and groups by every column of the hierarchy, roll-up
    goes to the coarsest level and groups by the first column alone,
    whatever else the parameters hold. *)
Theorem omitted_level_defaults :
  forall (params : dict) (h : hierarchy) (fs : dict),
    dict_get "to_level" params = None ->
    get_hierarchy (get_default "hierarchy" (VStr "time") params) = Ok h ->
    get_default "filters" (VDict []) params = VDict fs ->
    exists drill roll,
      drill_down_request params = Ok drill
      /\ roll_up_request params = Ok roll
      /\ rq_to_level drill = VStr (last (levels h) "")
      /\ rq_to_level roll = VStr (hd "" (levels h))
      /\ rq_group_cols drill = hcolumns h
      /\ rq_group_cols roll = firstn 1 (hcolumns h)
      /\ rq_params drill = rq_params roll.
Proof.
  intros params h fs Hl Hh Hf.
  unfold drill_down_request, roll_up_request.
  rewrite Hh. cbn [bind].
  rewrite !(get_default_absent "to_level" _ params Hl), Hf.
  rewrite NavigatorProofs.build_filter_clause_dict. cbn [bind fst snd].
  destruct (get_hierarchy_range _ _ Hh) as [->|[->| ->]];
    (eexists; eexists; repeat split).
Qed.

(** X3, worked example: the geography hierarchy with no level named. *)
Lemma geography_without_level :
  let params := [("filters", VDict [("year", VInt 2023)]);
                 ("hierarchy", VStr "geography")] in
  exists drill roll,
    drill_down_request params = Ok drill
    /\ roll_up_request params = Ok roll
    /\ rq_group_cols drill = ["g.region"; "g.country"]
    /\ rq_group_cols roll = ["g.region"].
Proof.
  cbv zeta.
  destruct (omitted_level_defaults
              [("filters", VDict [("year", VInt 2023)]);
               ("hierarchy", VStr "geography")]
              geography_hierarchy [("year", VInt 2023)]
              eq_refl eq_refl eq_refl)
    as (drill & roll & Hd & Hr & _ & _ & Hcd & Hcr & _).
  exists drill, roll. repeat split; assumption.
Defined.

End NavigatorDefaults.

Module EdgeFacts.

Import EdgeSpec.

Lemma lookup_hashable {A} (m : list (string * A)) (v : value) :
  hashable v = true -> exists o, lookup_value m v = Ok o.
Proof.
  destruct v; cbn; try discriminate; intros _; eexists; reflexivity.
Qed.

Lemma filters_are_dict (params : dict) :
  well_formed params ->
  exists fs, get_default "filters" (VDict []) params = VDict fs.
Proof.
  intros [Hf _]. unfold get_default.
  destruct (dict_get "filters" params) as [v|] eqn:E.
  - apply Hf. reflexivity.
  - exists []. reflexivity.
Qed.

Lemma dimension_is_hashable (params : dict) (dflt : value) :
  well_formed params -> hashable dflt = true ->
  hashable (get_default "dimension" dflt params) = true.
Proof.
  intros [_ Hd] Hdflt. unfold get_default.
  destruct (dict_get "dimension" params) as [v|] eqn:E.
  - apply Hd. reflexivity.
  - exact Hdflt.
Qed.

Lemma kpi_build_where_dict (fs : dict) :
  exists ws, KPICalculator._build_where (VDict fs) = Ok ws.
Proof.
  unfold KPICalculator._build_where. cbn [items bind].
  destruct (KPICalculator.where_loop fs [] []). eexists. reflexivity.
Qed.

End EdgeFacts.

Module KpiEmptyProofs.

Import EdgeSpec EdgeFacts KPICalculator.







End KpiEmptyProofs.

Module EmptyComparisonProofs.

Import EdgeSpec EdgeFacts EmptyComparisonSpec KPICalculator.




End EmptyComparisonProofs.

Module RankingProofs.

Import EdgeSpec EdgeFacts RankingSpec KPICalculator.

Lemma ranked_nth (df : table) :
  forall (start i : nat),
    nth_error
      (map (fun ir : nat * list (string * value) => ("rank", VInt (Z.of_nat (fst ir))) :: snd ir)
           (combine (seq start (List.length df)) df)) i
    = option_map (fun r => ("rank", VInt (Z.of_nat (start + i))) :: r)
                 (nth_error df i).
Proof.
  induction df as [|r df IH]; intros start i.
  - destruct i; reflexivity.
  - cbn [List.length seq combine map]. destruct i as [|i].
    + cbn [nth_error option_map]. rewrite Nat.add_0_r. reflexivity.
    + cbn [nth_error]. rewrite IH.
      replace (S start + i)%nat with (start + S i)%nat by lia. reflexivity.
Qed.

Lemma ranked_length (df : table) (start : nat) :
  List.length
    (map (fun ir : nat * list (string * value) => ("rank", VInt (Z.of_nat (fst ir))) :: snd ir)
         (combine (seq start (List.length df)) df))
  = List.length df.
Proof.
  rewrite length_map, length_combine, length_seq. apply Nat.min_id.
Qed.

(** X6.  Top-N numbers the rows storage returns 1, 2, 3, ... in the order
    storage returned them, as a new first column; nothing is reordered,
    dropped or tied.  The table must not already have a [rank] column,
    and its first row must have the dimension and the metric the summary
    line prints. *)
Theorem top_n_ranks_in_storage_order :
  forall (db : Storage) (F : Formatter) (params : dict) (ctx : string)
         (df : table),
    answers db df -> well_formed params ->
    has_rank df = false -> summarizable F df ->
    exists o ranked,
      _top_n db F params ctx = Ok o
      /\ out_data o = Some ranked
      /\ out_error o = None
      /\ List.length ranked = List.length df
      /\ forall i r, nth_error df i = Some r ->
           nth_error ranked i
           = Some (("rank", VInt (Z.of_nat i + 1)) :: r).
Proof.
  intros db F params ctx df Hdb Hw _ Hs. unfold _top_n.
  destruct (filters_are_dict params Hw) as [fs ->].
  destruct (kpi_build_where_dict fs) as [ws ->].
  assert (Hh := dimension_is_hashable params (VStr "country") Hw eq_refl).
  destruct (lookup_hashable COL_MAP _ Hh) as [c ->]. cbn [bind].
  rewrite Hdb. cbn [bind]. cbv zeta.
  set (ranked :=
         map (fun ir : nat * list (string * value) =>
                ("rank", VInt (Z.of_nat (fst ir))) :: snd ir)
             (combine (seq 1 (List.length df)) df)).
  assert (Hnth : forall i r, nth_error df i = Some r ->
            nth_error ranked i = Some (("rank", VInt (Z.of_nat i + 1)) :: r)).
  { intros i r Hi. unfold ranked. rewrite ranked_nth, Hi. cbn [option_map].
    replace (Z.of_nat (1 + i)) with (Z.of_nat i + 1)%Z by lia. reflexivity. }
  assert (Hlen : List.length ranked = List.length df)
    by apply ranked_length.
  destruct df as [|top df'].
  - cbn [df_empty columns ranked List.length seq combine map bind].
    eexists. eexists. split; [reflexivity|].
    split; [reflexivity|]. split; [reflexivity|]. split; [reflexivity|].
    intros i r Hi. destruct i; discriminate.
  - destruct (Hs top eq_refl) as (d & m & text & Hd & Hm & Ht).
    assert (Hne : df_empty ranked = false) by reflexivity.
    rewrite Hne.
    replace (first_row ranked) with (Ok ((("rank", VInt 1) :: top) : row))
      by reflexivity.
    cbn [bind].
    unfold row_get. cbn [dict_get].
    replace (String.eqb "dimension" "rank") with false by reflexivity.
    replace (String.eqb "metric" "rank") with false by reflexivity.
    rewrite Hd, Hm. cbn [bind]. rewrite Ht. cbn [bind].
    eexists. eexists. split; [reflexivity|].
    split; [reflexivity|]. split; [reflexivity|]. split; assumption.
Qed.

(** X6, worked example: two countries with the same metric are ranked
    2 and 3. *)
Lemma tied_countries_get_distinct_ranks :
  exists o ranked,
    _top_n (fun _ _ => Ok three_countries) Examples.plain [("n", VInt 3)] ""
    = Ok o
    /\ out_data o = Some ranked
    /\ map (dict_get "rank") ranked
       = [Some (VInt 1); Some (VInt 2); Some (VInt 3)].
Proof.
  assert (Hw : well_formed [("n", VInt 3)])
    by (split; intros v H; discriminate H).
  assert (Hs : summarizable Examples.plain three_countries).
  { intros top H. inversion H; subst.
    eexists. eexists. eexists. repeat split; reflexivity. }
  destruct (top_n_ranks_in_storage_order
              (fun _ _ => Ok three_countries) Examples.plain
              [("n", VInt 3)] "" three_countries
              (fun _ _ => eq_refl) Hw eq_refl Hs)
    as (o & ranked & Ho & Hd & _ & Hlen & Hnth).
  exists o, ranked. split; [exact Ho|]. split; [exact Hd|].
  assert (H0 := Hnth 0%nat _ eq_refl).
  assert (H1 := Hnth 1%nat _ eq_refl).
  assert (H2 := Hnth 2%nat _ eq_refl).
  destruct ranked as [|r0 [|r1 [|r2 [|r3 rest]]]]; try discriminate Hlen.
  cbn in H0, H1, H2. inversion H0. inversion H1. inversion H2. reflexivity.
Defined.

End RankingProofs.

Module FrameFacts.

Import Frame.

Lemma mapM_length {A B} (f : A -> result B) (l : list A) :
  forall l', mapM f l = Ok l' -> List.length l' = List.length l.
Proof.
  induction l as [|a l IH]; intros l' H.
  - inversion H. reflexivity.
  - cbn [mapM] in H. destruct (f a) as [b|e]; cbn [bind] in H;
      [|discriminate].
    destruct (mapM f l) as [bs|e]; cbn [bind] in H; [|discriminate].
    inversion H. cbn [List.length]. rewrite (IH bs eq_refl). reflexivity.
Qed.

Lemma column_floats_length (col : string) (df : table) (xs : list float) :
  column_floats col df = Ok xs -> List.length xs = List.length df.
Proof.
  unfold column_floats, column. intros H.
  destruct (existsb (String.eqb col) (columns df)); [|discriminate].
  destruct (mapM (row_get col) df) as [cells|e] eqn:E; cbn [bind] in H;
    [|discriminate].
  rewrite (mapM_length _ _ _ H). apply (mapM_length _ _ _ E).
Qed.

Lemma dict_get_set_cell_same (col : string) (v : value) (r : row) :
  dict_get col (set_cell col v r) = Some v.
Proof.
  induction r as [|[c w] r IH]; cbn [set_cell dict_get].
  - rewrite String.eqb_refl. reflexivity.
  - destruct (String.eqb c col) eqn:E; cbn [dict_get].
    + rewrite String.eqb_sym, E. reflexivity.
    + rewrite String.eqb_sym, E. exact IH.
Qed.

Lemma dict_get_set_cell_other (col c' : string) (v : value) (r : row) :
  c' <> col -> dict_get c' (set_cell col v r) = dict_get c' r.
Proof.
  intros Hne. apply String.eqb_neq in Hne.
  induction r as [|[c w] r IH]; cbn [set_cell dict_get].
  - rewrite Hne. reflexivity.
  - destruct (String.eqb c col) eqn:E; cbn [dict_get].
    + apply String.eqb_eq in E. subst c. rewrite Hne. reflexivity.
    + rewrite IH. reflexivity.
Qed.

Lemma dict_get_dropped (col : string) (r : row) :
  dict_get col
    (List.filter (fun cv : string * value => negb (String.eqb (fst cv) col)) r)
  = None.
Proof.
  induction r as [|[c w] r IH]; [reflexivity|].
  cbn [List.filter fst]. destruct (String.eqb c col) eqn:E; cbn [negb].
  - exact IH.
  - cbn [dict_get]. rewrite String.eqb_sym, E. exact IH.
Qed.

Lemma dict_get_kept (col c' : string) (r : row) :
  c' <> col ->
  dict_get c'
    (List.filter (fun cv : string * value => negb (String.eqb (fst cv) col)) r)
  = dict_get c' r.
Proof.
  intros Hne. apply String.eqb_neq in Hne.
  induction r as [|[c w] r IH]; [reflexivity|].
  cbn [List.filter fst]. destruct (String.eqb c col) eqn:E; cbn [negb].
  - apply String.eqb_eq in E. subst c. cbn [dict_get]. rewrite Hne. exact IH.
  - cbn [dict_get]. rewrite IH. reflexivity.
Qed.

Lemma set_column_length (col : string) (vs : list value) (df : table) :
  List.length vs = List.length df ->
  List.length (set_column col vs df) = List.length df.
Proof.
  intros H. unfold set_column. rewrite length_map, length_combine, H.
  apply Nat.min_id.
Qed.

Lemma set_column_same (col : string) (vs : list value) :
  forall df : table,
    List.length vs = List.length df ->
    map (dict_get col) (set_column col vs df) = map Some vs.
Proof.
  unfold set_column.
  induction vs as [|v vs IH]; intros [|r df] H; try discriminate H;
    [reflexivity|].
  cbn [combine map fst snd]. rewrite dict_get_set_cell_same.
  f_equal. apply IH. inversion H. reflexivity.
Qed.

Lemma set_column_other (col c' : string) (vs : list value) :
  c' <> col ->
  forall df : table,
    List.length vs = List.length df ->
    map (dict_get c') (set_column col vs df) = map (dict_get c') df.
Proof.
  intros Hne. unfold set_column.
  induction vs as [|v vs IH]; intros [|r df] H; try discriminate H;
    [reflexivity|].
  cbn [combine map fst snd]. rewrite (dict_get_set_cell_other _ _ _ _ Hne).
  f_equal. apply IH. inversion H. reflexivity.
Qed.

Lemma drop_column_same (col : string) (df : table) :
  Forall (fun r => dict_get col r = None) (drop_column col df).
Proof.
  unfold drop_column. apply Forall_map. apply Forall_forall.
  intros r _. apply dict_get_dropped.
Qed.

Lemma drop_column_other (col c' : string) (df : table) :
  c' <> col ->
  map (dict_get c') (drop_column col df) = map (dict_get c') df.
Proof.
  intros Hne. unfold drop_column. rewrite map_map.
  apply map_ext. intros r. apply dict_get_kept. exact Hne.
Qed.

End FrameFacts.

Module MonthlyProofs.

Import EdgeSpec EdgeFacts FrameFacts MonthlySpec KPICalculator.

Lemma shifted_changes (xs : list float) :
  forall prev,
    map (fun cp : float * float =>
           VFloat (fround 2 (fmul (fdiv (fsub (fst cp) (snd cp)) (snd cp))
                                  (of_Z 100))))
        (combine xs (prev :: removelast xs))
    = map VFloat (mom_from prev xs).
Proof.
  induction xs as [|x xs IH]; intros prev; [reflexivity|].
  cbn [combine map mom_from fst snd]. f_equal.
  destruct xs as [|y xs]; [reflexivity|].
  change (removelast (x :: y :: xs)) with (x :: removelast (y :: xs)).
  apply IH.
Qed.

Lemma changes_of_series (xs : list float) :
  map (fun cp : float * float =>
         VFloat (fround 2 (fmul (fdiv (fsub (fst cp) (snd cp)) (snd cp))
                                (of_Z 100))))
      (combine xs (shift1 xs))
  = map VFloat (mom_from NaN xs).
Proof.
  destruct xs as [|x xs]; [reflexivity|]. apply shifted_changes.
Qed.

Lemma shift1_length (xs : list float) :
  List.length (shift1 xs) = List.length xs.
Proof.
  destruct xs as [|x xs]; [reflexivity|]. unfold shift1.
  cbn [List.length]. f_equal. revert x.
  induction xs as [|y xs IH]; intros x; [reflexivity|].
  change (removelast (x :: y :: xs)) with (x :: removelast (y :: xs)).
  cbn [List.length]. rewrite IH. reflexivity.
Qed.

Lemma mom_from_length (xs : list float) :
  forall prev, List.length (mom_from prev xs) = List.length xs.
Proof.
  induction xs as [|x xs IH]; intros prev; [reflexivity|].
  cbn [mom_from List.length]. rewrite IH. reflexivity.
Qed.

Lemma mom_pct_first (x : float) : mom_pct NaN x = NaN.
Proof. unfold mom_pct, fsub. destruct x; reflexivity. Qed.

Lemma mom_pct_after_zero (c : Q) :
  mom_pct (Fin 0) (Fin c)
  = if Qeq_bool c 0 then NaN else Inf (Qneg_b c).
Proof.
  unfold mom_pct, fsub, fneg, fadd, fdiv.
  replace (Qeq_bool 0 0) with true by reflexivity.
  assert (Hc : Qred (c + Qred (- 0)) == c).
  { rewrite Qred_correct. change (Qred (- 0)) with 0. ring. }
  assert (Hz : Qeq_bool (Qred (c + Qred (- 0))) 0 = Qeq_bool c 0).
  { destruct (Qeq_bool c 0) eqn:E.
    - apply Qeq_bool_iff. apply Qeq_bool_iff in E. rewrite Hc. exact E.
    - destruct (Qeq_bool (Qred (c + Qred (- 0))) 0) eqn:E'; [|reflexivity].
      apply Qeq_bool_iff in E'. rewrite Hc in E'.
      apply Qeq_bool_iff in E'. congruence. }
  assert (Hn : Qneg_b (Qred (c + Qred (- 0))) = Qneg_b c).
  { unfold Qneg_b. f_equal.
    destruct (Qle_bool 0 c) eqn:E.
    - apply Qle_bool_iff. apply Qle_bool_iff in E. rewrite Hc. exact E.
    - destruct (Qle_bool 0 (Qred (c + Qred (- 0)))) eqn:E'; [|reflexivity].
      apply Qle_bool_iff in E'. rewrite Hc in E'.
      apply Qle_bool_iff in E'. congruence. }
  rewrite Hz, Hn. destruct (Qeq_bool c 0); [reflexivity|].
  cbn [fmul of_Z fround].
  replace (Qeq_bool (inject_Z 100) 0) with false by reflexivity.
  replace (Qneg_b (inject_Z 100)) with false by reflexivity.
  rewrite xorb_false_r. reflexivity.
Qed.

Lemma mom_change_data db F params ctx raw xs :
  answers db raw -> df_empty raw = false ->
  column_floats "total_revenue" raw = Ok xs ->
  exists o data,
    _mom_change db F params ctx = Ok o
    /\ out_data o = Some data
    /\ out_error o = None
    /\ List.length data = List.length raw
    /\ map (dict_get "mom_change_pct") data
       = map (fun z => Some (VFloat z)) (mom_from NaN xs)
    /\ Forall (fun r => dict_get "prev_revenue" r = None) data
    /\ forall col, col <> "mom_change_pct" -> col <> "prev_revenue" ->
         map (dict_get col) data = map (dict_get col) raw.
Proof.
  intros Hdb Hne Hxs.
  unfold _mom_change.
  match goal with
  | |- context [_build_where ?f] =>
      assert (Hws : exists ws, _build_where f = Ok ws)
        by (destruct (truthy _); apply kpi_build_where_dict)
  end.
  destruct Hws as [ws ->]. cbn [bind]. rewrite Hdb. cbn [bind].
  rewrite Hne, Hxs. cbn [bind]. cbv zeta.
  assert (Hlen := column_floats_length _ _ _ Hxs).
  assert (Hprev : List.length (map VFloat (shift1 xs)) = List.length raw)
    by (rewrite length_map, shift1_length; exact Hlen).
  rewrite changes_of_series.
  set (with_prev := Frame.set_column "prev_revenue" _ raw).
  assert (Hwp : List.length with_prev = List.length raw)
    by (apply set_column_length; exact Hprev).
  assert (Hpct : List.length (map VFloat (mom_from NaN xs))
                 = List.length with_prev).
  { rewrite length_map, mom_from_length, Hwp. exact Hlen. }
  eexists. eexists. split; [reflexivity|]. cbn [out_data out_error].
  split; [reflexivity|]. split; [reflexivity|].
  split.
  { unfold Frame.drop_column. rewrite length_map.
    rewrite set_column_length by exact Hpct. exact Hwp. }
  split.
  { rewrite drop_column_other by discriminate.
    rewrite set_column_same by exact Hpct. rewrite map_map. reflexivity. }
  split; [apply drop_column_same|].
  intros col H1 H2.
  rewrite (drop_column_other _ _ _ H2).
  rewrite (set_column_other _ _ _ H1) by exact Hpct.
  unfold with_prev. apply set_column_other; assumption.
Qed.

(** X7.  Month-over-month change over a non-empty result.  The output has
    the rows of the result in their order, with one new column: the first
    month has not-a-number, every later month the change from the month
    before it in percent, to two decimals.  The helper column of shifted
    revenues is not part of the output and the other columns are
    untouched.  The division is not guarded: after a month without
    revenue the change is an infinity, or not-a-number when the month
    itself has none. *)
Theorem mom_change_pointwise :
  forall (db : Storage) (F : Formatter) (params : dict) (ctx : string)
         (raw : table) (xs : list float),
    answers db raw -> df_empty raw = false ->
    column_floats "total_revenue" raw = Ok xs ->
    (exists o data,
        _mom_change db F params ctx = Ok o
        /\ out_data o = Some data
        /\ out_error o = None
        /\ List.length data = List.length raw
        /\ map (dict_get "mom_change_pct") data
           = map (fun z => Some (VFloat z)) (mom_from NaN xs)
        /\ Forall (fun r => dict_get "prev_revenue" r = None) data
        /\ forall col, col <> "mom_change_pct" -> col <> "prev_revenue" ->
             map (dict_get col) data = map (dict_get col) raw)
    /\ (forall x, mom_pct NaN x = NaN)
    /\ (forall c, mom_pct (Fin 0) (Fin c)
                  = if Qeq_bool c 0 then NaN else Inf (Qneg_b c)).
Proof.
  intros db F params ctx raw xs Hdb Hne Hxs.
  split; [apply mom_change_data; assumption|].
  split; [apply mom_pct_first|apply mom_pct_after_zero].
Qed.

(** X7, worked example: revenues 100, 0 and 50. *)
Lemma change_after_a_month_without_revenue :
  exists o data,
    _mom_change (fun _ _ => Ok three_months) Examples.plain [] "" = Ok o
    /\ out_data o = Some data
    /\ map (dict_get "mom_change_pct") data
       = [Some (VFloat NaN); Some (VFloat (Fin (-100)));
          Some (VFloat (Inf false))].
Proof.
  destruct (mom_change_pointwise (fun _ _ => Ok three_months) Examples.plain
              [] "" three_months [Fin 100; Fin 0; Fin 50]
              (fun _ _ => eq_refl) eq_refl eq_refl)
    as ((o & data & Ho & Hd & _ & _ & Hpct & _) & _).
  exists o, data. split; [exact Ho|]. split; [exact Hd|].
  rewrite Hpct. vm_compute. reflexivity.
Defined.

End MonthlyProofs.

Module PlanProofs.

Import Orchestrator ExecutorSpec PlanSpec.










End PlanProofs.

Module PlannerFilterProofs.

Import Orchestrator PlanSpec.

Lemma planner_key_column (k : string) :
  In k planner_keys ->
  exists col,
    DimensionNavigator.catalog_get DimensionNavigator.col_map k = Some col.
Proof.
  intros H. cbn [planner_keys In] in H.
  repeat (destruct H as [H|H]; [subst k; eexists; reflexivity|]).
  contradiction.
Qed.

Lemma scalar_filters_bind_values (fs : dict) :
  (forall k v, In (k, v) fs -> In k planner_keys /\ scalar v = true) ->
  forall conditions params,
    snd (DimensionNavigator.filter_loop fs conditions params)
    = (params ++ map snd fs)%list.
Proof.
  induction fs as [|[k v] fs IH]; intros Hfs conditions params.
  - cbn. rewrite app_nil_r. reflexivity.
  - destruct (Hfs k v (or_introl eq_refl)) as [Hk Hv].
    destruct (planner_key_column k Hk) as [col Hcol].
    cbn [DimensionNavigator.filter_loop]. rewrite Hcol.
    assert (IH' := fun c p => IH (fun k' v' H => Hfs k' v' (or_intror H)) c p).
    destruct v; try discriminate Hv; rewrite IH'; cbn [map snd];
      rewrite <- app_assoc; reflexivity.
Qed.

Lemma scalar_filters_are_plain (fs : dict) :
  (forall k v, In (k, v) fs -> In k planner_keys /\ scalar v = true) ->
  BindSpec.plain_filters fs = true.
Proof.
  intros Hfs. unfold BindSpec.plain_filters. apply forallb_forall.
  intros [k v] Hin. destruct (Hfs k v Hin) as [Hk Hv]. cbn [fst snd].
  apply andb_true_iff. split.
  - destruct v; try discriminate Hv; reflexivity.
  - cbn [planner_keys In] in Hk.
    repeat (destruct Hk as [Hk|Hk]; [subst k; reflexivity|]).
    contradiction.
Qed.

Lemma plan_filters_shape (q : string) :
  NoDup (map fst (plan_filters q))
  /\ forall k v, In (k, v) (plan_filters q) ->
       In k planner_keys /\ scalar v = true.
Proof.
  unfold plan_filters. cbv zeta.
  destruct (years_in q) as [|y [|y' ys]];
    destruct (quarters_in q) as [|qtr qs];
    destruct (mentioned q _) as [|r rs];
    destruct (mentioned q _) as [|c cs];
    cbn [app map fst];
    (split;
     [repeat constructor; cbn [In]; intuition discriminate
     |intros k v H; cbn [In] in H;
      repeat (destruct H as [H|H];
              [inversion H; subst; split; [cbn; tauto|reflexivity]|]);
      contradiction]).
Qed.

(** X9.  The filter sets the fallback planner builds are compiled in
    full.  For every question they hold at most one value for each of
    the keys year, quarter, region and category, every value a scalar;
    so no filter compiler drops or reinterprets any of them: all three
    return the same clause, and the bind values are the filter values in
    order. *)
Theorem planner_filters_compile_in_full :
  forall q : string,
    let fs := plan_filters q in
    NoDup (map fst fs)
    /\ (forall k v, In (k, v) fs -> In k planner_keys /\ scalar v = true)
    /\ exists clause,
         DimensionNavigator._build_filter_clause (VDict fs)
         = Ok (clause, map snd fs)
         /\ CubeOperations._build_where (VDict fs) = Ok (clause, map snd fs)
         /\ KPICalculator._build_where (VDict fs) = Ok (clause, map snd fs)
         /\ BindSpec.question_marks clause = List.length fs.
Proof.
  intros q fs. destruct (plan_filters_shape q) as [Hnd Hfs].
  fold fs in Hnd, Hfs. split; [exact Hnd|]. split; [exact Hfs|].
  assert (Hb := scalar_filters_bind_values fs Hfs [] []). cbn [app] in Hb.
  assert (Hm := BindProofs.navigator_loop_marks fs [] [] eq_refl).
  unfold CubeOperations._build_where, KPICalculator._build_where,
    DimensionNavigator._build_filter_clause.
  cbn [items bind].
  rewrite (AgreementProofs.cube_loop_is_navigator_loop fs
             (scalar_filters_are_plain fs Hfs)).
  change (KPICalculator.where_loop fs [] [])
    with (DimensionNavigator.filter_loop fs [] []).
  change KPICalculator.where_of with DimensionNavigator.where_of.
  change CubeOperations.where_of with DimensionNavigator.where_of.
  destruct (DimensionNavigator.filter_loop fs [] []) as [conditions params].
  cbn [fst snd] in Hb, Hm. subst params.
  exists (DimensionNavigator.where_of conditions).
  split; [reflexivity|]. split; [reflexivity|]. split; [reflexivity|].
  rewrite BindProofs.marks_where_of, Hm. apply length_map.
Qed.

End PlannerFilterProofs.

Module ConversationProofs.

Import Orchestrator ConversationSpec.

Lemma take_length (n : nat) (s : string) :
  (String.length (take n s) <= n)%nat.
Proof.
  unfold take. revert s. induction n as [|n IH]; intros s.
  - destruct s; cbn; lia.
  - destruct s as [|c s]; cbn [String.substring String.length]; [lia|].
    specialize (IH s). lia.
Qed.

Lemma take_short (n : nat) (s : string) :
  (String.length s <= n)%nat -> take n s = s.
Proof.
  unfold take. revert s. induction n as [|n IH]; intros s Hs.
  - destruct s; [reflexivity|cbn in Hs; lia].
  - destruct s as [|c s]; [reflexivity|].
    cbn [String.substring]. rewrite IH; [reflexivity|].
    cbn [String.length] in Hs. lia.
Qed.

Lemma last_n_length {A} (n : nat) (l : list A) :
  List.length (last_n n l) = Nat.min n (List.length l).
Proof. unfold last_n. rewrite length_skipn. lia. Qed.

Lemma last_n_idempotent {A} (n : nat) (l : list A) :
  last_n n (last_n n l) = last_n n l.
Proof.
  unfold last_n at 1. rewrite last_n_length.
  replace (Nat.min n (List.length l) - n)%nat with 0%nat by lia.
  reflexivity.
Qed.

Lemma last_n_suffix {A} (n : nat) (l : list A) :
  exists older, l = (older ++ last_n n l)%list.
Proof.
  exists (firstn (List.length l - n) l). unfold last_n.
  symmetry. apply firstn_skipn.
Qed.

Lemma process_history llm agents history q :
  snd (process llm agents history q)
  = (history
     ++ [("user", q);
         ("assistant",
          take 500 (narrative (fst (process llm agents history q))))])%list.
Proof.
  unfold process.
  destruct (fold_left _ _ _) as [outputs steps_executed]. reflexivity.
Qed.

Lemma process_reads_recent_turns llm agents history q :
  fst (process llm agents history q)
  = fst (process llm agents (last_n 6 history) q).
Proof.
  unfold process, _call_llm. rewrite last_n_idempotent.
  destruct (fold_left _ _ _) as [outputs steps_executed]. reflexivity.
Qed.

Lemma turns_extend llm agents (qs : list string) :
  forall history,
    exists added,
      turns llm agents history qs = (history ++ added)%list
      /\ List.length added = (2 * List.length qs)%nat
      /\ Forall bounded added.
Proof.
  induction qs as [|q qs IH]; intros history.
  - exists []. cbn. rewrite app_nil_r. repeat split. constructor.
  - change (turns llm agents history (q :: qs))
      with (turns llm agents (snd (process llm agents history q)) qs).
    rewrite process_history.
    destruct (IH (history
                  ++ [("user", q);
                      ("assistant",
                       take 500
                         (narrative (fst (process llm agents history q))))])%list)
      as (added & Hturns & Hlen & Hb).
    eexists. split; [rewrite Hturns, <- app_assoc; reflexivity|].
    split.
    + rewrite length_app, Hlen. cbn [List.length]. lia.
    + apply Forall_app. split; [|exact Hb].
      constructor; [left; reflexivity|].
      constructor; [|constructor].
      right. split; [reflexivity|apply take_length].
Qed.

(** X10.  The conversation history.  Each processed question appends
    exactly two messages, the question and the narrative cut to 500
    characters (kept whole when it is shorter); earlier messages are
    never rewritten or dropped, so the history grows by two for every
    turn.  The planner is handed the last six messages only: the result
    of a turn does not depend on anything older.  Resetting leaves no
    message. *)
Theorem history_grows_and_planner_reads_six :
  forall llm agents (history : list message),
    (forall qs,
        exists added,
          turns llm agents history qs = (history ++ added)%list
          /\ List.length added = (2 * List.length qs)%nat
          /\ Forall bounded added)
    /\ (forall q,
          let r := fst (process llm agents history q) in
          snd (process llm agents history q)
          = (history ++ [("user", q); ("assistant", take 500 (narrative r))])%list
          /\ ((String.length (narrative r) <= 500)%nat ->
              take 500 (narrative r) = narrative r))
    /\ (forall q,
          fst (process llm agents history q)
          = fst (process llm agents (last_n 6 history) q))
    /\ (List.length (last_n 6 history) <= 6)%nat
    /\ reset_context history = [].
Proof.
  intros llm agents history.
  split; [intros qs; apply turns_extend|].
  split.
  { intros q r. split; [apply process_history|apply take_short]. }
  split; [intros q; apply process_reads_recent_turns|].
  split; [rewrite last_n_length; lia|reflexivity].
Qed.

End ConversationProofs.

Module SerializationProofs.

Import Serialization SerializationSpec.

Lemma cell_finite (v : value) : not_finite (cell v) = false.
Proof. unfold cell. destruct v as [| | |[| |]| | |]; reflexivity. Qed.

Lemma cell_unchanged (v : value) : not_finite v = false -> cell v = v.
Proof. unfold cell. intros ->. reflexivity. Qed.

Lemma cell_null (v : value) : not_finite v = true -> cell v = VNone.
Proof. unfold cell. intros ->. reflexivity. Qed.

Lemma record_finite (r : row) :
  Forall (fun kv : string * value => not_finite (snd kv) = false) (record r).
Proof.
  unfold record. apply Forall_map. apply Forall_forall.
  intros kv _. apply cell_finite.
Qed.

Lemma record_keys (r : row) : map fst (record r) = map fst r.
Proof. unfold record. rewrite map_map. reflexivity. Qed.

Lemma record_get (k : string) (r : row) :
  dict_get k (record r) = option_map cell (dict_get k r).
Proof.
  induction r as [|[k' v] r IH]; [reflexivity|].
  cbn [record map fst snd dict_get]. fold (record r).
  destruct (String.eqb k k'); [reflexivity|exact IH].
Qed.

Lemma to_dict_finite (o : AgentOutput) : finite_cells (d_data (to_dict o)).
Proof.
  unfold finite_cells, to_dict. cbn [d_data].
  destruct (out_data o) as [df|]; [|constructor].
  apply Forall_map. apply Forall_forall. intros r _. apply record_finite.
Qed.

(** X11.  What leaves the service as JSON.  In the dict form of an agent
    output no cell is not-a-number or an infinity: such cells are null,
    every other cell is the cell of the table.  Rows, their order and
    their keys are those of the table and the row count is their number;
    an output without a table gives no rows, and the count is the one
    the orchestrator's ledger shows for the output.  The same holds for
    every output in the dict form of an orchestrator result.  The
    metadata is passed on as it is. *)
Theorem to_dict_replaces_non_finite_cells :
  forall o : AgentOutput,
    finite_cells (d_data (to_dict o))
    /\ d_row_count (to_dict o) = List.length (d_data (to_dict o))
    /\ (forall df, out_data o = Some df ->
          map (map fst) (d_data (to_dict o)) = map (map fst) df
          /\ forall k,
               map (dict_get k) (d_data (to_dict o))
               = map (fun r => option_map cell (dict_get k r)) df)
    /\ (forall v, (not_finite v = true -> cell v = VNone)
                  /\ (not_finite v = false -> cell v = v))
    /\ (out_data o = None -> d_data (to_dict o) = [])
    /\ d_metadata (to_dict o) = out_metadata o
    /\ (forall s,
          d_row_count (to_dict o)
          = Orchestrator.row_count (ExecutorSpec.entry_of s o))
    /\ forall r : Orchestrator.OrchestratorResult,
         Forall (fun d => finite_cells (d_data d))
                (r_outputs (result_to_dict r)).
Proof.
  intros o. split; [apply to_dict_finite|].
  split.
  { unfold to_dict. cbn [d_row_count d_data].
    destruct (out_data o); [rewrite length_map|]; reflexivity. }
  split.
  { intros df Hdf. unfold to_dict. cbn [d_data]. rewrite Hdf. split.
    - rewrite map_map. apply map_ext. intros r. apply record_keys.
    - intros k. rewrite map_map. apply map_ext. intros r. apply record_get. }
  split; [intros v; split; [apply cell_null|apply cell_unchanged]|].
  split; [intros Hn; unfold to_dict; cbn [d_data]; rewrite Hn; reflexivity|].
  split; [reflexivity|].
  split; [intros s; reflexivity|].
  intros r. unfold result_to_dict. cbn [r_outputs].
  apply Forall_map. apply Forall_forall. intros o' _. apply to_dict_finite.
Qed.

End SerializationProofs.

Module SerializedMonthlyProofs.

Import EdgeSpec MonthlySpec Serialization KPICalculator.

(** X12.  Month-over-month change as the service returns it.  The change
    of the first month of a non-empty result is null, and so is the
    change of every month whose change is not a finite number (a month
    after one without revenue); the finite changes are returned as
    computed. *)
Theorem serialized_mom_change_starts_with_null :
  forall (db : Storage) (F : Formatter) (params : dict) (ctx : string)
         (raw : table) (xs : list float),
    answers db raw -> df_empty raw = false ->
    column_floats "total_revenue" raw = Ok xs ->
    exists o later,
      _mom_change db F params ctx = Ok o
      /\ map (dict_get "mom_change_pct") (d_data (to_dict o))
         = map (fun z => Some (cell (VFloat z))) (mom_from NaN xs)
      /\ map (dict_get "mom_change_pct") (d_data (to_dict o))
         = Some VNone :: later
      /\ List.length later = (List.length raw - 1)%nat.
Proof.
  intros db F params ctx raw xs Hdb Hne Hxs.
  destruct (MonthlyProofs.mom_change_data db F params ctx raw xs Hdb Hne Hxs)
    as (o & data & Ho & Hd & _ & _ & Hpct & _).
  assert (Hlen := FrameFacts.column_floats_length _ _ _ Hxs).
  assert (Hser : map (dict_get "mom_change_pct") (d_data (to_dict o))
                 = map (fun z => Some (cell (VFloat z))) (mom_from NaN xs)).
  { unfold to_dict. cbn [d_data]. rewrite Hd, map_map.
    rewrite (map_ext _ (fun r => option_map cell (dict_get "mom_change_pct" r)))
      by (intros r; apply SerializationProofs.record_get).
    rewrite <- (map_map (dict_get "mom_change_pct") (option_map cell)).
    rewrite Hpct, map_map. reflexivity. }
  destruct xs as [|x xs].
  { destruct raw; [discriminate Hne|discriminate Hlen]. }
  exists o.
  exists (map (fun z => Some (cell (VFloat z))) (mom_from x xs)).
  split; [exact Ho|]. split; [exact Hser|]. split.
  - rewrite Hser. cbn [mom_from map].
    rewrite MonthlyProofs.mom_pct_first. reflexivity.
  - rewrite length_map, MonthlyProofs.mom_from_length, <- Hlen.
    cbn [List.length]. lia.
Qed.

(** X12, worked example: revenues 100, 0 and 50 as the service returns
    their changes. *)
Lemma serialized_change_after_a_month_without_revenue :
  exists o,
    _mom_change (fun _ _ => Ok three_months) Examples.plain [] "" = Ok o
    /\ map (dict_get "mom_change_pct") (d_data (to_dict o))
       = [Some VNone; Some (VFloat (Fin (-100))); Some VNone].
Proof.
  destruct (serialized_mom_change_starts_with_null
              (fun _ _ => Ok three_months) Examples.plain
              [] "" three_months [Fin 100; Fin 0; Fin 50]
              (fun _ _ => eq_refl) eq_refl eq_refl)
    as (o & later & Ho & Hpct & _).
  exists o. split; [exact Ho|]. rewrite Hpct. vm_compute. reflexivity.
Defined.

End SerializedMonthlyProofs.

Module OutageProofs.

Import EdgeSpec OutageSpec.

(** One step through a handler, up to the first query. *)
Ltac to_query Hdb :=
  repeat
    match goal with
    | |- exists e, Raise _ = Raise e => eexists; reflexivity
    | |- exists e, bind (?db ?q ?ps) _ = Raise e =>
        let e := fresh "e" in
        destruct (Hdb q ps) as [e ->]; cbn [bind]
    | |- exists e, bind ?r _ = Raise e => destruct r; cbn [bind]
    | |- exists e, (if ?c then _ else _) = Raise e => destruct c
    | |- exists e, (let '(_, _) := ?p in _) = Raise e => destruct p
    end.

Lemma drill_down_down db F params ctx :
  down db -> exists e, DimensionNavigator._drill_down db F params ctx = Raise e.
Proof. intros Hdb. unfold DimensionNavigator._drill_down. to_query Hdb. Qed.

Lemma roll_up_down db F params ctx :
  down db -> exists e, DimensionNavigator._roll_up db F params ctx = Raise e.
Proof. intros Hdb. unfold DimensionNavigator._roll_up. to_query Hdb. Qed.

Lemma group_by_down db F params ctx :
  down db -> exists e, DimensionNavigator._group_by db F params ctx = Raise e.
Proof.
  intros Hdb. unfold DimensionNavigator._group_by. cbv zeta. to_query Hdb.
Qed.

Lemma slice_down db F params ctx :
  down db -> exists e, CubeOperations._slice db F params ctx = Raise e.
Proof.
  intros Hdb. unfold CubeOperations._slice. cbv zeta. to_query Hdb.
Qed.

Lemma dice_down db F params ctx :
  down db -> exists e, CubeOperations._dice db F params ctx = Raise e.
Proof.
  intros Hdb. unfold CubeOperations._dice. cbv zeta. to_query Hdb.
Qed.

Lemma pivot_down db F pivot_table params ctx :
  down db ->
  exists e, CubeOperations._pivot db F pivot_table params ctx = Raise e.
Proof.
  intros Hdb. unfold CubeOperations._pivot. cbv zeta. to_query Hdb.
Qed.

Lemma drill_through_down db F params ctx :
  down db -> exists e, CubeOperations._drill_through db F params ctx = Raise e.
Proof.
  intros Hdb. unfold CubeOperations._drill_through. cbv zeta. to_query Hdb.
Qed.

Lemma yoy_growth_down db F params ctx :
  down db -> exists e, KPICalculator._yoy_growth db F params ctx = Raise e.
Proof.
  intros Hdb. unfold KPICalculator._yoy_growth. cbv zeta. to_query Hdb.
Qed.

Lemma mom_change_down db F params ctx :
  down db -> exists e, KPICalculator._mom_change db F params ctx = Raise e.
Proof.
  intros Hdb. unfold KPICalculator._mom_change. cbv zeta. to_query Hdb.
Qed.

Lemma get_period_data_down db group_by period label :
  down db ->
  exists e, KPICalculator.get_period_data db group_by period label = Raise e.
Proof.
  intros Hdb. unfold KPICalculator.get_period_data. cbv zeta. to_query Hdb.
Qed.

Lemma compare_periods_down db F params ctx :
  down db -> exists e, KPICalculator._compare_periods db F params ctx = Raise e.
Proof.
  intros Hdb. unfold KPICalculator._compare_periods. cbv zeta.
  destruct (KPICalculator.period_label F _) as [la|e]; cbn [bind];
    [|eexists; reflexivity].
  destruct (KPICalculator.period_label F _) as [lb|e]; cbn [bind];
    [|eexists; reflexivity].
  destruct (get_period_data_down db
              (get_default "group_by" VNone params)
              (get_default "period_a" (VDict [("year", VInt 2023)]) params)
              la Hdb) as [e ->].
  eexists. reflexivity.
Qed.

Lemma top_n_down db F params ctx :
  down db -> exists e, KPICalculator._top_n db F params ctx = Raise e.
Proof.
  intros Hdb. unfold KPICalculator._top_n. cbv zeta. to_query Hdb.
Qed.

Lemma profit_margins_down db F params ctx :
  down db -> exists e, KPICalculator._profit_margins db F params ctx = Raise e.
Proof.
  intros Hdb. unfold KPICalculator._profit_margins. cbv zeta. to_query Hdb.
Qed.

Lemma overall_summary_down db F params ctx :
  down db -> exists e, KPICalculator._overall_summary db F params ctx = Raise e.
Proof.
  intros Hdb. unfold KPICalculator._overall_summary. to_query Hdb.
Qed.

Lemma monthly_anomaly_down db F params ctx :
  down db ->
  exists e, AnomalyDetection._monthly_anomaly db F params ctx = Raise e.
Proof.
  intros Hdb. unfold AnomalyDetection._monthly_anomaly. to_query Hdb.
Qed.

Lemma product_anomaly_down db F params ctx :
  down db ->
  exists e, AnomalyDetection._product_anomaly db F params ctx = Raise e.
Proof.
  intros Hdb. unfold AnomalyDetection._product_anomaly. to_query Hdb.
Qed.

Lemma raise_failed (r : result AgentOutput) :
  (exists e, r = Raise e) -> failed r.
Proof. intros [e ->]. exact I. Qed.

Lemma navigator_down db F i :
  down db -> failed (DimensionNavigator.run db F i).
Proof.
  intros Hdb. unfold DimensionNavigator.run. cbv zeta.
  destruct (_ || _); [apply raise_failed, drill_down_down, Hdb|].
  destruct (_ || _); [apply raise_failed, roll_up_down, Hdb|].
  destruct (String.eqb _ _); [apply raise_failed, group_by_down, Hdb|].
  cbn. eexists. eexists. eexists. reflexivity.
Qed.

Lemma cube_down db F pivot_table i :
  down db -> failed (CubeOperations.run db F pivot_table i).
Proof.
  intros Hdb. unfold CubeOperations.run. cbv zeta.
  destruct (String.eqb _ _); [apply raise_failed, slice_down, Hdb|].
  destruct (String.eqb _ _); [apply raise_failed, dice_down, Hdb|].
  destruct (String.eqb _ _); [apply raise_failed, pivot_down, Hdb|].
  destruct (String.eqb _ _); [apply raise_failed, drill_through_down, Hdb|].
  cbn. eexists. eexists. eexists. reflexivity.
Qed.

Lemma kpi_down db F i :
  down db -> exists e, KPICalculator.run db F i = Raise e.
Proof.
  intros Hdb. unfold KPICalculator.run. cbv zeta.
  destruct (List.find _ _) as [[k h]|] eqn:E;
    [|apply overall_summary_down, Hdb].
  apply find_some in E. destruct E as [Hin _]. cbn [snd].
  unfold KPICalculator.dispatch in Hin. cbn [In] in Hin.
  repeat (destruct Hin as [Hin|Hin];
          [inversion Hin; subst;
           first [apply yoy_growth_down, Hdb | apply mom_change_down, Hdb
                 | apply compare_periods_down, Hdb | apply top_n_down, Hdb
                 | apply profit_margins_down, Hdb
                 | apply overall_summary_down, Hdb]|]).
  contradiction.
Qed.

Lemma anomaly_down db F i :
  down db -> exists e, AnomalyDetection.run db F i = Raise e.
Proof.
  intros Hdb. unfold AnomalyDetection.run. cbv zeta.
  destruct (_ || _); [apply monthly_anomaly_down, Hdb|].
  destruct (_ || _);
    [apply product_anomaly_down, Hdb|apply monthly_anomaly_down, Hdb].
Qed.

Lemma failed_output_is_recorded (r : result AgentOutput) (a op : string) :
  failed r ->
  let o := match r with
           | Ok o => o
           | Raise e => error_output a op "" (exn_text e)
           end in
  out_error o <> None /\ out_data o = None
  /\ Orchestrator.in_narrative o = false.
Proof.
  intros Hf. destruct r as [o|e]; cbv zeta.
  - destruct Hf as (a' & op' & msg & ->). repeat split. discriminate.
  - repeat split. discriminate.
Qed.

(** X13.  A storage outage is never reported as a success.  When every
    query fails, every request to the dimension navigator, the cube
    operations agent, the KPI calculator and the anomaly agent fails,
    whatever the operation and the parameters: the KPI and the anomaly
    agent raise, the other two raise or answer an unknown operation with
    its error.  Under the orchestrator each plan step for one of these
    agents is then recorded with [success = false], without rows and
    without a line in the narrative. *)
Theorem storage_outage_is_never_a_success :
  forall (db : Storage) (F : Formatter) (pivot_table : table -> table),
    down db ->
    (forall i,
        failed (DimensionNavigator.run db F i)
        /\ failed (CubeOperations.run db F pivot_table i)
        /\ (exists e, KPICalculator.run db F i = Raise e)
        /\ (exists e, AnomalyDetection.run db F i = Raise e))
    /\ forall R visualization q s,
         In (Orchestrator.agent s) storage_agents ->
         exists o,
           ExecutorSpec.step_result
             (Orchestrator._agents db F pivot_table R visualization) q s
           = [(o, ExecutorSpec.entry_of s o)]
           /\ Orchestrator.success (ExecutorSpec.entry_of s o) = false
           /\ Orchestrator.row_count (ExecutorSpec.entry_of s o) = 0%nat
           /\ Orchestrator.in_narrative o = false.
Proof.
  intros db F pivot_table Hdb. split.
  { intros i. split; [apply navigator_down, Hdb|].
    split; [apply cube_down, Hdb|].
    split; [apply kpi_down, Hdb|apply anomaly_down, Hdb]. }
  intros R visualization q s Hs.
  assert (Hrun : exists run,
             ExecutorSpec.resolve
               (Orchestrator._agents db F pivot_table R visualization)
               (Orchestrator.agent s) = Some run
             /\ forall i, failed (run i)).
  { cbn [storage_agents In] in Hs.
    destruct Hs as [H|[H|[H|[H|[]]]]]; rewrite <- H;
      eexists; (split; [reflexivity|]); intros i.
    - apply navigator_down, Hdb.
    - apply cube_down, Hdb.
    - apply raise_failed, kpi_down, Hdb.
    - apply raise_failed, anomaly_down, Hdb. }
  destruct Hrun as (run & Hres & Hfail).
  unfold ExecutorSpec.step_result. rewrite Hres. cbv zeta.
  destruct (failed_output_is_recorded
              (run (ExecutorSpec.input_of q s))
              (Orchestrator.agent s) (Orchestrator.operation s)
              (Hfail _)) as (He & Hd & Hn).
  eexists. split; [reflexivity|].
  unfold ExecutorSpec.entry_of. cbn [Orchestrator.success Orchestrator.row_count].
  rewrite Hd. split; [|split; [reflexivity|exact Hn]].
  destruct (out_error _); [reflexivity|contradiction].
Qed.

(** X13, worked example: top-N while the database file cannot be
    opened. *)
Lemma top_n_during_an_outage :
  down storage_down
  /\ exists e,
       KPICalculator.run storage_down Examples.plain
         (mkInput "top_n" [("n", VInt 3)] "") = Raise e.
Proof.
  assert (Hdb : down storage_down)
    by (intros q ps; eexists; reflexivity).
  split; [exact Hdb|].
  destruct (storage_outage_is_never_a_success storage_down Examples.plain
              (fun t => t) Hdb) as [H _].
  destruct (H (mkInput "top_n" [("n", VInt 3)] "")) as (_ & _ & Hk & _).
  exact Hk.
Defined.

End OutageProofs.

Module ReportProofs.

Import Frame ReportBuilders ReportSpec.

Ltac bound H :=
  match type of H with
  | bind ?r _ = Ok _ =>
      let E := fresh "E" in
      destruct r eqn:E; cbn [bind] in H; [|discriminate H]
  end.

Lemma first_cell_rows (col : string) (df : table) (v : value) :
  first_cell col df = Ok v ->
  exists r, hd_error df = Some r /\ dict_get col r = Some v.
Proof.
  unfold first_cell, iloc. destruct df as [|r df]; [discriminate|].
  cbn [nth_error bind]. unfold row_get.
  destruct (dict_get col r) as [w|] eqn:E; [|discriminate].
  intros H. inversion H. subst. exists r. split; [reflexivity|exact E].
Qed.

Lemma first_or_na_rows (col : string) (r : row) (df : table) (v w : value) :
  hd_error df = Some r -> dict_get "rev" r = Some w ->
  first_or_na col df = Ok v -> dict_get col r = Some v.
Proof.
  intros Hhd Hrev. destruct df as [|r' df]; [discriminate|].
  inversion Hhd. subst r'. unfold first_or_na, df_empty, columns.
  destruct r as [|[c x] r]; [discriminate Hrev|].
  cbn [map]. unfold iloc. cbn [nth_error bind]. unfold row_get.
  destruct (dict_get col _) as [y|]; [|discriminate].
  intros H. inversion H. reflexivity.
Qed.

(** What a summary that was returned had to read. *)
Lemma executive_summary_reads db F RF params ctx o :
  _executive_summary db F RF params ctx = Ok o ->
  let where_ := year_where F (get_default "year" VNone params) in
  exists region_row region_rest category_row category_rest region category,
    db (sql_region where_) [] = Ok (region_row :: region_rest)
    /\ db (sql_cat where_) [] = Ok (category_row :: category_rest)
    /\ dict_get "region" region_row = Some region
    /\ dict_get "category" category_row = Some category
    /\ (exists data, out_data o = Some data
          /\ nth_error data 5 = Some (metric_row "Top Region" region)
          /\ nth_error data 6 = Some (metric_row "Top Category" category)
          /\ List.length data = 7%nat)
    /\ out_sql o = strip (sql_topline where_).
Proof.
  unfold _executive_summary. cbv zeta. intros H.
  bound H. bound H. bound H. bound H. bound H. bound H. bound H. bound H.
  bound H. bound H. bound H. bound H. bound H. bound H. bound H. bound H.
  bound H. bound H. bound H. bound H. bound H.
  inversion H. subst o. clear H. cbn [out_data out_sql].
  match goal with
  | Hr : first_cell "rev" ?tr = Ok _, Hc : first_cell "rev" ?tc = Ok _,
    Hrn : first_or_na "region" ?tr = Ok ?region,
    Hcn : first_or_na "category" ?tc = Ok ?category |- _ =>
      destruct (first_cell_rows _ _ _ Hr) as (rr & Hrr & Hrrev);
      destruct (first_cell_rows _ _ _ Hc) as (cr & Hcr & Hcrev);
      assert (Hreg := first_or_na_rows _ _ _ _ _ Hrr Hrrev Hrn);
      assert (Hcat := first_or_na_rows _ _ _ _ _ Hcr Hcrev Hcn);
      destruct tr as [|rr' region_rest]; [discriminate Hrr|];
      destruct tc as [|cr' category_rest]; [discriminate Hcr|];
      inversion Hrr; inversion Hcr; subst rr' cr';
      exists rr, region_rest, cr, category_rest, region, category
  end.
  split; [reflexivity|]. split; [reflexivity|].
  split; [exact Hreg|]. split; [exact Hcat|].
  split; [|reflexivity].
  eexists. split; [reflexivity|]. repeat split.
Qed.

(** X14.  The executive summary cannot report [N/A].  An output it
    returns was built from a region query and a category query that both
    had a first row, and its "Top Region" and "Top Category" entries are
    the region and the category of those rows; when either query returns
    no rows the request raises, so the placeholder the source provides
    for that case is never shown. *)
Theorem executive_summary_never_reports_na :
  forall (db : Storage) (F : Formatter) (RF : ReportFormatter)
         (params : dict) (ctx : string),
    let where_ := year_where F (get_default "year" VNone params) in
    (forall o,
        _executive_summary db F RF params ctx = Ok o ->
        exists region_row region_rest category_row category_rest
               region category,
          db (sql_region where_) [] = Ok (region_row :: region_rest)
          /\ db (sql_cat where_) [] = Ok (category_row :: category_rest)
          /\ dict_get "region" region_row = Some region
          /\ dict_get "category" category_row = Some category
          /\ exists data,
               out_data o = Some data
               /\ nth_error data 5 = Some (metric_row "Top Region" region)
               /\ nth_error data 6
                  = Some (metric_row "Top Category" category)
               /\ List.length data = 7%nat)
    /\ (db (sql_region where_) [] = Ok []
        \/ db (sql_cat where_) [] = Ok [] ->
        exists e, _executive_summary db F RF params ctx = Raise e).
Proof.
  intros db F RF params ctx where_.
  assert (Hreads : forall o,
             _executive_summary db F RF params ctx = Ok o ->
             exists region_row region_rest category_row category_rest
                    region category,
               db (sql_region where_) [] = Ok (region_row :: region_rest)
               /\ db (sql_cat where_) [] = Ok (category_row :: category_rest)
               /\ dict_get "region" region_row = Some region
               /\ dict_get "category" category_row = Some category
               /\ exists data,
                    out_data o = Some data
                    /\ nth_error data 5
                       = Some (metric_row "Top Region" region)
                    /\ nth_error data 6
                       = Some (metric_row "Top Category" category)
                    /\ List.length data = 7%nat).
  { intros o Ho.
    destruct (executive_summary_reads db F RF params ctx o Ho)
      as (rr & rt & cr & ct & region & category & H1 & H2 & H3 & H4 & H5 & _).
    exists rr, rt, cr, ct, region, category. tauto. }
  split; [exact Hreads|].
  intros Hempty.
  destruct (_executive_summary db F RF params ctx) as [o|e] eqn:E;
    [|eexists; reflexivity].
  exfalso.
  destruct (Hreads o eq_refl)
    as (rr & rt & cr & ct & region & category & H1 & H2 & _).
  destruct Hempty as [H|H]; congruence.
Qed.

(** X14, worked example: a summary over storage with a best region and
    a best category. *)
Lemma summary_of_two_years :
  exists o data,
    _executive_summary summary_db Examples.plain plain_report [] "" = Ok o
    /\ out_data o = Some data
    /\ nth_error data 5 = Some (metric_row "Top Region" (VStr "Europe"))
    /\ nth_error data 6
       = Some (metric_row "Top Category" (VStr "Furniture")).
Proof.
  assert (Ho : exists o,
             _executive_summary summary_db Examples.plain plain_report [] ""
             = Ok o)
    by (vm_compute; eexists; reflexivity).
  destruct Ho as [o Ho].
  destruct (executive_summary_never_reports_na summary_db Examples.plain
              plain_report [] "") as [H _].
  destruct (H o Ho)
    as (rr & rt & cr & ct & region & category & H1 & H2 & H3 & H4
        & data & Hd & H5 & H6 & _).
  exists o, data. split; [exact Ho|]. split; [exact Hd|].
  vm_compute in H1. vm_compute in H2.
  inversion H1. inversion H2. subst rr cr.
  vm_compute in H3. vm_compute in H4. inversion H3. inversion H4. subst.
  split; [exact H5|exact H6].
Defined.

Lemma contains_at_start (sub post : string) :
  contains sub (sub ++ post) = true.
Proof.
  apply PlannerProofs.contains_iff. exists "", post. reflexivity.
Qed.

Lemma contains_after (pre sub s : string) :
  contains sub s = true -> contains sub (pre ++ s) = true.
Proof.
  intros H. apply PlannerProofs.contains_iff in H.
  destruct H as (a & b & ->). apply PlannerProofs.contains_iff.
  exists (pre ++ a), b. rewrite PlannerProofs.append_assoc. reflexivity.
Qed.

Ltac find_clause :=
  repeat first [apply contains_at_start | apply contains_after].

(** X15.  The report builders put the [year] parameter into the query
    text instead of binding it.  A non-empty text given as the year is,
    as it is, the right-hand side of the [WHERE d.year = ] clause of
    the three queries of the executive summary and of the trend query,
    and the query a summary reports is that text; no placeholder is
    involved. *)
Theorem report_year_is_spliced_into_sql :
  forall (F : Formatter) (s : string),
    s <> "" ->
    let clause := "WHERE d.year = " ++ s in
    year_where F (VStr s) = clause
    /\ contains clause (sql_topline (year_where F (VStr s))) = true
    /\ contains clause (sql_region (year_where F (VStr s))) = true
    /\ contains clause (sql_cat (year_where F (VStr s))) = true
    /\ BindSpec.question_marks (sql_topline "") = 0%nat
    /\ (forall db RF params ctx o,
          dict_get "year" params = Some (VStr s) ->
          _executive_summary db F RF params ctx = Ok o ->
          out_sql o = strip (sql_topline clause))
    /\ (forall params,
          dict_get "year" params = Some (VStr s) ->
          dict_get "dimension" params = None ->
          exists sql, trend_request F params = Ok sql
                      /\ contains clause sql = true).
Proof.
  intros F s Hs clause.
  assert (Hw : year_where F (VStr s) = clause).
  { unfold year_where, truthy. apply String.eqb_neq in Hs. rewrite Hs.
    reflexivity. }
  split; [exact Hw|]. rewrite Hw.
  split; [unfold sql_topline; find_clause|].
  split; [unfold sql_region; find_clause|].
  split; [unfold sql_cat; find_clause|].
  split; [reflexivity|].
  split.
  - intros db RF params ctx o Hy Ho.
    destruct (executive_summary_reads db F RF params ctx o Ho)
      as (rr & rt & cr & ct & region & category & _ & _ & _ & _ & _ & Hsql).
    rewrite Hsql. unfold get_default. rewrite Hy, Hw. reflexivity.
  - intros params Hy Hd. unfold trend_request, get_default.
    rewrite Hy, Hd. cbn [lookup_value bind fmt]. eexists.
    split; [reflexivity|]. cbv zeta.
    match goal with
    | |- contains _ (_ ++ _ ++ _ ++ _ ++ ?Q ++ _ ++ _) = true =>
        replace Q
          with (String.substring 0 (String.length Q - 15) Q
                ++ "WHERE d.year = ") by reflexivity
    end.
    rewrite (PlannerProofs.append_assoc _ "WHERE d.year = ").
    rewrite <- (PlannerProofs.append_assoc "WHERE d.year = " s).
    fold clause. find_clause.
Qed.

(** X15, worked example: a condition given as the year. *)
Lemma a_condition_given_as_year :
  any_year <> ""
  /\ year_where Examples.plain (VStr any_year) = "WHERE d.year = 2024 OR 1=1"
  /\ contains "WHERE d.year = 2024 OR 1=1"
       (sql_topline (year_where Examples.plain (VStr any_year))) = true.
Proof.
  assert (H : any_year <> "") by discriminate.
  split; [exact H|].
  destruct (report_year_is_spliced_into_sql Examples.plain any_year H)
    as (H1 & H2 & _).
  split; [exact H1|exact H2].
Defined.

End ReportProofs.

Module EmptyAggregateProofs.

Import EdgeSpec NavigatorSpec BuilderSpec.

Lemma column_sum_no_rows (col : string) :
  column_sum col [] = Raise (mkExn "KeyError" ("'" ++ col ++ "'")).
Proof. reflexivity. Qed.

Lemma roll_up_no_rows db F hname to_level fs ctx :
  answers db [] ->
  DimensionNavigator._roll_up db F (nav_params hname to_level fs) ctx
  = Raise (mkExn "KeyError" "'total_revenue'").
Proof.
  intros Hdb. unfold DimensionNavigator._roll_up.
  assert (Hrq : exists rq,
             DimensionNavigator.roll_up_request (nav_params hname to_level fs)
             = Ok rq).
  { unfold DimensionNavigator.roll_up_request, nav_params.
    replace (get_default "hierarchy" _ _) with (VStr hname) by reflexivity.
    unfold DimensionNavigator.get_hierarchy. cbn [lookup_value bind].
    replace (get_default "filters" _ _) with (VDict fs) by reflexivity.
    rewrite NavigatorProofs.build_filter_clause_dict. cbn [bind].
    destruct (DimensionNavigator._base_query _ _ _). eexists; reflexivity. }
  destruct Hrq as [rq ->]. cbn [bind]. rewrite Hdb. reflexivity.
Qed.

Lemma group_by_no_rows db F dims fs ctx :
  answers db [] ->
  DimensionNavigator._group_by db F (group_params dims fs) ctx
  = Raise (mkExn "KeyError" "'total_revenue'").
Proof.
  intros Hdb. unfold DimensionNavigator._group_by.
  rewrite BuilderProofs.group_request_eq. cbn [bind snd].
  destruct (DimensionNavigator._base_query _ _ _) as [sql ps].
  rewrite Hdb. cbn [bind].
  replace (get_default "dimensions" _ (group_params dims fs))
    with (VList (map VStr dims)) by reflexivity.
  rewrite BuilderProofs.join_values_strings. reflexivity.
Qed.

Lemma slice_no_rows db F dims fs ctx :
  answers db [] ->
  CubeOperations._slice db F (cube_params "filter" dims fs) ctx
  = Raise (mkExn "KeyError" "'total_revenue'").
Proof.
  intros Hdb. unfold CubeOperations._slice.
  rewrite BuilderProofs.grouped_request_eq by discriminate.
  cbn [bind snd]. rewrite Hdb. cbn [bind].
  replace (get_default "filter" _ _) with (VDict fs) by reflexivity.
  reflexivity.
Qed.

Lemma drill_through_no_rows db F params ctx :
  answers db [] -> well_formed params ->
  zero_rows (CubeOperations._drill_through db F params ctx).
Proof.
  intros Hdb Hw. unfold CubeOperations._drill_through, zero_rows.
  destruct (EdgeFacts.filters_are_dict params Hw) as [fs ->].
  rewrite BuilderProofs.cube_build_where_dict. cbn [bind]. rewrite Hdb.
  cbn [bind CubeOperations.filter_desc items].
  eexists. repeat split.
Qed.

Lemma pivot_no_rows db F pivot_table fs ctx :
  answers db [] ->
  zero_rows (CubeOperations._pivot db F pivot_table [("filters", VDict fs)]
               ctx).
Proof.
  intros Hdb. unfold CubeOperations._pivot, zero_rows.
  replace (get_default "filters" _ _) with (VDict fs) by reflexivity.
  rewrite BuilderProofs.cube_build_where_dict.
  cbn [get_default dict_get String.eqb Ascii.eqb Bool.eqb
       CubeOperations.pivot_col CubeOperations.group_col lookup_value bind].
  rewrite Hdb. cbn [bind df_empty columns].
  eexists. repeat split.
Qed.

(** X16.  Aggregating operations over a result without rows.  Roll-up,
    group-by and slice sum the revenue column before looking whether
    there are rows, and a result without rows has no columns: over
    storage that has no rows they raise [KeyError] for every hierarchy,
    level, list of dimensions and filter set.  Pivot and drill-through
    do not aggregate and succeed with zero rows (as drill-down and dice
    do). *)
Theorem aggregates_raise_over_empty_storage :
  forall (db : Storage) (F : Formatter) (ctx : string) (fs : dict),
    answers db [] ->
    (forall hname to_level,
        DimensionNavigator._roll_up db F (nav_params hname to_level fs) ctx
        = Raise (mkExn "KeyError" "'total_revenue'"))
    /\ (forall dims,
          DimensionNavigator._group_by db F (group_params dims fs) ctx
          = Raise (mkExn "KeyError" "'total_revenue'"))
    /\ (forall dims,
          CubeOperations._slice db F (cube_params "filter" dims fs) ctx
          = Raise (mkExn "KeyError" "'total_revenue'"))
    /\ (forall pivot_table,
          zero_rows (CubeOperations._pivot db F pivot_table
                       [("filters", VDict fs)] ctx))
    /\ zero_rows (CubeOperations._drill_through db F
                    [("filters", VDict fs)] ctx).
Proof.
  intros db F ctx fs Hdb.
  split; [intros; apply roll_up_no_rows; exact Hdb|].
  split; [intros; apply group_by_no_rows; exact Hdb|].
  split; [intros; apply slice_no_rows; exact Hdb|].
  split; [intros; apply pivot_no_rows; exact Hdb|].
  apply drill_through_no_rows; [exact Hdb|].
  split; intros v H; cbn in H; inversion H; subst.
  eexists. reflexivity.
Qed.

(** X16, worked example: roll-up to the year level for a year without
    sales. *)
Lemma roll_up_of_a_year_without_sales :
  DimensionNavigator._roll_up Examples.empty_db Examples.plain
    (nav_params "time" (VStr "year") [("year", VInt 1999)]) ""
  = Raise (mkExn "KeyError" "'total_revenue'").
Proof.
  destruct (aggregates_raise_over_empty_storage Examples.empty_db
              Examples.plain "" [("year", VInt 1999)]
              (fun _ _ => eq_refl)) as [H _].
  apply H.
Defined.

End EmptyAggregateProofs.

Module VisualizationProofs.

Import Visualization.

Lemma chart_rule_is_drawn (op chart : string) :
  option_map snd (List.find (fun kv => String.eqb (fst kv) op) CHART_RULES)
  = Some chart ->
  drawn chart = true.
Proof.
  unfold CHART_RULES. cbn [List.find fst].
  repeat match goal with
         | |- option_map _ (if ?c then _ else _) = _ -> _ => destruct c
         end;
    cbn [option_map snd]; intros H; inversion H; reflexivity.
Qed.

(** X17.  The chart recommendation always names a chart that can be
    drawn.  For every operation name and every table, empty or not, a
    recommendation that is returned is one of the five chart types the
    configuration builder has a branch for, so a non-empty table is never
    given an empty plot; an operation with a rule gets the chart of its
    rule whatever the table looks like, and an empty or missing table
    gets a bar chart.  Only an operation that cannot key a dict makes
    the recommendation raise. *)
Theorem recommended_chart_is_drawn :
  forall (operation : value) (data : option Shape),
    (forall chart, _recommend_chart operation data = Ok chart ->
                   drawn chart = true)
    /\ (EdgeSpec.hashable operation = true ->
        exists chart, _recommend_chart operation data = Ok chart)
    /\ (forall op chart shape,
          In (op, chart) CHART_RULES -> is_empty shape = false ->
          _recommend_chart (VStr op) (Some shape) = Ok chart)
    /\ (forall shape, is_empty shape = true ->
          _recommend_chart operation (Some shape) = Ok "bar")
    /\ _recommend_chart operation None = Ok "bar".
Proof.
  intros operation data. split; [|split; [|split; [|split]]].
  - intros chart. unfold _recommend_chart.
    destruct data as [shape|]; [|intros H; inversion H; reflexivity].
    destruct (is_empty shape); [intros H; inversion H; reflexivity|].
    destruct operation; cbn [lookup_value bind]; try discriminate;
      try (repeat match goal with
                  | |- (if ?c then _ else _) = _ -> _ => destruct c
                  end; intros H; inversion H; reflexivity).
    destruct (option_map snd _) as [c|] eqn:E.
    + intros H. inversion H. subst c. apply (chart_rule_is_drawn s). exact E.
    + repeat match goal with
             | |- (if ?c then _ else _) = _ -> _ => destruct c
             end; intros H; inversion H; reflexivity.
  - intros Hh. unfold _recommend_chart.
    destruct data as [shape|]; [|eexists; reflexivity].
    destruct (is_empty shape); [eexists; reflexivity|].
    destruct (EdgeFacts.lookup_hashable CHART_RULES operation Hh) as [o ->].
    cbn [bind]. destruct o; [eexists; reflexivity|].
    repeat match goal with
           | |- exists _, (if ?c then _ else _) = _ => destruct c
           end; eexists; reflexivity.
  - intros op chart shape Hin He. unfold _recommend_chart. rewrite He.
    unfold CHART_RULES in Hin. cbn [In] in Hin.
    repeat (destruct Hin as [Hin|Hin]; [inversion Hin; reflexivity|]).
    contradiction.
  - intros shape He. unfold _recommend_chart. rewrite He. reflexivity.
  - reflexivity.
Qed.

(** X17, worked example: 36 rows with one numeric column and an
    operation without a rule. *)
Lemma chart_for_a_long_series :
  _recommend_chart (VStr "monthly") (Some (mkShape false 36 1)) = Ok "line"
  /\ drawn "line" = true.
Proof.
  split; [reflexivity|].
  destruct (recommended_chart_is_drawn (VStr "monthly")
              (Some (mkShape false 36 1))) as [H _].
  apply H. reflexivity.
Defined.

End VisualizationProofs.

Module JoinProofs.

Import Frame EmptyComparisonSpec JoinSpec KPICalculator.

Lemma mapM_preserves {A C} (f : A -> result A) (key : A -> C) (l : list A) :
  (forall a b, f a = Ok b -> key b = key a) ->
  forall l', mapM f l = Ok l' -> map key l' = map key l.
Proof.
  intros Hk. induction l as [|a l IH]; intros l' H.
  - inversion H. reflexivity.
  - cbn [mapM] in H. destruct (f a) as [b|e] eqn:E; cbn [bind] in H;
      [|discriminate].
    destruct (mapM f l) as [bs|e]; cbn [bind] in H; [|discriminate].
    inversion H. cbn [map]. rewrite (Hk a b E), (IH bs eq_refl).
    reflexivity.
Qed.

Lemma change_cells_dimension rev_a rev_b r r' :
  change_cells rev_a rev_b r = Ok r' ->
  dict_get "dimension" r' = dict_get "dimension" r.
Proof.
  unfold change_cells.
  destruct (row_float rev_a r); cbn [bind]; [|discriminate].
  destruct (row_float rev_b r); cbn [bind]; [|discriminate].
  intros H. inversion H.
  rewrite !FrameFacts.dict_get_set_cell_other by discriminate. reflexivity.
Qed.

(** A column renamed with a suffix that starts with an underscore is not
    the dimension column. *)
Lemma suffixed_name (c label : string) : c ++ "_" ++ label <> "dimension".
Proof.
  intros H.
  assert (Hc : BindSpec.count_char "_" (c ++ "_" ++ label)
               = BindSpec.count_char "_" "dimension") by (rewrite H; reflexivity).
  rewrite !BindProofs.count_char_app in Hc.
  cbn in Hc. lia.
Qed.

Lemma suffixed_dimension (label : string) (other : list string) (r : row) :
  dict_get "dimension" (suffixed "dimension" ("_" ++ label) other r)
  = dict_get "dimension" r.
Proof.
  unfold suffixed. induction r as [|[c v] r IH]; [reflexivity|].
  cbn [map fst snd].
  destruct (negb (String.eqb c "dimension")
            && existsb (String.eqb c) other) eqn:E.
  - apply andb_true_iff in E. destruct E as [Hc _].
    apply negb_true_iff in Hc. cbn [dict_get].
    rewrite String.eqb_sym in Hc. rewrite Hc.
    assert (Hs : String.eqb "dimension" (c ++ "_" ++ label) = false).
    { apply String.eqb_neq. intros H. apply (suffixed_name c label).
      symmetry. exact H. }
    rewrite Hs. exact IH.
  - cbn [dict_get]. rewrite IH. reflexivity.
Qed.

Lemma dict_get_app_found (k : string) (l r : row) (v : value) :
  dict_get k l = Some v -> dict_get k (l ++ r)%list = Some v.
Proof.
  induction l as [|[c w] l IH]; [discriminate|].
  cbn [app dict_get]. destruct (String.eqb k c); [auto|exact IH].
Qed.

Lemma joined_pairs {A} (f : row -> row -> A) (df_b : table) :
  forall df_a : table,
    flat_map
      (fun ra =>
         flat_map
           (fun rb =>
              match dict_get "dimension" ra, dict_get "dimension" rb with
              | Some ka, Some kb => if key_eqb ka kb then [f ra rb] else []
              | _, _ => []
              end) df_b) df_a
    = map (fun p => f (fst p) (snd p)) (matching_pairs df_a df_b).
Proof.
  assert (Hrow : forall ra (l : table),
             flat_map
               (fun rb =>
                  match dict_get "dimension" ra, dict_get "dimension" rb with
                  | Some ka, Some kb => if key_eqb ka kb then [f ra rb] else []
                  | _, _ => []
                  end) l
             = map (fun p => f (fst p) (snd p))
                   (List.filter (fun p => matches (fst p) (snd p))
                                (map (fun y => (ra, y)) l))).
  { intros ra l. induction l as [|rb l IH]; [reflexivity|].
    cbn [flat_map map List.filter fst snd]. rewrite IH. unfold matches at 2.
    destruct (dict_get "dimension" ra) as [ka|];
      [|reflexivity].
    destruct (dict_get "dimension" rb) as [kb|]; [|reflexivity].
    destruct (key_eqb ka kb); reflexivity. }
  induction df_a as [|ra df_a IH]; [reflexivity|].
  unfold matching_pairs in *. cbn [flat_map list_prod].
  rewrite filter_app, map_app, <- IH, Hrow. reflexivity.
Qed.

Lemma merge_dimensions label_a label_b df_a df_b header joined :
  merge "dimension" ("_" ++ label_a) ("_" ++ label_b) df_a df_b
  = Ok (header, joined) ->
  map (dict_get "dimension") joined
  = map (fun p => dict_get "dimension" (fst p)) (matching_pairs df_a df_b).
Proof.
  unfold merge.
  destruct (negb (has_column "dimension" df_a)
            || negb (has_column "dimension" df_b)); [discriminate|].
  cbv zeta.
  destruct (_ && String.eqb _ _); [discriminate|].
  intros H. inversion H. subst joined. clear H.
  rewrite (joined_pairs
             (fun ra rb =>
                (suffixed "dimension" ("_" ++ label_a) (columns df_b) ra
                 ++ without "dimension"
                      (suffixed "dimension" ("_" ++ label_b) (columns df_a)
                                rb))%list)).
  rewrite map_map. unfold matching_pairs.
  apply map_ext_in. intros [ra rb] Hin. cbn [fst snd].
  apply filter_In in Hin. destruct Hin as [_ Hm]. cbn [fst snd] in Hm.
  unfold matches in Hm.
  destruct (dict_get "dimension" ra) as [ka|] eqn:Ea; [|discriminate].
  apply dict_get_app_found. rewrite suffixed_dimension. exact Ea.
Qed.

(** X18.  The grouped period comparison is an inner join of the two
    periods on the dimension.  When a grouping is requested and the first
    period has rows, a comparison that is returned has exactly one row
    for each pair of rows of the two periods with the same dimension
    value, in the order of the first period: a row of either period
    whose dimension value has no row in the other period is not in the
    comparison at all. *)
Theorem grouped_comparison_is_an_inner_join :
  forall (db : Storage) (F : Formatter) (params : dict) (ctx : string)
         (label_a label_b sql_a sql_b : string) (df_a df_b : table)
         (o : AgentOutput),
    period_label F (period_a params) = Ok label_a ->
    period_label F (period_b params) = Ok label_b ->
    get_period_data db (group_by params) (period_a params) label_a
    = Ok (df_a, sql_a) ->
    get_period_data db (group_by params) (period_b params) label_b
    = Ok (df_b, sql_b) ->
    truthy (group_by params) = true ->
    has_column "dimension" df_a = true ->
    _compare_periods db F params ctx = Ok o ->
    exists data,
      out_data o = Some data
      /\ map (dict_get "dimension") data
         = map (fun p => dict_get "dimension" (fst p))
               (matching_pairs df_a df_b)
      /\ List.length data = List.length (matching_pairs df_a df_b)
      /\ (forall ra, In ra df_a ->
            (forall rb, In rb df_b -> matches ra rb = false) ->
            forall p, In p (matching_pairs df_a df_b) -> fst p <> ra)
      /\ (forall rb, In rb df_b ->
            (forall ra, In ra df_a -> matches ra rb = false) ->
            forall p, In p (matching_pairs df_a df_b) -> snd p <> rb).
Proof.
  intros db F params ctx label_a label_b sql_a sql_b df_a df_b o
         Hla Hlb Ha Hb Hg Hcol.
  unfold period_a in Hla, Ha. unfold period_b in Hlb, Hb.
  unfold group_by in Ha, Hb, Hg.
  unfold _compare_periods. rewrite Hla. cbn [bind]. rewrite Hlb. cbn [bind].
  rewrite Ha. cbn [bind]. rewrite Hb. cbn [bind fst snd].
  rewrite Hg, Hcol. cbn [andb].
  destruct (merge _ _ _ df_a df_b) as [[header joined]|e] eqn:Em;
    cbn [bind]; [|discriminate].
  cbn [fst snd].
  destruct (negb (existsb _ header)); cbn [bind]; [discriminate|].
  destruct (negb (existsb _ header)); cbn [bind]; [discriminate|].
  destruct (mapM _ joined) as [data|e] eqn:Ed; cbn [bind]; [|discriminate].
  intros H. inversion H. subst o. clear H. cbn [out_data].
  assert (Hdims : map (dict_get "dimension") data
                  = map (fun p => dict_get "dimension" (fst p))
                        (matching_pairs df_a df_b)).
  { rewrite <- (merge_dimensions _ _ _ _ _ _ Em).
    apply (mapM_preserves _ (dict_get "dimension") joined
             (fun a b => change_cells_dimension _ _ a b) data Ed). }
  exists data. split; [reflexivity|]. split; [exact Hdims|]. split.
  - assert (Hl := f_equal (@List.length _) Hdims).
    rewrite !length_map in Hl. exact Hl.
  - split.
    + intros ra Hra Hnone [pa pb] Hp Heq. cbn [fst] in Heq. subst pa.
      unfold matching_pairs in Hp. apply filter_In in Hp.
      destruct Hp as [Hin Hm]. cbn [fst snd] in Hm.
      apply in_prod_iff in Hin. destruct Hin as [_ Hinb].
      rewrite (Hnone pb Hinb) in Hm. discriminate.
    + intros rb Hrb Hnone [pa pb] Hp Heq. cbn [snd] in Heq. subst pb.
      unfold matching_pairs in Hp. apply filter_In in Hp.
      destruct Hp as [Hin Hm]. cbn [fst snd] in Hm.
      apply in_prod_iff in Hin. destruct Hin as [Hina _].
      rewrite (Hnone pa Hina) in Hm. discriminate.
Qed.

(** X18, worked example: Asia sold in 2023 only and is not in the
    comparison with 2024. *)
Lemma asia_is_not_compared :
  exists o data,
    _compare_periods asia_left_db Examples.plain by_region "" = Ok o
    /\ out_data o = Some data
    /\ map (dict_get "dimension") data = [Some (VStr "Europe")].
Proof.
  assert (Ho : exists o,
             _compare_periods asia_left_db Examples.plain by_region "" = Ok o)
    by (vm_compute; eexists; reflexivity).
  destruct Ho as [o Ho].
  assert (Ha : exists sql,
             get_period_data asia_left_db (group_by by_region)
               (period_a by_region) "year2023"
             = Ok ([[ ("dimension", VStr "Europe");
                      ("revenue", VFloat (Fin 100));
                      ("period", VStr "year2023") ];
                    [ ("dimension", VStr "Asia");
                      ("revenue", VFloat (Fin 40));
                      ("period", VStr "year2023") ]], sql))
    by (vm_compute; eexists; reflexivity).
  assert (Hb : exists sql,
             get_period_data asia_left_db (group_by by_region)
               (period_b by_region) "year2024"
             = Ok ([[ ("dimension", VStr "Europe");
                      ("revenue", VFloat (Fin 150));
                      ("period", VStr "year2024") ]], sql))
    by (vm_compute; eexists; reflexivity).
  destruct Ha as [sql_a Ha]. destruct Hb as [sql_b Hb].
  destruct (grouped_comparison_is_an_inner_join asia_left_db Examples.plain
              by_region "" "year2023" "year2024" sql_a sql_b _ _ o
              eq_refl eq_refl Ha Hb eq_refl eq_refl Ho)
    as (data & Hd & Hdims & _).
  exists o, data. split; [exact Ho|]. split; [exact Hd|].
  rewrite Hdims. vm_compute. reflexivity.
Defined.

End JoinProofs.

Module SingleYearProofs.

Import EdgeSpec EdgeFacts SingleYearSpec Frame KPICalculator.

Lemma column_present (k : string) (r : row) (v : value) :
  dict_get k r = Some v -> existsb (String.eqb k) (map fst r) = true.
Proof.
  induction r as [|[c w] r IH]; [discriminate|].
  cbn [dict_get map fst existsb]. destruct (String.eqb k c); [reflexivity|].
  exact IH.
Qed.

Lemma column_absent (k : string) (r : row) :
  dict_get k r = None -> existsb (String.eqb k) (map fst r) = false.
Proof.
  induction r as [|[c w] r IH]; [reflexivity|].
  cbn [dict_get map fst existsb]. destruct (String.eqb k c); [discriminate|].
  exact IH.
Qed.

Lemma single_year_records (r : row) (year revenue : value) (x : float) :
  dict_get "year" r = Some year ->
  dict_get "total_revenue" r = Some revenue ->
  cell_float revenue = Ok x ->
  dict_get "dim_label" r = None ->
  yoy_records [r] = Ok [first_record year revenue].
Proof.
  intros Hy Hr Hx Hd. unfold yoy_records, columns.
  rewrite (column_absent _ _ Hd).
  unfold yoy_series, sort_values, column, columns.
  rewrite (column_present _ _ _ Hy). cbn [mapM]. unfold row_get at 1.
  rewrite Hy. cbn [bind combine sort_by fold_right insert_by map snd].
  cbn [yoy_loop Nat.ltb Nat.leb bind]. unfold row_float, row_get.
  rewrite Hr, Hy. cbn [bind]. rewrite Hx. cbn [bind growth_of growth_cell app].
  reflexivity.
Qed.

(** X19.  Year-over-year growth over a single year of data.  When the
    result is one row, the output is that year with no growth value, and
    the summary is the one character "." : the conditional of the
    summary line applies to the whole text, not to its last part. *)
Theorem single_year_growth_summary_is_a_dot :
  forall (db : Storage) (F : Formatter) (params : dict) (ctx : string)
         (r : row) (year revenue : value) (x : float),
    answers db [r] -> well_formed params ->
    truthy (get_default "dimension" VNone params) = false ->
    dict_get "year" r = Some year ->
    dict_get "total_revenue" r = Some revenue ->
    cell_float revenue = Ok x ->
    dict_get "dim_label" r = None ->
    exists o,
      _yoy_growth db F params ctx = Ok o
      /\ out_data o = Some [first_record year revenue]
      /\ out_summary o = "."
      /\ out_error o = None.
Proof.
  intros db F params ctx r year revenue x Hdb Hw Hdim Hy Hr Hx Hd.
  unfold _yoy_growth. rewrite Hdim.
  destruct (filters_are_dict params Hw) as [fs ->].
  destruct (kpi_build_where_dict fs) as [ws ->]. cbn [bind].
  rewrite Hdb. cbn [bind].
  assert (Hne : df_empty [r] = false).
  { unfold df_empty, columns. destruct r; [discriminate Hy|reflexivity]. }
  rewrite Hne, (single_year_records r year revenue x Hy Hr Hx Hd).
  cbn [bind]. eexists. repeat split.
Qed.

(** X19, worked example: revenue for 2024 only. *)
Lemma growth_of_the_only_year :
  exists o,
    _yoy_growth
      (fun _ _ => Ok [[("year", VInt 2024);
                       ("total_revenue", VFloat (Fin 100))]])
      Examples.plain [] "" = Ok o
    /\ out_summary o = ".".
Proof.
  assert (Hw : well_formed []) by (split; intros v H; discriminate H).
  destruct (single_year_growth_summary_is_a_dot
              (fun _ _ => Ok [[("year", VInt 2024);
                               ("total_revenue", VFloat (Fin 100))]])
              Examples.plain [] ""
              [("year", VInt 2024); ("total_revenue", VFloat (Fin 100))]
              (VInt 2024) (VFloat (Fin 100)) (Fin 100)
              (fun _ _ => eq_refl) Hw eq_refl eq_refl eq_refl eq_refl eq_refl)
    as (o & Ho & _ & Hs & _).
  exists o. split; [exact Ho|exact Hs].
Defined.

End SingleYearProofs.

Module PlannedNamesProofs.

Import Orchestrator PlanSpec PlannedNamesSpec.

Ltac rule :=
  match goal with
  | |- (if ?c then _ else _) = _ -> _ => destruct c eqn:?
  | |- (let '(_, _) := (if ?c then _ else _) in _) = _ -> _ => destruct c eqn:?
  end.

Ltac inner_choice :=
  repeat match goal with
         | |- context [if ?c then _ else _] => destruct c
         end.

(** X20.  Every name in a fallback plan is one its agent knows.  Whatever
    the question, the step the keyword rules select names a level of the
    hierarchy it names (drill-down), dimensions the agent's catalog maps
    to a column (group, slice, dice, pivot, top-N, growth, margins,
    comparison) and an additive measure (top-N, pivot): a planned step
    never takes an agent's fall-back for an unknown hierarchy, level or
    dimension. *)
Theorem planned_names_are_known :
  forall (q : string) (s : PlanStep),
    classify q = Some s -> names_known s = true.
Proof.
  intros q s. unfold classify. cbv zeta beta.
  repeat rule; intros H; inversion H; subst; clear H;
    try discriminate; inner_choice; reflexivity.
Qed.

(** X20, worked example: a drill-down into countries. *)
Lemma drill_into_countries_is_known :
  classify "drill down into countries"
  = Some (mkStep "DimensionNavigator" "drill_down"
            [ ("hierarchy", VStr "geography"); ("to_level", VStr "country");
              ("filters", VDict []) ])
  /\ names_known
       (mkStep "DimensionNavigator" "drill_down"
          [ ("hierarchy", VStr "geography"); ("to_level", VStr "country");
            ("filters", VDict []) ]) = true.
Proof.
  assert (H : classify "drill down into countries"
              = Some (mkStep "DimensionNavigator" "drill_down"
                        [ ("hierarchy", VStr "geography");
                          ("to_level", VStr "country");
                          ("filters", VDict []) ]))
    by reflexivity.
  split; [exact H|].
  apply (planned_names_are_known "drill down into countries"). exact H.
Defined.





End PlannedNamesProofs.

Module QuartileProofs.

Import Frame AnomalyDetection QuartileSpec.

Lemma sort_floats_finite (qs : list Q) :
  sort_floats (map Fin qs) = map Fin (sortQ qs).
Proof.
  unfold sort_floats, sortQ. induction qs as [|q qs IH]; [reflexivity|].
  cbn [map fold_right]. rewrite IH. clear IH.
  induction (fold_right insertQ [] qs) as [|y l IHl]; [reflexivity|].
  cbn [map insert_float insertQ float_leb].
  destruct (Qle_bool q y); [reflexivity|]. cbn [map]. rewrite IHl.
  reflexivity.
Qed.

Lemma insertQ_length (x : Q) (l : list Q) :
  List.length (insertQ x l) = S (List.length l).
Proof.
  induction l as [|y l IH]; [reflexivity|]. cbn [insertQ].
  destruct (Qle_bool x y); cbn [List.length]; [reflexivity|].
  rewrite IH. reflexivity.
Qed.

Lemma sortQ_length (l : list Q) : List.length (sortQ l) = List.length l.
Proof.
  induction l as [|x l IH]; [reflexivity|].
  unfold sortQ in *. cbn [fold_right]. rewrite insertQ_length, IH.
  reflexivity.
Qed.

Lemma Qle_bool_false (x y : Q) : Qle_bool x y = false -> y <= x.
Proof.
  intros H. apply Qlt_le_weak. apply Qnot_le_lt. intros Hle.
  apply Qle_bool_iff in Hle. congruence.
Qed.

Lemma insertQ_ascending (x : Q) (l : list Q) :
  ascending l -> ascending (insertQ x l).
Proof.
  intros Hl. induction Hl as [|y|y z l Hyz Hl IH].
  - constructor.
  - cbn [insertQ]. destruct (Qle_bool x y) eqn:E.
    + constructor; [apply Qle_bool_iff; exact E|constructor].
    + constructor; [apply Qle_bool_false; exact E|constructor].
  - cbn [insertQ]. destruct (Qle_bool x y) eqn:E.
    + constructor; [apply Qle_bool_iff; exact E|].
      constructor; assumption.
    + cbn [insertQ] in IH. destruct (Qle_bool x z) eqn:E'.
      * constructor; [apply Qle_bool_false; exact E|exact IH].
      * constructor; [exact Hyz|exact IH].
Qed.

Lemma sortQ_ascending (l : list Q) : ascending (sortQ l).
Proof.
  induction l as [|x l IH]; [constructor|].
  apply insertQ_ascending. exact IH.
Qed.

Lemma ascending_tail (x : Q) (l : list Q) :
  ascending (x :: l) -> ascending l.
Proof. intros H. inversion H; [constructor|assumption]. Qed.

Lemma ascending_head (x : Q) (l : list Q) :
  ascending (x :: l) -> forall j, (j < List.length l)%nat -> x <= nth j l 0.
Proof.
  revert x. induction l as [|y l IH]; intros x H j Hj; [cbn in Hj; lia|].
  inversion H; subst. destruct j as [|j]; [assumption|].
  cbn [nth]. apply Qle_trans with y; [assumption|].
  apply IH; [assumption|cbn in Hj; lia].
Qed.

Lemma ascending_nth (l : list Q) :
  ascending l ->
  forall i j, (i <= j)%nat -> (j < List.length l)%nat ->
              nth i l 0 <= nth j l 0.
Proof.
  induction l as [|x l IH]; intros H i j Hij Hj; [cbn in Hj; lia|].
  destruct i as [|i]; destruct j as [|j]; try lia.
  - apply Qle_refl.
  - cbn [nth]. apply (ascending_head x l H). cbn in Hj. lia.
  - cbn [nth]. apply IH; [apply (ascending_tail x); exact H|lia|].
    cbn in Hj. lia.
Qed.

(** *** The position and its floor *)

Lemma position_range (n : nat) (k : positive) :
  (Zpos k <= 4)%Z ->
  0 <= position n k /\ position n k <= inject_Z (Z.of_nat (n - 1)).
Proof.
  intros Hk. unfold position.
  assert (Hn : 0 <= inject_Z (Z.of_nat (n - 1))).
  { change 0 with (inject_Z 0). rewrite <- Zle_Qle. lia. }
  assert (Hp : 0 <= Zpos k # 4) by (unfold Qle; cbn; lia).
  assert (Hq : Zpos k # 4 <= 1) by (unfold Qle; cbn; lia).
  split; Lqa.nra.
Qed.

Lemma floor_range (n : nat) (k : positive) :
  (Zpos k <= 4)%Z ->
  (0 <= Qfloor (position n k) <= Z.of_nat (n - 1))%Z.
Proof.
  intros Hk. destruct (position_range n k Hk) as [H0 H1]. split.
  - change 0%Z with (Qfloor 0). apply Qfloor_resp_le. exact H0.
  - rewrite <- (Qfloor_Z (Z.of_nat (n - 1))). apply Qfloor_resp_le. exact H1.
Qed.

Lemma fraction_range (h : Q) :
  0 <= h - inject_Z (Qfloor h) /\ h - inject_Z (Qfloor h) <= 1.
Proof.
  assert (H1 := Qfloor_le h). assert (H2 := Qlt_floor h).
  rewrite inject_Z_plus in H2. change (inject_Z 1) with 1 in H2.
  split; Lqa.lra.
Qed.

Lemma below (n : nat) (k : positive) :
  (0 < n)%nat -> (Zpos k <= 4)%Z ->
  (Z.to_nat (Qfloor (position n k)) < n)%nat.
Proof. intros Hn Hk. destruct (floor_range n k Hk). lia. Qed.

(** *** The quartile lies between the order statistics around it *)

Lemma order_statistics (s : list Q) (lo : nat) :
  ascending s -> (lo < List.length s)%nat ->
  nth lo s 0 <= nth (S lo) s (nth lo s 0).
Proof.
  intros Hs Hlo. destruct (Nat.lt_ge_cases (S lo) (List.length s)) as [H|H].
  - rewrite (nth_indep s _ 0 H). apply ascending_nth; [exact Hs|lia|exact H].
  - rewrite (nth_overflow s _ H). apply Qle_refl.
Qed.

Lemma quartile_between (k : positive) (qs : list Q) :
  qs <> [] -> (Zpos k <= 4)%Z ->
  let s := sortQ qs in
  let lo := Z.to_nat (Qfloor (position (List.length s) k)) in
  nth lo s 0 <= quartile k qs
  /\ quartile k qs <= nth (S lo) s (nth lo s 0).
Proof.
  intros Hne Hk s lo. unfold quartile. fold s. fold lo.
  assert (Hn : (0 < List.length s)%nat).
  { unfold s. rewrite sortQ_length. destruct qs; [congruence|cbn; lia]. }
  assert (Hab := order_statistics s lo (sortQ_ascending qs)
                   (below _ k Hn Hk)).
  destruct (fraction_range (position (List.length s) k)) as [Hf0 Hf1].
  split; Lqa.nra.
Qed.

Lemma quartiles_ordered (qs : list Q) :
  qs <> [] -> quartile 1 qs <= quartile 3 qs.
Proof.
  intros Hne.
  assert (H1 : (Zpos 1 <= 4)%Z) by lia.
  assert (H3 : (Zpos 3 <= 4)%Z) by lia.
  destruct (quartile_between 1 qs Hne H1) as [Ha1 Hb1].
  destruct (quartile_between 3 qs Hne H3) as [Ha3 Hb3].
  cbv zeta in Ha1, Hb1, Ha3, Hb3.
  set (s := sortQ qs) in *.
  assert (Hn : (0 < List.length s)%nat).
  { unfold s. rewrite sortQ_length. destruct qs; [congruence|cbn; lia]. }
  set (h1 := position (List.length s) 1) in *.
  set (h3 := position (List.length s) 3) in *.
  assert (Hh : h1 <= h3).
  { unfold h1, h3, position.
    assert (0 <= inject_Z (Z.of_nat (List.length s - 1))).
    { change 0 with (inject_Z 0). rewrite <- Zle_Qle. lia. }
    assert (1 # 4 <= 3 # 4) by (unfold Qle; cbn; lia).
    Lqa.nra. }
  assert (Hfl := Qfloor_resp_le _ _ Hh).
  destruct (floor_range (List.length s) 1 H1) as [Hl1 _].
  destruct (floor_range (List.length s) 3 H3) as [Hl3 Hu3].
  fold h1 in Hl1. fold h3 in Hl3, Hu3.
  destruct (Z.eq_dec (Qfloor h1) (Qfloor h3)) as [E|E].
  - unfold quartile. fold s. fold h1. fold h3. rewrite E.
    set (lo := Z.to_nat (Qfloor h3)) in *.
    assert (Hab := order_statistics s lo (sortQ_ascending qs)).
    assert (Hlo : (lo < List.length s)%nat) by (unfold lo; lia).
    specialize (Hab Hlo).
    Lqa.nra.
  - set (lo1 := Z.to_nat (Qfloor h1)) in *.
    set (lo3 := Z.to_nat (Qfloor h3)) in *.
    assert (Hlt : (S lo1 <= lo3)%nat) by (unfold lo1, lo3; lia).
    assert (Hlo3 : (lo3 < List.length s)%nat) by (unfold lo3; lia).
    assert (Hmid : nth (S lo1) s (nth lo1 s 0) <= nth lo3 s 0).
    { rewrite (nth_indep s _ 0) by lia.
      apply ascending_nth; [apply sortQ_ascending|exact Hlt|exact Hlo3]. }
    apply Qle_trans with (nth (S lo1) s (nth lo1 s 0)); [exact Hb1|].
    apply Qle_trans with (nth lo3 s 0); [exact Hmid|exact Ha3].
Qed.

(** *** What the function computes *)

Lemma quantile_finite (k : positive) (qs : list Q) :
  qs <> [] -> (Zpos k <= 4)%Z ->
  exists v, quantile k 4 (map Fin qs) = Fin v /\ v == quartile k qs.
Proof.
  intros Hne Hk. unfold quantile.
  rewrite AnomalyStats.present_finite, sort_floats_finite.
  assert (Hn : (0 < List.length (sortQ qs))%nat).
  { rewrite sortQ_length. destruct qs; [congruence|cbn; lia]. }
  destruct (map Fin (sortQ qs)) as [|x0 rest] eqn:Es.
  { apply (f_equal (@List.length _)) in Es. rewrite length_map in Es.
    cbn in Es. lia. }
  rewrite <- Es. clear Es x0 rest. cbv zeta. rewrite length_map.
  fold (position (List.length (sortQ qs)) k).
  set (h := position (List.length (sortQ qs)) k).
  set (lo := Z.to_nat (Qfloor h)).
  assert (Hlo : (lo < List.length (sortQ qs))%nat) by (apply below; assumption).
  assert (Ha : nth lo (map Fin (sortQ qs)) NaN = Fin (nth lo (sortQ qs) 0)).
  { rewrite (nth_indep _ NaN (Fin 0)) by (rewrite length_map; exact Hlo).
    apply map_nth. }
  rewrite Ha.
  rewrite (map_nth Fin (sortQ qs) (nth lo (sortQ qs) 0) (S lo)).
  cbn [fsub fneg fadd fmul].
  eexists. split; [reflexivity|].
  unfold quartile. fold h. fold lo.
  rewrite !Qred_correct. ring.
Qed.

Lemma margin_type_finite (lo up q : Q) :
  (margin_type (Fin lo) (Fin up) (Fin q) = "Normal" <-> lo <= q <= up)
  /\ margin_anomaly (Fin lo) (Fin up) (Fin q) = outside lo up q.
Proof.
  unfold margin_anomaly, margin_type, outside.
  destruct (Qle_bool q up) eqn:Eu; destruct (Qle_bool lo q) eqn:El;
    cbn [negb andb]; (split; [|reflexivity]).
  - apply Qle_bool_iff in Eu. apply Qle_bool_iff in El.
    split; [intros _; split; assumption|reflexivity].
  - split; [discriminate|]. intros [H _]. apply Qle_bool_iff in H. congruence.
  - split; [discriminate|]. intros [_ H]. apply Qle_bool_iff in H. congruence.
  - split; [discriminate|]. intros [_ H]. apply Qle_bool_iff in H. congruence.
Qed.

Lemma fences_finite (v1 v3 : Q) (qs : list Q) :
  v1 == quartile 1 qs -> v3 == quartile 3 qs ->
  exists lo up,
    fsub (Fin v1) (fmul (Fin (3 # 2)) (fsub (Fin v3) (Fin v1))) = Fin lo
    /\ fadd (Fin v3) (fmul (Fin (3 # 2)) (fsub (Fin v3) (Fin v1))) = Fin up
    /\ lo == lower_fence qs /\ up == upper_fence qs.
Proof.
  intros H1 H3. cbn [fsub fneg fadd fmul]. eexists. eexists.
  split; [reflexivity|]. split; [reflexivity|].
  unfold lower_fence, upper_fence. rewrite !Qred_correct, H1, H3.
  split; ring.
Qed.

(** X22.  The margin detector and its fences.  Over a non-empty table of
    finite margins the quartiles are the linearly interpolated order
    statistics, the fences lie one and a half inter-quartile ranges
    outside them, and a subcategory is flagged exactly when its margin is
    outside the fences, in the order of the table.  The fences enclose
    the quartiles, so a subcategory whose margin is between the quartiles
    is never flagged and is typed "Normal". *)
Theorem margins_between_the_quartiles_are_normal :
  forall (db : Storage) (F : Formatter) (params : dict) (ctx : string)
         (df : table) (qs : list Q),
    EdgeSpec.answers db df ->
    column_floats "avg_margin" df = Ok (map Fin qs) ->
    qs <> [] ->
    exists o data lo up,
      _product_anomaly db F params ctx = Ok o
      /\ out_data o = Some data
      /\ lo == lower_fence qs /\ up == upper_fence qs
      /\ lo <= quartile 1 qs
      /\ quartile 1 qs <= quartile 3 qs
      /\ quartile 3 qs <= up
      /\ map (dict_get "anomaly") data
         = map (fun q => Some (VBool (outside lo up q))) qs
      /\ map (dict_get "anomaly_type") data
         = map (fun q => Some (VStr (margin_type (Fin lo) (Fin up) (Fin q))))
               qs
      /\ (forall q, quartile 1 qs <= q <= quartile 3 qs ->
             outside lo up q = false
             /\ margin_type (Fin lo) (Fin up) (Fin q) = "Normal")
      /\ out_metadata o = [("iqr_lower", VFloat (fround 2 (Fin lo)));
                           ("iqr_upper", VFloat (fround 2 (Fin up)))].
Proof.
  intros db F params ctx df qs Hdb Hxs Hne.
  assert (H1 : (Zpos 1 <= 4)%Z) by lia.
  assert (H3 : (Zpos 3 <= 4)%Z) by lia.
  destruct (quantile_finite 1 qs Hne H1) as (v1 & Hq1 & Hv1).
  destruct (quantile_finite 3 qs Hne H3) as (v3 & Hq3 & Hv3).
  destruct (fences_finite v1 v3 qs Hv1 Hv3) as (lo & up & Hlo & Hup & Elo & Eup).
  assert (Hord := quartiles_ordered qs Hne).
  assert (Hlow : lo <= quartile 1 qs).
  { rewrite Elo. unfold lower_fence. Lqa.lra. }
  assert (Hupp : quartile 3 qs <= up).
  { rewrite Eup. unfold upper_fence. Lqa.lra. }
  assert (Hlen := FrameFacts.column_floats_length _ _ _ Hxs).
  rewrite length_map in Hlen.
  unfold _product_anomaly. rewrite Hdb. cbn [bind]. rewrite Hxs. cbn [bind].
  cbv zeta. rewrite Hq1, Hq3, Hlo, Hup.
  eexists. eexists. exists lo, up.
  split; [reflexivity|]. cbn [out_data out_metadata].
  split; [reflexivity|].
  split; [exact Elo|]. split; [exact Eup|].
  split; [exact Hlow|]. split; [exact Hord|]. split; [exact Hupp|].
  assert (Hl1 : List.length
                  (map (fun x => VBool (margin_anomaly (Fin lo) (Fin up) x))
                       (map Fin qs))
                = List.length df) by (rewrite !length_map; exact Hlen).
  assert (Hl2 : List.length
                  (map (fun x => VStr (margin_type (Fin lo) (Fin up) x))
                       (map Fin qs))
                = List.length
                    (set_column "anomaly"
                       (map (fun x => VBool (margin_anomaly (Fin lo) (Fin up) x))
                            (map Fin qs)) df)).
  { rewrite FrameFacts.set_column_length by exact Hl1.
    rewrite !length_map. exact Hlen. }
  split.
  { rewrite FrameFacts.set_column_other by (try discriminate; exact Hl2).
    rewrite FrameFacts.set_column_same by exact Hl1.
    rewrite !map_map. apply map_ext. intros q.
    destruct (margin_type_finite lo up q) as [_ ->]. reflexivity. }
  split.
  { rewrite FrameFacts.set_column_same by exact Hl2.
    rewrite !map_map. reflexivity. }
  split; [|reflexivity].
  intros q [Hq1' Hq3'].
  assert (Hin : lo <= q <= up).
  { split; [apply Qle_trans with (quartile 1 qs)
           |apply Qle_trans with (quartile 3 qs)]; assumption. }
  split.
  - unfold outside. destruct Hin as [Ha Hb].
    apply Qle_bool_iff in Ha. apply Qle_bool_iff in Hb.
    rewrite Ha, Hb. reflexivity.
  - apply margin_type_finite. exact Hin.
Qed.

(** X22, worked example: five subcategories, one with a margin of 40. *)
Lemma one_margin_outside_the_fences :
  exists o data,
    _product_anomaly (fun _ _ => Ok five_subcategories) Examples.plain [] ""
    = Ok o
    /\ out_data o = Some data
    /\ map (dict_get "anomaly") data
       = [Some (VBool false); Some (VBool false); Some (VBool false);
          Some (VBool false); Some (VBool true)].
Proof.
  assert (Hne : five_margins <> []) by discriminate.
  destruct (margins_between_the_quartiles_are_normal
              (fun _ _ => Ok five_subcategories) Examples.plain [] ""
              five_subcategories five_margins
              (fun _ _ => eq_refl) eq_refl Hne)
    as (o & data & lo & up & Ho & Hd & _).
  exists o, data. split; [exact Ho|]. split; [exact Hd|].
  vm_compute in Ho. inversion Ho. subst o. cbn [out_data] in Hd.
  inversion Hd. reflexivity.
Defined.

End QuartileProofs.

